(** * Krono: a shallow embedding of [src/index.ts]

    The development follows the layout of the source file: the platform
    (ECMAScript numbers, [Date], strings, regular expressions and the
    [Intl] oracle), the error classes, the LRU cache, the validation
    utilities, the [zone] namespace, the [Krono] class, and then the
    properties established about them.

    Modelling conventions.
    - A JavaScript number is a [number]: a mathematical integer, [NaN] or
      an infinity.  Integers of magnitude at most 8.64e15 < 2^53 are exact
      in the source's arithmetic.  Finite numbers with a fractional part are
      not represented: [validateTimestamp] accepts them and [Date] truncates
      them, so the results below speak of timestamps, amounts and field
      values that are whole numbers, and say nothing of the others.
    - A [Date] object is its time value (a [number]); the code never shares a
      [Date] it mutates, so setters are functions from time value to time
      value, written after ECMA-262 section 21.4.
    - Strings are sequences of 8-bit characters.
    - The module-level caches and the clock are threaded explicitly through a
      state-and-exception monad [M]; an exception keeps the state reached. *)

From Stdlib Require Import ZArith List String Ascii Bool Lia.
Import ListNotations.
Open Scope string_scope.
Open Scope Z_scope.

Set Implicit Arguments.

(* ================================================================== *)
(** * ECMAScript numbers                                                *)
(* ================================================================== *)

Inductive number : Type :=
| Int (z : Z)
| NaN
| Infinity (negative : bool).

Definition isFinite (n : number) : bool :=
  match n with Int _ => true | _ => false end.

Definition isNaN (n : number) : bool :=
  match n with NaN => true | _ => false end.

(** [a + b] *)
Definition nadd (a b : number) : number :=
  match a, b with
  | Int x, Int y => Int (x + y)
  | NaN, _ | _, NaN => NaN
  | Infinity s, Infinity s' => if Bool.eqb s s' then Infinity s else NaN
  | Infinity s, Int _ | Int _, Infinity s => Infinity s
  end.

(** [- a] *)
Definition nneg (a : number) : number :=
  match a with
  | Int x => Int (- x)
  | NaN => NaN
  | Infinity s => Infinity (negb s)
  end.

(** [a - b] *)
Definition nsub (a b : number) : number := nadd a (nneg b).

(** [a * k] for an integer constant [k] different from zero. *)
Definition nscale (a : number) (k : Z) : number :=
  match a with
  | Int x => Int (x * k)
  | NaN => NaN
  | Infinity s => Infinity (if k <? 0 then negb s else s)
  end.

(** [a < b]; every comparison with [NaN] is false. *)
Definition nlt (a b : number) : bool :=
  match a, b with
  | Int x, Int y => x <? y
  | NaN, _ | _, NaN => false
  | Infinity s, Infinity s' => s && negb s'
  | Infinity s, Int _ => s
  | Int _, Infinity s => negb s
  end.

(** [a > b] *)
Definition ngt (a b : number) : bool := nlt b a.

(** [a === b]; [NaN] is not equal to itself. *)
Definition strict_eq (a b : number) : bool :=
  match a, b with
  | Int x, Int y => x =? y
  | Infinity s, Infinity s' => Bool.eqb s s'
  | _, _ => false
  end.

(** [Math.abs] *)
Definition Math_abs (a : number) : number :=
  match a with
  | Int x => Int (Z.abs x)
  | NaN => NaN
  | Infinity _ => Infinity false
  end.

(** [Math.min] of two numbers. *)
Definition Math_min (a b : number) : number :=
  match a, b with
  | NaN, _ | _, NaN => NaN
  | _, _ => if nlt b a then b else a
  end.

(** [Math.floor (a / k)] for an integer constant [k > 0]. *)
Definition floor_div (a : number) (k : Z) : number :=
  match a with
  | Int x => Int (x / k)
  | other => other
  end.

(** [a % k]: the remainder has the sign of the dividend. *)
Definition nrem (a : number) (k : Z) : number :=
  match a with
  | Int x => Int (Z.rem x k)
  | _ => NaN
  end.

(* ================================================================== *)
(** * ECMAScript dates (ECMA-262, section 21.4.1)                       *)
(* ================================================================== *)

Module DateSpec.

Definition msPerSecond : Z := 1000.
Definition msPerMinute : Z := 60000.
Definition msPerHour : Z := 3600000.
Definition msPerDay : Z := 86400000.

(** The largest magnitude of a time value. *)
Definition maxTime : Z := 8640000000000000.

Definition Day (t : Z) : Z := t / msPerDay.
Definition TimeWithinDay (t : Z) : Z := t mod msPerDay.

Definition isLeap (y : Z) : bool :=
  ((y mod 4 =? 0) && negb (y mod 100 =? 0)) || (y mod 400 =? 0).

Definition DaysInYear (y : Z) : Z := if isLeap y then 366 else 365.

Definition DayFromYear (y : Z) : Z :=
  365 * (y - 1970) + (y - 1969) / 4 - (y - 1901) / 100 + (y - 1601) / 400.

(** The largest [y] with [DayFromYear y <= d]: a first guess from the mean
    length of a year, corrected by at most one. *)
Definition YearFromDay (d : Z) : Z :=
  let y0 := 1970 + (400 * d) / 146097 in
  if d <? DayFromYear y0 then y0 - 1
  else if DayFromYear (y0 + 1) <=? d then y0 + 1
  else y0.

Definition YearFromTime (t : Z) : Z := YearFromDay (Day t).
Definition InLeapYear (t : Z) : bool := isLeap (YearFromTime t).
Definition DayWithinYear (t : Z) : Z := Day t - DayFromYear (YearFromTime t).

(** Day number within the year of the first day of month [m] (0-based). *)
Definition monthStart (leap : bool) (m : Z) : Z :=
  let l := if leap then 1 else 0 in
  match m with
  | 0 => 0
  | 1 => 31
  | 2 => 59 + l
  | 3 => 90 + l
  | 4 => 120 + l
  | 5 => 151 + l
  | 6 => 181 + l
  | 7 => 212 + l
  | 8 => 243 + l
  | 9 => 273 + l
  | 10 => 304 + l
  | 11 => 334 + l
  | _ => 365 + l
  end.

Definition monthOfYearDay (leap : bool) (d : Z) : Z :=
  if d <? monthStart leap 1 then 0
  else if d <? monthStart leap 2 then 1
  else if d <? monthStart leap 3 then 2
  else if d <? monthStart leap 4 then 3
  else if d <? monthStart leap 5 then 4
  else if d <? monthStart leap 6 then 5
  else if d <? monthStart leap 7 then 6
  else if d <? monthStart leap 8 then 7
  else if d <? monthStart leap 9 then 8
  else if d <? monthStart leap 10 then 9
  else if d <? monthStart leap 11 then 10
  else 11.

Definition MonthFromTime (t : Z) : Z :=
  monthOfYearDay (InLeapYear t) (DayWithinYear t).

Definition DateFromTime (t : Z) : Z :=
  DayWithinYear t - monthStart (InLeapYear t) (MonthFromTime t) + 1.

Definition WeekDay (t : Z) : Z := (Day t + 4) mod 7.

Definition HourFromTime (t : Z) : Z := (t / msPerHour) mod 24.
Definition MinFromTime (t : Z) : Z := (t / msPerMinute) mod 60.
Definition SecFromTime (t : Z) : Z := (t / msPerSecond) mod 60.
Definition msFromTime (t : Z) : Z := t mod msPerSecond.

Definition MakeTime (hour min sec ms : Z) : Z :=
  hour * msPerHour + min * msPerMinute + sec * msPerSecond + ms.

(** [MakeDay] for finite arguments: the day number of day [date] of the
    month [month] (counted from 0, any integer) of [year].  It is total on
    integers, as the engines compute it; the range of time values is
    enforced by [TimeClip] alone. *)
Definition MakeDay (year month date : Z) : Z :=
  let ym := year + month / 12 in
  let mn := month mod 12 in
  DayFromYear ym + monthStart (isLeap ym) mn + date - 1.

Definition MakeDate (day time : Z) : Z := day * msPerDay + time.

Definition TimeClip (t : Z) : number :=
  if Z.abs t <=? maxTime then Int t else NaN.

(** [MakeFullYear]: two-digit years are taken in the twentieth century. *)
Definition MakeFullYear (y : Z) : Z :=
  if (0 <=? y) && (y <=? 99) then 1900 + y else y.

End DateSpec.

(* ================================================================== *)
(** * The platform                                                      *)
(* ================================================================== *)

(** The numeric fields that [Intl.DateTimeFormat.formatToParts] reports for
    an instant in a time zone, as [getOffset] reads them through
    [partValue]. *)
Record Parts : Type := {
  part_year : Z;
  part_month : Z;
  part_day : Z;
  part_hour : Z;
  part_minute : Z;
  part_second : Z
}.

(** What the library takes from its environment. *)
Record Platform : Type := {
  (** [new Intl.DateTimeFormat (_, { timeZone })] does not throw *)
  timeZoneSupported : string -> bool;
  (** the fields of a valid time value in a supported zone *)
  formatToParts : string -> Z -> Parts;
  (** offset of the host's local time at local time [t]: [UTC(t) = t - LocalTZA t] *)
  LocalTZA : Z -> Z;
  (** [Intl.DateTimeFormat().resolvedOptions().timeZone] *)
  resolvedTimeZone : string;
  (** the successive readings of [Date.now()] *)
  DateNow : nat -> Z;
  (** [Date.parse] on a string outside the ECMAScript date-time format *)
  legacyDateParse : string -> number
}.

(* ================================================================== *)
(** * Date objects                                                      *)
(* ================================================================== *)

Module JSDate.
Import DateSpec.

(** A [Date] is its time value: an integer within [maxTime] or [NaN]. *)
Definition t : Type := number.

(** [new Date(value)] for a number. *)
Definition ofNumber (value : number) : t :=
  match value with Int z => TimeClip z | _ => NaN end.

Definition getTime (d : t) : number := d.

Definition getter (f : Z -> Z) (d : t) : number :=
  match d with Int tv => Int (f tv) | _ => NaN end.

Definition getUTCFullYear : t -> number := getter YearFromTime.
Definition getUTCMonth : t -> number := getter MonthFromTime.
Definition getUTCDate : t -> number := getter DateFromTime.
Definition getUTCDay : t -> number := getter WeekDay.
Definition getUTCHours : t -> number := getter HourFromTime.
Definition getUTCMinutes : t -> number := getter MinFromTime.
Definition getUTCSeconds : t -> number := getter SecFromTime.
Definition getUTCMilliseconds : t -> number := getter msFromTime.

Definition orElse (o : option number) (dflt : Z) : number :=
  match o with Some n => n | None => Int dflt end.

(** [setUTCFullYear(year [, month [, date]])]; an invalid date is treated
    as time value 0. *)
Definition setUTCFullYear (d : t) (year : number)
    (month date : option number) : t :=
  let tv := match d with Int tv => tv | _ => 0 end in
  match year, orElse month (MonthFromTime tv), orElse date (DateFromTime tv) with
  | Int y, Int m, Int dt =>
      TimeClip (MakeDate (MakeDay y m dt) (TimeWithinDay tv))
  | _, _, _ => NaN
  end.

(** [setUTCMonth(month [, date])] *)
Definition setUTCMonth (d : t) (month : number) (date : option number) : t :=
  match d with
  | Int tv =>
      match month, orElse date (DateFromTime tv) with
      | Int m, Int dt =>
          TimeClip (MakeDate (MakeDay (YearFromTime tv) m dt) (TimeWithinDay tv))
      | _, _ => NaN
      end
  | _ => NaN
  end.

(** [setUTCDate(date)] *)
Definition setUTCDate (d : t) (date : number) : t :=
  match d, date with
  | Int tv, Int dt =>
      TimeClip (MakeDate (MakeDay (YearFromTime tv) (MonthFromTime tv) dt)
                         (TimeWithinDay tv))
  | _, _ => NaN
  end.

(** [setUTCHours(hour [, min [, sec [, ms]]])] *)
Definition setUTCHours (d : t) (hour : number)
    (min sec ms : option number) : t :=
  match d with
  | Int tv =>
      match hour, orElse min (MinFromTime tv), orElse sec (SecFromTime tv),
            orElse ms (msFromTime tv) with
      | Int h, Int m, Int s, Int milli =>
          TimeClip (MakeDate (Day tv) (MakeTime h m s milli))
      | _, _, _, _ => NaN
      end
  | _ => NaN
  end.

(** [setUTCMinutes(min [, sec [, ms]])] *)
Definition setUTCMinutes (d : t) (min : number) (sec ms : option number) : t :=
  match d with
  | Int tv =>
      match min, orElse sec (SecFromTime tv), orElse ms (msFromTime tv) with
      | Int m, Int s, Int milli =>
          TimeClip (MakeDate (Day tv) (MakeTime (HourFromTime tv) m s milli))
      | _, _, _ => NaN
      end
  | _ => NaN
  end.

(** [setUTCSeconds(sec [, ms])] *)
Definition setUTCSeconds (d : t) (sec : number) (ms : option number) : t :=
  match d with
  | Int tv =>
      match sec, orElse ms (msFromTime tv) with
      | Int s, Int milli =>
          TimeClip (MakeDate (Day tv)
                      (MakeTime (HourFromTime tv) (MinFromTime tv) s milli))
      | _, _ => NaN
      end
  | _ => NaN
  end.

(** [setUTCMilliseconds(ms)] *)
Definition setUTCMilliseconds (d : t) (ms : number) : t :=
  match d, ms with
  | Int tv, Int milli =>
      TimeClip (MakeDate (Day tv)
                  (MakeTime (HourFromTime tv) (MinFromTime tv)
                            (SecFromTime tv) milli))
  | _, _ => NaN
  end.

(** [Date.UTC(year, month, date, hours, minutes, seconds, ms)] *)
Definition UTC7 (year month date hours minutes seconds ms : number) : number :=
  match year, month, date, hours, minutes, seconds, ms with
  | Int y, Int m, Int dt, Int h, Int mi, Int s, Int milli =>
      TimeClip (MakeDate (MakeDay (MakeFullYear y) m dt) (MakeTime h mi s milli))
  | _, _, _, _, _, _, _ => NaN
  end.

(** [new Date(year, month, date)]: the fields are read in the host's local
    time. *)
Definition ofLocalFields (host : Platform) (year month date : number) : t :=
  match year, month, date with
  | Int y, Int m, Int dt =>
      let local := MakeDate (MakeDay (MakeFullYear y) m dt) (MakeTime 0 0 0 0) in
      TimeClip (local - LocalTZA host local)
  | _, _, _ => NaN
  end.

End JSDate.

(* ================================================================== *)
(** * Strings                                                           *)
(* ================================================================== *)

Module Str.

Definition code (c : ascii) : nat := nat_of_ascii c.

Definition between (lo hi : nat) (c : ascii) : bool :=
  Nat.leb lo (code c) && Nat.leb (code c) hi.

(** White space and line terminators among the 8-bit characters. *)
Definition isWhiteSpace (c : ascii) : bool :=
  between 9 13 c || Nat.eqb (code c) 32 || Nat.eqb (code c) 160.

Definition isDigit (c : ascii) : bool := between 48 57 c.

Definition lowerChar (c : ascii) : ascii :=
  if between 65 90 c || (between 192 222 c && negb (Nat.eqb (code c) 215))
  then ascii_of_nat (code c + 32) else c.

(** Upper case of an ASCII letter; other characters are left alone, which
    is how a case-insensitive pattern made of ASCII letters compares. *)
Definition upperASCII (c : ascii) : ascii :=
  if between 97 122 c then ascii_of_nat (code c - 32) else c.

Definition chars (s : string) : list ascii := list_ascii_of_string s.
Definition ofChars (l : list ascii) : string := string_of_list_ascii l.

Fixpoint dropWhile (p : ascii -> bool) (l : list ascii) : list ascii :=
  match l with
  | c :: l' => if p c then dropWhile p l' else l
  | [] => []
  end.

(** [s.trim()] *)
Definition trim (s : string) : string :=
  ofChars (rev (dropWhile isWhiteSpace (rev (dropWhile isWhiteSpace (chars s))))).

(** [s.toLowerCase()] *)
Definition toLowerCase (s : string) : string :=
  ofChars (map lowerChar (chars s)).

Fixpoint isPrefix (p l : list ascii) : bool :=
  match p, l with
  | [], _ => true
  | a :: p', b :: l' => Ascii.eqb a b && isPrefix p' l'
  | _ :: _, [] => false
  end.

Fixpoint includesChars (sub l : list ascii) : bool :=
  isPrefix sub l ||
  match l with
  | [] => false
  | _ :: l' => includesChars sub l'
  end.

(** [s.includes(sub)] *)
Definition includes (s sub : string) : bool :=
  includesChars (chars sub) (chars s).

Fixpoint replaceChars (pat by_ l : list ascii) : list ascii :=
  if isPrefix pat l then (by_ ++ skipn (List.length pat) l)%list
  else match l with
       | [] => []
       | c :: l' => c :: replaceChars pat by_ l'
       end.

(** [s.replace(pat, by)] for a string pattern: the first occurrence only. *)
Definition replace (s pat by_ : string) : string :=
  ofChars (replaceChars (chars pat) (chars by_) (chars s)).

(** [s.padStart(n, "0")] *)
Definition padStart0 (n : nat) (s : string) : string :=
  String.append (ofChars (repeat "0"%char (n - String.length s))) s.

Definition digitChar (d : Z) : ascii := ascii_of_nat (48 + Z.to_nat d).

Fixpoint digitsOfPos (fuel : nat) (z : Z) (acc : list ascii) : list ascii :=
  match fuel with
  | O => acc
  | S fuel' =>
      if z <? 10 then digitChar z :: acc
      else digitsOfPos fuel' (z / 10) (digitChar (z mod 10) :: acc)
  end.

(** Decimal digits of an integer, as [String(n)] prints those below 1e21. *)
Definition ofZ (z : Z) : string :=
  let digits := ofChars (digitsOfPos (S (Z.to_nat (Z.log2 (Z.abs z)))) (Z.abs z) []) in
  if z <? 0 then String.append "-" digits else digits.

(** [String(n)], the conversion a template literal applies. *)
Definition ofNumber (n : number) : string :=
  match n with
  | Int z => ofZ z
  | NaN => "NaN"
  | Infinity false => "Infinity"
  | Infinity true => "-Infinity"
  end.

(** [Number.parseInt(s, 10)] on a string of decimal digits. *)
Definition parseDigits (s : string) : Z :=
  fold_left (fun acc c => 10 * acc + Z.of_nat (code c - 48)) (chars s) 0.

End Str.

(* ================================================================== *)
(** * Regular expressions                                               *)
(* ================================================================== *)

(** A backtracking matcher with the priorities of ECMAScript: the first
    alternative first, quantifiers greedy, the leftmost start first. *)
Module RegExp.

Inductive regex : Type :=
| Eps
| Bol                                (* ^ *)
| Eol                                (* $ *)
| Class (p : ascii -> bool)
| Seq (a b : regex)
| Alt (a b : regex)
| Star (r : regex)
| Group (i : nat) (r : regex).       (* the i-th capturing group *)

Definition captures : Type := list (nat * list ascii).

Definition cont : Type := nat -> list ascii -> captures -> option captures.

Fixpoint run (r : regex) (pos : nat) (s : list ascii) (c : captures)
    (k : cont) {struct r} : option captures :=
  match r with
  | Eps => k pos s c
  | Bol => if Nat.eqb pos 0 then k pos s c else None
  | Eol => match s with [] => k pos s c | _ :: _ => None end
  | Class p =>
      match s with
      | a :: s' => if p a then k (S pos) s' c else None
      | [] => None
      end
  | Seq a b => run a pos s c (fun pos' s' c' => run b pos' s' c' k)
  | Alt a b =>
      match run a pos s c k with
      | Some m => Some m
      | None => run b pos s c k
      end
  | Star r' =>
      (fix loop (fuel : nat) (pos : nat) (s : list ascii) (c : captures)
         : option captures :=
         match fuel with
         | O => k pos s c
         | S fuel' =>
             match run r' pos s c
                     (fun pos' s' c' =>
                        if Nat.ltb (List.length s') (List.length s)
                        then loop fuel' pos' s' c' else None) with
             | Some m => Some m
             | None => k pos s c
             end
         end) (List.length s) pos s c
  | Group i r' =>
      run r' pos s c
          (fun pos' s' c' =>
             k pos' s' ((i, firstn (List.length s - List.length s') s) :: c'))
  end.

Fixpoint search (r : regex) (pos : nat) (s : list ascii) : option captures :=
  match run (Group 0 r) pos s [] (fun _ _ c => Some c) with
  | Some m => Some m
  | None =>
      match s with
      | [] => None
      | _ :: s' => search r (S pos) s'
      end
  end.

(** [str.match(r)] for a pattern without the global flag. *)
Definition exec (r : regex) (str : string) : option captures :=
  search r 0 (Str.chars str).

(** [r.test(str)] *)
Definition test (r : regex) (str : string) : bool :=
  match exec r str with Some _ => true | None => false end.

(** [m[i]]; [None] stands for [undefined]. *)
Fixpoint group (m : captures) (i : nat) : option string :=
  match m with
  | [] => None
  | (j, s) :: m' => if Nat.eqb i j then Some (Str.ofChars s) else group m' i
  end.

Definition groupOr (m : captures) (i : nat) : string :=
  match group m i with Some s => s | None => "" end.

(** Pattern syntax. *)
Definition chr (c : ascii) : regex := Class (Ascii.eqb c).
Definition chr_i (c : ascii) : regex :=
  Class (fun x => Ascii.eqb (Str.upperASCII x) (Str.upperASCII c)).
Definition digit : regex := Class Str.isDigit.          (* \d *)
Definition space : regex := Class Str.isWhiteSpace.     (* \s *)
Definition oneOf (s : string) : regex :=
  Class (fun x => existsb (Ascii.eqb x) (Str.chars s)).
Definition opt (r : regex) : regex := Alt r Eps.         (* r? *)
Definition plus (r : regex) : regex := Seq r (Star r).   (* r+ *)
Definition seqs (l : list regex) : regex := fold_right Seq Eps l.
Definition alts (l : list regex) : regex :=
  match l with
  | [] => Class (fun _ => false)
  | r :: l' => fold_left Alt l' r
  end.
Fixpoint rep (n : nat) (r : regex) : regex :=           (* r{n} *)
  match n with
  | O => Eps
  | S n' => Seq r (rep n' r)
  end.
Definition lit (s : string) : regex := seqs (map chr (Str.chars s)).
Definition lit_i (s : string) : regex := seqs (map chr_i (Str.chars s)).

End RegExp.

(* ================================================================== *)
(** * Error classes                                                     *)
(* ================================================================== *)

(** [KronoError] is the base class; [KronoParseError] and
    [KronoTimezoneError] extend it and carry their constructor arguments.
    [RangeError] is the native error of the platform. *)
Inductive error : Type :=
| KronoError (message : string)
| KronoParseError (input reason : string)
| KronoTimezoneError (timezone : string)
| RangeError (message : string).

(** [e instanceof KronoError] *)
Definition instanceofKronoError (e : error) : bool :=
  match e with
  | KronoError _ | KronoParseError _ _ | KronoTimezoneError _ => true
  | RangeError _ => false
  end.

(* ================================================================== *)
(** * Utility classes                                                   *)
(* ================================================================== *)

(** [Map]: keys in insertion order; setting a key already present keeps
    its place. *)
Module JSMap.
Section WithKey.
Variables (K V : Type) (keq : K -> K -> bool).

Definition t : Type := list (K * V).

Fixpoint get (m : t) (key : K) : option V :=
  match m with
  | [] => None
  | (k, v) :: m' => if keq key k then Some v else get m' key
  end.

Definition has (m : t) (key : K) : bool :=
  match get m key with Some _ => true | None => false end.

Fixpoint delete (m : t) (key : K) : t :=
  match m with
  | [] => []
  | (k, v) :: m' => if keq key k then m' else (k, v) :: delete m' key
  end.

Fixpoint set (m : t) (key : K) (value : V) : t :=
  match m with
  | [] => [(key, value)]
  | (k, v) :: m' =>
      if keq key k then (k, value) :: m' else (k, v) :: set m' key value
  end.

Definition size (m : t) : nat := List.length m.

(** [m.keys().next().value] *)
Definition firstKey (m : t) : option K :=
  match m with
  | [] => None
  | (k, _) :: _ => Some k
  end.

End WithKey.
End JSMap.

(** [LRUCache<string, V>] *)
Module LRUCache.
Section WithValue.
Variable V : Type.

Record t : Type := { cache : JSMap.t string V; maxSize : nat }.

Definition get (c : t) (key : string) : option V * t :=
  match JSMap.get String.eqb (cache c) key with
  | Some value =>
      (* move to the end: most recently used *)
      (Some value,
       {| cache := JSMap.set String.eqb (JSMap.delete String.eqb (cache c) key)
                             key value;
          maxSize := maxSize c |})
  | None => (None, c)
  end.

Definition set (c : t) (key : string) (value : V) : t :=
  let m :=
    if JSMap.has String.eqb (cache c) key then JSMap.delete String.eqb (cache c) key
    else if Nat.leb (maxSize c) (JSMap.size (cache c)) then
      (* remove the least recently used *)
      match JSMap.firstKey (cache c) with
      | Some firstKey => JSMap.delete String.eqb (cache c) firstKey
      | None => cache c
      end
    else cache c in
  {| cache := JSMap.set String.eqb m key value; maxSize := maxSize c |}.

Definition has (c : t) (key : string) : bool :=
  JSMap.has String.eqb (cache c) key.

End WithValue.
End LRUCache.

(** The keys of a map, oldest first. *)
Definition keysOf {V : Type} (m : JSMap.t string V) : list string := map fst m.

(* ================================================================== *)
(** * Constants                                                         *)
(* ================================================================== *)

Inductive TimeUnit : Type :=
| millisecond | second | minute | hour | day | week | month | year.

Definition MS_PER_SECOND : Z := 1000.
Definition MS_PER_MINUTE : Z := 60000.
Definition MS_PER_HOUR : Z := 3600000.
Definition MS_PER_DAY : Z := 86400000.
Definition MS_PER_WEEK : Z := 604800000.

(** [UNIT_MULTIPLIERS[unit]]; [None] when [unit in UNIT_MULTIPLIERS] is
    false. *)
Definition UNIT_MULTIPLIERS (unit : TimeUnit) : option Z :=
  match unit with
  | millisecond => Some 1
  | second => Some MS_PER_SECOND
  | minute => Some MS_PER_MINUTE
  | hour => Some MS_PER_HOUR
  | day => Some MS_PER_DAY
  | week => Some MS_PER_WEEK
  | month | year => None
  end.

Definition DAYS_IN_MONTH : list Z := [31; 28; 31; 30; 31; 30; 31; 31; 30; 31; 30; 31].

(* ================================================================== *)
(** * Caches and effects                                                *)
(* ================================================================== *)

(** Keys of the per-zone map compare as [Map] compares numbers: [NaN] is
    equal to itself. *)
Definition sameValueZero (a b : number) : bool :=
  match a, b with
  | Int x, Int y => x =? y
  | NaN, NaN => true
  | Infinity s, Infinity s' => Bool.eqb s s'
  | _, _ => false
  end.

(** The module-level state: the two caches, and how many times the clock
    has been read. *)
Record World : Type := {
  _offsetCache : LRUCache.t (JSMap.t number number);
  _validZoneCache : list string;
  clockReads : nat
}.

Definition initialWorld : World :=
  {| _offsetCache := {| LRUCache.cache := []; LRUCache.maxSize := 100 |};
     _validZoneCache := [];
     clockReads := 0 |}.

Inductive outcome (A : Type) : Type :=
| Ok (a : A)
| Throw (e : error).
Arguments Throw {A} e.

Definition M (A : Type) : Type := World -> outcome A * World.

Definition ret {A : Type} (a : A) : M A := fun w => (Ok a, w).

Definition throw {A : Type} (e : error) : M A := fun w => (Throw e, w).

Definition bind {A B : Type} (m : M A) (f : A -> M B) : M B :=
  fun w =>
    match m w with
    | (Ok a, w') => f a w'
    | (Throw e, w') => (Throw e, w')
    end.

Notation "x <- m ;; f" := (bind m (fun x => f))
  (at level 61, m at next level, right associativity).
Notation "m ;;; f" := (bind m (fun _ => f))
  (at level 61, right associativity).

(** [Date.now()], and [new Date()]: one more reading of the clock. *)
Definition Date_now (host : Platform) : M number :=
  fun w =>
    (Ok (Int (DateNow host (clockReads w))),
     {| _offsetCache := _offsetCache w;
        _validZoneCache := _validZoneCache w;
        clockReads := S (clockReads w) |}).

(* ================================================================== *)
(** * Validation utilities                                              *)
(* ================================================================== *)

Definition validateTimestamp (timestamp : number) : M unit :=
  if negb (isFinite timestamp) then
    throw (KronoError (String.append "Invalid timestamp: " (Str.ofNumber timestamp)))
  else if ngt (Math_abs timestamp) (Int 8640000000000000) then
    throw (KronoError (String.append "Timestamp out of range: " (Str.ofNumber timestamp)))
  else ret tt.

Definition dashed (year month day : Z) : string :=
  String.append (Str.ofZ year)
    (String.append "-" (String.append (Str.ofZ month)
       (String.append "-" (Str.ofZ day)))).

Definition validateDateComponents (year month day : Z) : M unit :=
  if (month <? 1) || (month >? 12) || (day <? 1) || (day >? 31) then
    throw (KronoParseError (dashed year month day) "Invalid date components")
  else
    let isLeap :=
      ((Z.rem year 4 =? 0) && negb (Z.rem year 100 =? 0))
      || (Z.rem year 400 =? 0) in
    let daysInMonthForInput :=
      if (month =? 2) && isLeap then 29
      else nth (Z.to_nat (month - 1)) DAYS_IN_MONTH 0 in
    if day >? daysInMonthForInput then
      throw (KronoParseError (dashed year month day)
               (String.append "Invalid day "
                  (String.append (Str.ofZ day)
                     (String.append " for month "
                        (String.append (Str.ofZ month)
                           (String.append " in year " (Str.ofZ year)))))))
    else ret tt.

(* ================================================================== *)
(** * Patterns                                                          *)
(* ================================================================== *)

Section Patterns.
Import RegExp.

(** [/(?:in\s+)?(\d+)\s+(year|month|week|day|hour|minute|second)s?\s*(?:ago|from\s+now|in)?/i] *)
Definition RELATIVE_REGEX : regex :=
  seqs [ opt (seqs [lit_i "in"; plus space]);
         Group 1 (plus digit);
         plus space;
         Group 2 (alts [lit_i "year"; lit_i "month"; lit_i "week"; lit_i "day";
                        lit_i "hour"; lit_i "minute"; lit_i "second"]);
         opt (chr_i "s");
         Star space;
         opt (alts [lit_i "ago";
                    seqs [lit_i "from"; plus space; lit_i "now"];
                    lit_i "in"]) ].

(** [/^(\d{4})-(\d{2})-(\d{2})(?:T(\d{2}):(\d{2}):(\d{2})(?:\.(\d{3}))?)?(?:Z|([+-]\d{2}):?(\d{2})|$)/] *)
Definition ISO_WITH_ZONE_REGEX : regex :=
  seqs [ Bol;
         Group 1 (rep 4 digit); chr "-"; Group 2 (rep 2 digit); chr "-";
         Group 3 (rep 2 digit);
         opt (seqs [chr "T"; Group 4 (rep 2 digit); chr ":";
                    Group 5 (rep 2 digit); chr ":"; Group 6 (rep 2 digit);
                    opt (seqs [chr "."; Group 7 (rep 3 digit)])]);
         alts [ chr "Z";
                seqs [Group 8 (seqs [oneOf "+-"; rep 2 digit]); opt (chr ":");
                      Group 9 (rep 2 digit)];
                Eol ] ].

Definition weekdayNames : regex :=
  alts [lit_i "monday"; lit_i "tuesday"; lit_i "wednesday"; lit_i "thursday";
        lit_i "friday"; lit_i "saturday"; lit_i "sunday"].

Inductive handlerName : Type :=
| nextWeekday | lastWeekday | startOfHandler | endOfHandler.

Definition NATURAL_PATTERNS : list (regex * handlerName) :=
  [ (* /^next\s+(monday|...|sunday)$/i *)
    (seqs [Bol; lit_i "next"; plus space; Group 1 weekdayNames; Eol], nextWeekday);
    (* /^last\s+(monday|...|sunday)$/i *)
    (seqs [Bol; lit_i "last"; plus space; Group 1 weekdayNames; Eol], lastWeekday);
    (* /^(beginning|start)\s+of\s+(month|year|week)$/i *)
    (seqs [Bol; Group 1 (alts [lit_i "beginning"; lit_i "start"]); plus space;
           lit_i "of"; plus space;
           Group 2 (alts [lit_i "month"; lit_i "year"; lit_i "week"]); Eol],
     startOfHandler);
    (* /^(end)\s+of\s+(month|year|week)$/i *)
    (seqs [Bol; Group 1 (lit_i "end"); plus space; lit_i "of"; plus space;
           Group 2 (alts [lit_i "month"; lit_i "year"; lit_i "week"]); Eol],
     endOfHandler) ].

(** [/^\d{4}-\d{2}-\d{2}[ T]\d{2}:\d{2}:\d{2}/] *)
Definition UTC_DATETIME_REGEX : regex :=
  seqs [ Bol; rep 4 digit; chr "-"; rep 2 digit; chr "-"; rep 2 digit;
         oneOf " T"; rep 2 digit; chr ":"; rep 2 digit; chr ":"; rep 2 digit ].

(** The ECMAScript date-time string format with a four-digit year and a
    full date: [YYYY-MM-DD], optionally [THH:mm], [THH:mm:ss] or
    [THH:mm:ss.sss], optionally followed by [Z] or [+HH:mm]. *)
Definition DATE_TIME_FORMAT : regex :=
  seqs [ Bol;
         Group 1 (rep 4 digit); chr "-"; Group 2 (rep 2 digit); chr "-";
         Group 3 (rep 2 digit);
         opt (seqs [chr "T"; Group 4 (rep 2 digit); chr ":";
                    Group 5 (rep 2 digit);
                    opt (seqs [chr ":"; Group 6 (rep 2 digit);
                               opt (seqs [chr "."; Group 7 (rep 3 digit)])]);
                    opt (alts [Group 8 (chr "Z");
                               seqs [Group 9 (oneOf "+-"); Group 10 (rep 2 digit);
                                     chr ":"; Group 11 (rep 2 digit)]])]);
         Eol ].

End Patterns.

(** [WEEKDAY_MAP[name]] *)
Definition WEEKDAY_MAP (name : string) : Z :=
  if String.eqb name "sunday" then 0
  else if String.eqb name "monday" then 1
  else if String.eqb name "tuesday" then 2
  else if String.eqb name "wednesday" then 3
  else if String.eqb name "thursday" then 4
  else if String.eqb name "friday" then 5
  else 6.

(** The unit a pattern captured. *)
Definition unitOfString (s : string) : TimeUnit :=
  if String.eqb s "year" then year
  else if String.eqb s "month" then month
  else if String.eqb s "week" then week
  else if String.eqb s "day" then day
  else if String.eqb s "hour" then hour
  else if String.eqb s "minute" then minute
  else second.

(* ================================================================== *)
(** * Parsing of date strings by the platform                           *)
(* ================================================================== *)

Module DateParse.
Import DateSpec.

Definition field (m : RegExp.captures) (i : nat) : Z :=
  match RegExp.group m i with
  | Some s => Str.parseDigits s
  | None => 0
  end.

Definition daysInMonth (y m : Z) : Z :=
  if (m =? 2) && isLeap y then 29 else nth (Z.to_nat (m - 1)) DAYS_IN_MONTH 0.

(** [Date.parse(str)], the time value of [new Date(str)].  A string in the
    date-time format whose fields are all in range denotes the instant the
    standard assigns to it: UTC for a date alone or with an explicit offset,
    the host's local time for a date and time without one.  Every other
    string is left to the implementation. *)
Definition parse (host : Platform) (str : string) : number :=
  match RegExp.exec DATE_TIME_FORMAT str with
  | Some m =>
      let y := field m 1 in
      let mo := field m 2 in
      let d := field m 3 in
      let h := field m 4 in
      let mi := field m 5 in
      let s := field m 6 in
      let ms := field m 7 in
      if (1 <=? mo) && (mo <=? 12) && (1 <=? d) && (d <=? daysInMonth y mo)
         && (h <=? 23) && (mi <=? 59) && (s <=? 59)
         && (field m 10 <=? 23) && (field m 11 <=? 59)
      then
        let fields := MakeDate (MakeDay y (mo - 1) d) (MakeTime h mi s ms) in
        match RegExp.group m 4, RegExp.group m 8, RegExp.group m 9 with
        | None, _, _ => TimeClip fields                      (* date only *)
        | Some _, Some _, _ => TimeClip fields               (* Z *)
        | Some _, None, Some sign =>
            let off := MakeTime (field m 10) (field m 11) 0 0 in
            TimeClip (if String.eqb sign "-" then fields + off else fields - off)
        | Some _, None, None =>
            TimeClip (fields - LocalTZA host fields)         (* local time *)
        end
      else legacyDateParse host str
  | None => legacyDateParse host str
  end.

End DateParse.

(* ================================================================== *)
(** * Timezone utilities                                                *)
(* ================================================================== *)

Inductive DSTPreference : Type := earlier | later.

Module zone.
Section WithHost.
Variable host : Platform.

Definition isValid (zoneName : string) : M bool :=
  fun w =>
    if existsb (String.eqb zoneName) (_validZoneCache w) then (Ok true, w)
    else if timeZoneSupported host zoneName then
      (* the formatter is built, and [new Date()] reads the clock *)
      (Ok true,
       {| _offsetCache := _offsetCache w;
          _validZoneCache := (_validZoneCache w ++ [zoneName])%list;
          clockReads := S (clockReads w) |})
    else (Ok false, w).

(** [_offsetCache.get(zoneName)] *)
Definition offsetCacheGet (zoneName : string) : M (option (JSMap.t number number)) :=
  fun w =>
    let (found, c) := LRUCache.get (_offsetCache w) zoneName in
    (Ok found,
     {| _offsetCache := c;
        _validZoneCache := _validZoneCache w;
        clockReads := clockReads w |}).

(** The end of the [try] block: the entry is written into the map of the
    zone, which is created and registered when the lookup found none. *)
Definition offsetCacheStore (zoneName : string)
    (zoneCache : option (JSMap.t number number))
    (timestamp offset : number) : M unit :=
  fun w =>
    let c :=
      match zoneCache with
      | None =>
          LRUCache.set (_offsetCache w) zoneName
            (JSMap.set sameValueZero [] timestamp offset)
      | Some _ =>
          (* the map found is the one the cache holds: it is updated in place *)
          {| LRUCache.cache :=
               match JSMap.get String.eqb (LRUCache.cache (_offsetCache w)) zoneName with
               | Some held =>
                   JSMap.set String.eqb (LRUCache.cache (_offsetCache w)) zoneName
                     (JSMap.set sameValueZero held timestamp offset)
               | None => LRUCache.cache (_offsetCache w)
               end;
             LRUCache.maxSize := LRUCache.maxSize (_offsetCache w) |}
      end in
    (Ok tt,
     {| _offsetCache := c;
        _validZoneCache := _validZoneCache w;
        clockReads := clockReads w |}).

Definition getOffset (timestamp : number) (zoneName : string) : M number :=
  if String.eqb zoneName "UTC" then ret (Int 0)
  else
    zoneCache <- offsetCacheGet zoneName ;;
    match
      match zoneCache with
      | Some zc => JSMap.get sameValueZero zc timestamp
      | None => None
      end
    with
    | Some cached => ret cached
    | None =>
        (* try *)
        let utcDate := JSDate.ofNumber timestamp in
        if negb (timeZoneSupported host zoneName) then ret (Int 0)   (* catch *)
        else
          match utcDate with
          | Int tv =>
              let parts := formatToParts host zoneName tv in
              let localEquivalentInUtc :=
                JSDate.UTC7 (Int (part_year parts)) (Int (part_month parts - 1))
                  (Int (part_day parts)) (Int (part_hour parts))
                  (Int (part_minute parts)) (Int (part_second parts))
                  (JSDate.getUTCMilliseconds utcDate) in
              let offset := nsub timestamp localEquivalentInUtc in
              offsetCacheStore zoneName zoneCache timestamp offset ;;;
              ret offset
          | _ => ret (Int 0)                                        (* catch *)
          end
    end.

Definition convertToZone (timestamp : number) (fromZone toZone : string)
    : M number :=
  if String.eqb fromZone toZone then ret timestamp
  else
    fromOffset <- getOffset timestamp fromZone ;;
    toOffset <- getOffset timestamp toZone ;;
    ret (nadd timestamp (nsub fromOffset toOffset)).

Definition getSystemZone : M string := ret (resolvedTimeZone host).

Definition handleDSTAmbiguity (timestamp : number) (zoneName : string)
    (preference : DSTPreference) : M number :=
  if String.eqb zoneName "UTC" then ret timestamp
  else
    let before := nsub timestamp (Int MS_PER_HOUR) in
    let after := nadd timestamp (Int MS_PER_HOUR) in
    offsetBefore <- getOffset before zoneName ;;
    offsetAfter <- getOffset after zoneName ;;
    if negb (strict_eq offsetBefore offsetAfter) then
      ret (match preference with
           | later => timestamp
           | earlier => nsub timestamp (Int MS_PER_HOUR)
           end)
    else ret timestamp.

Definition addTimeWithDST (timestamp amount : number) (unit : TimeUnit)
    (zoneName : string) : M number :=
  match
    match unit with
    | day | week => None
    | _ => UNIT_MULTIPLIERS unit
    end
  with
  | Some multiplier =>
      (* fast path for units with fixed multipliers *)
      let delta := nscale amount multiplier in
      ret (nadd timestamp delta)
  | None =>
      offset <- getOffset timestamp zoneName ;;
      let zonedTime := nsub timestamp offset in
      let zonedDate := JSDate.ofNumber zonedTime in
      let zonedDate :=
        match unit with
        | year =>
            JSDate.setUTCFullYear zonedDate
              (nadd (JSDate.getUTCFullYear zonedDate) amount) None None
        | month =>
            let targetMonth := nadd (JSDate.getUTCMonth zonedDate) amount in
            let targetYear :=
              nadd (JSDate.getUTCFullYear zonedDate) (floor_div targetMonth 12) in
            let finalMonth := nrem (nadd (nrem targetMonth 12) (Int 12)) 12 in
            let originalDay := JSDate.getUTCDate zonedDate in
            let zonedDate :=
              JSDate.setUTCFullYear zonedDate targetYear
                (Some finalMonth) (Some (Int 1)) in
            let lastDayOfTargetMonth :=
              JSDate.getUTCDate
                (JSDate.ofLocalFields host targetYear
                   (nadd finalMonth (Int 1)) (Int 0)) in
            let finalDay := Math_min originalDay lastDayOfTargetMonth in
            JSDate.setUTCDate zonedDate finalDay
        | week =>
            JSDate.setUTCDate zonedDate
              (nadd (JSDate.getUTCDate zonedDate) (nscale amount 7))
        | day =>
            JSDate.setUTCDate zonedDate
              (nadd (JSDate.getUTCDate zonedDate) amount)
        | hour =>
            JSDate.setUTCHours zonedDate
              (nadd (JSDate.getUTCHours zonedDate) amount) None None None
        | minute =>
            JSDate.setUTCMinutes zonedDate
              (nadd (JSDate.getUTCMinutes zonedDate) amount) None None
        | second =>
            JSDate.setUTCSeconds zonedDate
              (nadd (JSDate.getUTCSeconds zonedDate) amount) None
        | millisecond =>
            JSDate.setUTCMilliseconds zonedDate
              (nadd (JSDate.getUTCMilliseconds zonedDate) amount)
        end in
      offset' <- getOffset (JSDate.getTime zonedDate) zoneName ;;
      let result := nadd (JSDate.getTime zonedDate) offset' in
      handleDSTAmbiguity result zoneName later
  end.

End WithHost.
End zone.

(* ================================================================== *)
(** * The Krono class                                                   *)
(* ================================================================== *)

Record Krono : Type := {
  _time : number;
  _locale : string;
  _zone : string;
  _debug : bool
}.

(** What [create] accepts: nothing, an instance, a [Date], a number or a
    string. *)
Inductive input : Type :=
| Undefined
| InKrono (k : Krono)
| InDate (d : JSDate.t)
| InNumber (n : number)
| InString (s : string).

Record KronoOptions : Type := {
  locale : option string;
  zone : option string;
  debug : option bool
}.

Definition noOptions : KronoOptions :=
  {| locale := None; zone := None; debug := None |}.

Definition orDefault {A : Type} (o : option A) (dflt : A) : A :=
  match o with Some a => a | None => dflt end.

Section KronoClass.
Variable host : Platform.

(** The private constructor. *)
Definition new_Krono (time : number) (locale zoneName : string) (debug : bool)
    : M Krono :=
  validateTimestamp time ;;;
  invalid <- (if negb (String.eqb zoneName "UTC")
              then valid <- zone.isValid host zoneName ;; ret (negb valid)
              else ret false) ;;
  if invalid : bool then throw (KronoTimezoneError zoneName)
  else ret {| _time := time; _locale := locale; _zone := zoneName;
              _debug := debug |}.

(** [_getZoneTime].  The per-instance memo table only saves recomputing a
    function of the immutable fields; it is not represented. *)
Definition _getZoneTime (this : Krono) : M JSDate.t :=
  if String.eqb (_zone this) "UTC" then ret (JSDate.ofNumber (_time this))
  else
    offset <- zone.getOffset host (_time this) (_zone this) ;;
    let zoneTime := nsub (_time this) offset in
    ret (JSDate.ofNumber zoneTime).

Definition dayOfWeek (this : Krono) : M number :=
  if String.eqb (_zone this) "UTC"
  then ret (JSDate.getUTCDay (JSDate.ofNumber (_time this)))
  else d <- _getZoneTime this ;; ret (JSDate.getUTCDay d).

(** [Date.prototype.toISOString] throws on an invalid date. *)
Definition Date_toISOString (d : JSDate.t) : M unit :=
  match d with
  | Int _ => ret tt
  | _ => throw (RangeError "Invalid time value")
  end.

(** [toISOString], as far as its effects go: the text it builds only
    reaches the debug log. *)
Definition toISOString (this : Krono) : M unit :=
  if String.eqb (_zone this) "UTC"
  then Date_toISOString (JSDate.ofNumber (_time this))
  else
    offset <- zone.getOffset host (_time this) (_zone this) ;;
    let zoneTime := nsub (_time this) offset in
    Date_toISOString (JSDate.ofNumber zoneTime) ;;;
    zone.getOffset host (_time this) (_zone this) ;;;
    ret tt.

Definition add (this : Krono) (amount : number) (unit : TimeUnit) : M Krono :=
  (* the debug message is built whether or not it is printed *)
  toISOString this ;;;
  newTime <- zone.addTimeWithDST host (_time this) amount unit (_zone this) ;;
  new_Krono newTime (_locale this) (_zone this) (_debug this).

Definition subtract (this : Krono) (amount : number) (unit : TimeUnit)
    : M Krono :=
  add this (nneg amount) unit.

Definition tz (this : Krono) (zoneName : string) : M Krono :=
  new_Krono (_time this) (_locale this) zoneName (_debug this).

Definition utc (this : Krono) : M Krono :=
  new_Krono (_time this) (_locale this) "UTC" (_debug this).

Definition local (this : Krono) : M Krono :=
  systemZone <- zone.getSystemZone host ;;
  new_Krono (_time this) (_locale this) systemZone (_debug this).

Definition valueOf (this : Krono) : number := _time this.

Definition isBefore (this other : Krono) : bool :=
  nlt (_time this) (_time other).

Definition isAfter (this other : Krono) : bool :=
  ngt (_time this) (_time other).

(** [Krono.min(...dates)] *)
Definition Krono_min (dates : list Krono) : M Krono :=
  match dates with
  | [] => throw (KronoError "No dates provided")
  | first :: rest =>
      ret (fold_left (fun min current =>
                        if isBefore current min then current else min)
                     rest first)
  end.

(** [Krono.max(...dates)] *)
Definition Krono_max (dates : list Krono) : M Krono :=
  match dates with
  | [] => throw (KronoError "No dates provided")
  | first :: rest =>
      ret (fold_left (fun max current =>
                        if isAfter current max then current else max)
                     rest first)
  end.

(** The [switch] of [startOf], the same in its two branches. *)
Definition truncateTo (date : JSDate.t) (unit : TimeUnit) : JSDate.t :=
  let zero := Some (Int 0) in
  match unit with
  | year =>
      JSDate.setUTCHours (JSDate.setUTCMonth date (Int 0) (Some (Int 1)))
        (Int 0) zero zero zero
  | month =>
      JSDate.setUTCHours (JSDate.setUTCDate date (Int 1)) (Int 0) zero zero zero
  | week =>
      let dayOfWeek := JSDate.getUTCDay date in
      let daysToSubtract :=
        if strict_eq dayOfWeek (Int 0) then Int 6 else nsub dayOfWeek (Int 1) in
      JSDate.setUTCHours
        (JSDate.setUTCDate date (nsub (JSDate.getUTCDate date) daysToSubtract))
        (Int 0) zero zero zero
  | day => JSDate.setUTCHours date (Int 0) zero zero zero
  | hour => JSDate.setUTCMinutes date (Int 0) zero zero
  | minute => JSDate.setUTCSeconds date (Int 0) zero
  | second => JSDate.setUTCMilliseconds date (Int 0)
  | millisecond => date
  end.

Definition pad (n : nat) (v : number) : string :=
  Str.padStart0 n (Str.ofNumber v).

(** The text [startOf] hands to [create] outside UTC. *)
Definition dateString (modifiedDate : JSDate.t) : string :=
  let year := JSDate.getUTCFullYear modifiedDate in
  let month := nadd (JSDate.getUTCMonth modifiedDate) (Int 1) in
  let day := JSDate.getUTCDate modifiedDate in
  let hour := JSDate.getUTCHours modifiedDate in
  let minute := JSDate.getUTCMinutes modifiedDate in
  let second := JSDate.getUTCSeconds modifiedDate in
  let millisecond := JSDate.getUTCMilliseconds modifiedDate in
  String.concat ""
    [ Str.ofNumber year; "-"; pad 2 month; "-"; pad 2 day; "T"; pad 2 hour;
      ":"; pad 2 minute; ":"; pad 2 second; "."; pad 3 millisecond ].

(** [startOf] reaches [create] and [create], through the natural-language
    stage, reaches [startOf] again.  The three are written over the
    [startOf] that the handlers of that stage call, and the knot is tied
    below. *)
Section OverStartOf.
Variable startOf_handler : Krono -> TimeUnit -> M Krono.

Definition endOf_over (this : Krono) (unit : TimeUnit) : M Krono :=
  a <- add this (Int 1) unit ;;
  s <- startOf_handler a unit ;;
  subtract s (Int 1) millisecond.

Fixpoint firstMatch (str : string) (patterns : list (RegExp.regex * handlerName))
    : option (RegExp.captures * handlerName) :=
  match patterns with
  | [] => None
  | (pattern, handler) :: rest =>
      match RegExp.exec pattern str with
      | Some m => Some (m, handler)
      | None => firstMatch str rest
      end
  end.

Definition _parseNaturalLanguage (str defaultZone : string)
    : M (option number) :=
  now <- Date_now host ;;
  currentKrono <- new_Krono now "en-GB" defaultZone false ;;
  match firstMatch str NATURAL_PATTERNS with
  | Some (m, nextWeekday) =>
      let weekdayName := Str.toLowerCase (RegExp.groupOr m 1) in
      let targetDay := Int (WEEKDAY_MAP weekdayName) in
      currentDay <- dayOfWeek currentKrono ;;
      let daysToAdd :=
        if ngt targetDay currentDay then nsub targetDay currentDay
        else nadd (nsub (Int 7) currentDay) targetDay in
      a <- add currentKrono daysToAdd day ;;
      s <- startOf_handler a day ;;
      ret (Some (_time s))
  | Some (m, lastWeekday) =>
      let weekdayName := Str.toLowerCase (RegExp.groupOr m 1) in
      let targetDay := Int (WEEKDAY_MAP weekdayName) in
      currentDay <- dayOfWeek currentKrono ;;
      let daysToSubtract :=
        if ngt currentDay targetDay then nsub currentDay targetDay
        else nsub (nadd currentDay (Int 7)) targetDay in
      a <- subtract currentKrono daysToSubtract day ;;
      s <- startOf_handler a day ;;
      ret (Some (_time s))
  | Some (m, startOfHandler) =>
      let unit := unitOfString (Str.toLowerCase (RegExp.groupOr m 2)) in
      s <- startOf_handler currentKrono unit ;;
      ret (Some (_time s))
  | Some (m, endOfHandler) =>
      let unit := unitOfString (Str.toLowerCase (RegExp.groupOr m 2)) in
      e <- endOf_over currentKrono unit ;;
      ret (Some (_time e))
  | None => ret None
  end.

Definition _parseToTime (inp : input) (defaultZone : string) : M number :=
  match inp with
  | Undefined => Date_now host
  | InKrono k => ret (_time k)
  | InDate d => ret (JSDate.getTime d)
  | InNumber n => validateTimestamp n ;;; ret n
  | InString s =>
      let str := Str.trim s in
      now <- Date_now host ;;
      if String.eqb (Str.toLowerCase str) "now" then ret now
      else
        (* try natural language parsing first *)
        naturalResult <- _parseNaturalLanguage str defaultZone ;;
        match naturalResult with
        | Some result => ret result
        | None =>
            (* parse relative time expressions *)
            match RegExp.exec RELATIVE_REGEX (Str.toLowerCase str) with
            | Some m =>
                let amount := Int (Str.parseDigits (RegExp.groupOr m 1)) in
                let unit := unitOfString (RegExp.groupOr m 2) in
                let isAgo := Str.includes str "ago" in
                let finalAmount := if isAgo then nneg amount else amount in
                zone.addTimeWithDST host now finalAmount unit defaultZone
            | None =>
                (* stricter ISO parsing with validation *)
                match RegExp.exec ISO_WITH_ZONE_REGEX str with
                | Some isoMatch =>
                    validateDateComponents
                      (Str.parseDigits (RegExp.groupOr isoMatch 1))
                      (Str.parseDigits (RegExp.groupOr isoMatch 2))
                      (Str.parseDigits (RegExp.groupOr isoMatch 3))
                | None => ret tt
                end ;;;
                (* if zone is UTC, be explicit about ambiguous strings *)
                let explicit :=
                  if String.eqb defaultZone "UTC"
                     && RegExp.test UTC_DATETIME_REGEX str
                  then
                    let d :=
                      DateParse.parse host
                        (String.append (Str.replace str " " "T") "Z") in
                    if negb (isNaN (JSDate.getTime d)) then Some (JSDate.getTime d)
                    else None
                  else None in
                match explicit with
                | Some time => ret time
                | None =>
                    (* fallback for everything else *)
                    let parsed := DateParse.parse host str in
                    if negb (isNaN (JSDate.getTime parsed))
                    then ret (JSDate.getTime parsed)
                    else throw (KronoParseError str "Unrecognized format")
                end
            end
        end
  end.

Definition create_over (inp : input) (options : KronoOptions) : M Krono :=
  let locale := orDefault (locale options) "en-GB" in
  let zoneName := orDefault (zone options) "UTC" in
  let debug := orDefault (debug options) false in
  time <- _parseToTime inp zoneName ;;
  new_Krono time locale zoneName debug.

Definition instanceOptions (this : Krono) : KronoOptions :=
  {| zone := Some (_zone this); locale := Some (_locale this);
     debug := Some (_debug this) |}.

Definition startOf_over (this : Krono) (unit : TimeUnit) : M Krono :=
  if String.eqb (_zone this) "UTC" then
    let date := JSDate.ofNumber (_time this) in
    let date := truncateTo date unit in
    new_Krono (JSDate.getTime date) (_locale this) (_zone this) (_debug this)
  else
    zonedDate <- _getZoneTime this ;;
    let modifiedDate :=
      JSDate.ofNumber
        (JSDate.UTC7 (JSDate.getUTCFullYear zonedDate)
           (JSDate.getUTCMonth zonedDate) (JSDate.getUTCDate zonedDate)
           (JSDate.getUTCHours zonedDate) (JSDate.getUTCMinutes zonedDate)
           (JSDate.getUTCSeconds zonedDate)
           (JSDate.getUTCMilliseconds zonedDate)) in
    let modifiedDate := truncateTo modifiedDate unit in
    create_over (InString (dateString modifiedDate)) (instanceOptions this).

End OverStartOf.

(** The recursion of [startOf]: a call that nests deeper than the stack
    allows ends in the platform's [RangeError]. *)
Fixpoint startOf_depth (depth : nat) : Krono -> TimeUnit -> M Krono :=
  match depth with
  | O => fun _ _ => throw (RangeError "Maximum call stack size exceeded")
  | S depth' => startOf_over (startOf_depth depth')
  end.

(** The text [startOf] builds never starts a natural-language phrase
    ([startOf_depth_stable] below), so the nested call never calls
    [startOf] again and any positive depth gives the same function. *)
Definition startOf : Krono -> TimeUnit -> M Krono := startOf_depth 2.

Definition endOf : Krono -> TimeUnit -> M Krono := endOf_over startOf.

Definition create : input -> KronoOptions -> M Krono := create_over startOf.

Definition set (this : Krono) (unit : TimeUnit) (value : number) : M Krono :=
  date <- _getZoneTime this ;;
  let newDate := date in
  match unit with
  | week => throw (KronoError "Cannot set week directly")
  | _ =>
      let newDate :=
        match unit with
        | year => JSDate.setUTCFullYear newDate value None None
        | month => JSDate.setUTCMonth newDate (nsub value (Int 1)) None
        | day => JSDate.setUTCDate newDate value
        | hour => JSDate.setUTCHours newDate value None None None
        | minute => JSDate.setUTCMinutes newDate value None None
        | second => JSDate.setUTCSeconds newDate value None
        | _ => JSDate.setUTCMilliseconds newDate value
        end in
      create (InDate newDate) (instanceOptions this)
  end.

(** The factory function [krono]. *)
Definition krono : input -> KronoOptions -> M Krono := create.

End KronoClass.

(* ================================================================== *)
(** * The Krono class: getters, comparisons, factories                  *)
(* ================================================================== *)

(** [Math.ceil (a / k)] for an integer constant [k > 0]. *)
Definition ceil_div (a : number) (k : Z) : number :=
  match a with
  | Int x => Int (- ((- x) / k))
  | other => other
  end.

Section KronoGetters.
Variable host : Platform.

(** A field getter: the UTC field of the timestamp in UTC, of the zone
    time elsewhere. *)
Definition fieldOf (field : JSDate.t -> number) (this : Krono) : M number :=
  if String.eqb (_zone this) "UTC"
  then ret (field (JSDate.ofNumber (_time this)))
  else d <- _getZoneTime host this ;; ret (field d).

Definition getYear (this : Krono) : M number :=
  fieldOf JSDate.getUTCFullYear this.

(** [month]: 1 to 12. *)
Definition getMonth (this : Krono) : M number :=
  if String.eqb (_zone this) "UTC"
  then ret (nadd (JSDate.getUTCMonth (JSDate.ofNumber (_time this))) (Int 1))
  else d <- _getZoneTime host this ;; ret (nadd (JSDate.getUTCMonth d) (Int 1)).

Definition getDay (this : Krono) : M number := fieldOf JSDate.getUTCDate this.
Definition getHour (this : Krono) : M number := fieldOf JSDate.getUTCHours this.
Definition getMinute (this : Krono) : M number :=
  fieldOf JSDate.getUTCMinutes this.
Definition getSecond (this : Krono) : M number :=
  fieldOf JSDate.getUTCSeconds this.
Definition getMillisecond (this : Krono) : M number :=
  fieldOf JSDate.getUTCMilliseconds this.

Definition dayOfYear (this : Krono) : M number :=
  start <- startOf host this year ;;
  ret (nadd (ceil_div (nsub (_time this) (_time start)) MS_PER_DAY) (Int 1)).

Definition weekOfYear (this : Krono) : M number :=
  start <- startOf host this year ;;
  startOfWeek <- startOf host start week ;;
  ret (ceil_div (nsub (_time this) (_time startOfWeek)) MS_PER_WEEK).

Definition zoneName (this : Krono) : string := _zone this.

(** [get(unit)]; every unit of [TimeUnit] has a case. *)
Definition get (this : Krono) (unit : TimeUnit) : M number :=
  match unit with
  | year => getYear this
  | month => getMonth this
  | day => getDay this
  | hour => getHour this
  | minute => getMinute this
  | second => getSecond this
  | millisecond => getMillisecond this
  | week => weekOfYear this
  end.

(** [isSame(other, unit?)] *)
Definition isSame (this other : Krono) (unit : option TimeUnit) : M bool :=
  match unit with
  | None => ret (strict_eq (_time this) (_time other))
  | Some u =>
      a <- startOf host this u ;;
      b <- startOf host other u ;;
      ret (strict_eq (_time a) (_time b))
  end.

Definition isSameDay (this other : Krono) : M bool := isSame this other (Some day).
Definition isSameMonth (this other : Krono) : M bool :=
  isSame this other (Some month).
Definition isSameYear (this other : Krono) : M bool :=
  isSame this other (Some year).

(** [a >= b] and [a <= b] *)
Definition nge (a b : number) : bool := nlt b a || strict_eq a b.
Definition nle (a b : number) : bool := nlt a b || strict_eq a b.

(** [isBetween(start, end, inclusive = true)] *)
Definition isBetween (this start end_ : Krono) (inclusive : bool) : bool :=
  if inclusive
  then nge (_time this) (_time start) && nle (_time this) (_time end_)
  else ngt (_time this) (_time start) && nlt (_time this) (_time end_).

Definition isLeapYear (this : Krono) : M bool :=
  y <- getYear this ;;
  ret ((strict_eq (nrem y 4) (Int 0) && negb (strict_eq (nrem y 100) (Int 0)))
       || strict_eq (nrem y 400) (Int 0)).

Definition isWeekend (this : Krono) : M bool :=
  d <- dayOfWeek host this ;;
  ret (strict_eq d (Int 0) || strict_eq d (Int 6)).

Definition isWeekday (this : Krono) : M bool :=
  weekend <- isWeekend this ;; ret (negb weekend).

(** [daysInMonth()]; [None] stands for [undefined]. *)
Definition daysInMonth (this : Krono) : M (option number) :=
  m <- getMonth this ;;
  leap <- (if strict_eq m (Int 2) then isLeapYear this else ret false) ;;
  if strict_eq m (Int 2) && leap then ret (Some (Int 29))
  else
    ret (match m with
         | Int mz =>
             if mz <? 1 then None
             else option_map Int (nth_error DAYS_IN_MONTH (Z.to_nat (mz - 1)))
         | _ => None
         end).

(** [toDate()] *)
Definition toDate (this : Krono) : JSDate.t := JSDate.ofNumber (_time this).

(** The static helpers and the factory functions. *)
Definition isValidTimeZone (name : string) : M bool := zone.isValid host name.

Definition getSystemTimeZone : M string := zone.getSystemZone host.

Definition now (zoneName : option string) : M Krono :=
  z <- match zoneName with
       | Some z => ret z
       | None => zone.getSystemZone host
       end ;;
  krono host Undefined {| locale := None; zone := Some z; debug := None |}.

Definition today (zoneName : option string) : M Krono :=
  z <- match zoneName with
       | Some z => ret z
       | None => zone.getSystemZone host
       end ;;
  k <- krono host Undefined {| locale := None; zone := Some z; debug := None |} ;;
  startOf host k day.

Definition tomorrow (zoneName : option string) : M Krono :=
  z <- match zoneName with
       | Some z => ret z
       | None => zone.getSystemZone host
       end ;;
  k <- krono host Undefined {| locale := None; zone := Some z; debug := None |} ;;
  s <- startOf host k day ;;
  add host s (Int 1) day.

Definition yesterday (zoneName : option string) : M Krono :=
  z <- match zoneName with
       | Some z => ret z
       | None => zone.getSystemZone host
       end ;;
  k <- krono host Undefined {| locale := None; zone := Some z; debug := None |} ;;
  s <- startOf host k day ;;
  subtract host s (Int 1) day.

End KronoGetters.

(** The string a [TimeUnit] is. *)
Definition unitName (unit : TimeUnit) : string :=
  match unit with
  | millisecond => "millisecond"
  | second => "second"
  | minute => "minute"
  | hour => "hour"
  | day => "day"
  | week => "week"
  | month => "month"
  | year => "year"
  end.

(** [duration(amount, unit)] *)
Definition duration (amount : number) (unit : TimeUnit) : M number :=
  match UNIT_MULTIPLIERS unit with
  | Some multiplier => ret (nscale amount multiplier)
  | None =>
      throw (KronoError (String.append "Duration not supported for unit: "
                           (unitName unit)))
  end.

(** [diff(other, unit = "millisecond")]; the quotient of two integers
    below 2^53 is floored exactly. *)
Definition diff (host : Platform) (this other : Krono) (unit : TimeUnit)
    : M number :=
  let delta := Math_abs (nsub (_time this) (_time other)) in
  match UNIT_MULTIPLIERS unit with
  | Some multiplier => ret (floor_div delta multiplier)
  | None =>
      let (earlier_, later_) :=
        if nlt (_time this) (_time other) then (this, other) else (other, this) in
      match unit with
      | year =>
          ly <- getYear host later_ ;;
          ey <- getYear host earlier_ ;;
          ret (nsub ly ey)
      | month =>
          ly <- getYear host later_ ;;
          ey <- getYear host earlier_ ;;
          lm <- getMonth host later_ ;;
          em <- getMonth host earlier_ ;;
          ret (nadd (nscale (nsub ly ey) 12) (nsub lm em))
      | _ => ret (Int 0)
      end
  end.

(** [RELATIVE_TIME_THRESHOLDS]: the unit, the threshold in seconds
    ([None] stands for [Number.POSITIVE_INFINITY]) and the divisor in
    seconds. *)
Definition RELATIVE_TIME_THRESHOLDS : list (string * option Z * Z) :=
  [ ("second", Some 60, 1);
    ("minute", Some 3600, 60);
    ("hour", Some 86400, 3600);
    ("day", Some 2592000, 86400);
    ("month", Some 31536000, 2592000);
    ("year", None, 31536000) ].

(** A length of time in seconds is the quotient of a number of
    milliseconds by 1000, which need not be an integer: it is kept as its
    numerator [ms].  [secondsBelow ms threshold] is [ms / 1000 < threshold]
    and [roundQuotient ms divisor] is [Math.round(ms / 1000 / divisor)],
    which rounds halves upwards; for integers below 2^53 the
    floating-point quotients compare and round as the exact ones do. *)
Definition secondsBelow (ms : number) (threshold : option Z) : bool :=
  match ms, threshold with
  | Int d, Some T => d <? 1000 * T
  | Int _, None => true
  | Infinity negative, _ => negative
  | NaN, _ => false
  end.

Definition roundQuotient (ms : number) (divisor : Z) : number :=
  match ms with
  | Int d => Int ((2 * d + 1000 * divisor) / (2000 * divisor))
  | other => other
  end.

(** The first entry of the table whose threshold exceeds the length. *)
Fixpoint firstThreshold (ms : number) (table : list (string * option Z * Z))
    : option (string * Z) :=
  match table with
  | [] => None
  | (unit, threshold, divisor) :: rest =>
      if secondsBelow ms threshold then Some (unit, divisor)
      else firstThreshold ms rest
  end.

(** [value === 1 ? unit : `${unit}s`] *)
Definition unitNameFor (value : number) (unit : string) : string :=
  if strict_eq value (Int 1) then unit else String.append unit "s".

(** [fromNow()] *)
Definition fromNow (host : Platform) (this : Krono) : M string :=
  now <- Date_now host ;;
  let diffInMs := Math_abs (nsub now (_time this)) in
  let isPast := nlt (_time this) now in
  if secondsBelow diffInMs (Some 45) then ret "a few seconds ago"
  else
    match firstThreshold diffInMs RELATIVE_TIME_THRESHOLDS with
    | Some (unit, divisor) =>
        let value := roundQuotient diffInMs divisor in
        let unitName := unitNameFor value unit in
        ret (if isPast
             then String.concat "" [Str.ofNumber value; " "; unitName; " ago"]
             else String.concat "" ["in "; Str.ofNumber value; " "; unitName])
    | None => ret (if isPast then "a long time ago" else "in a long time")
    end.

(** [toNow()] *)
Definition toNow (host : Platform) (this : Krono) : M string := fromNow host this.

(** [formatDistance(other)] *)
Definition formatDistance (this other : Krono) : string :=
  let diffInMs := Math_abs (nsub (_time this) (_time other)) in
  match firstThreshold diffInMs RELATIVE_TIME_THRESHOLDS with
  | Some (unit, divisor) =>
      let value := roundQuotient diffInMs divisor in
      let unitName := unitNameFor value unit in
      if strict_eq value (Int 1) then String.append "about 1 " unit
      else String.concat "" ["about "; Str.ofNumber value; " "; unitName]
  | None => "a very long time"
  end.

(** [zone.getOffsetInMinutes]: the quotient of the offset by 60000 need
    not be an integer; it is kept as its numerator, the offset in
    milliseconds, which compares as the quotient does. *)
Definition getOffsetInMinutes (host : Platform) (timestamp : number)
    (zoneName : string) : M number :=
  zone.getOffset host timestamp zoneName.

(** [isDST]; the second reading of [this.year] comes from the memo table
    of the instance. *)
Definition isDST (host : Platform) (this : Krono) : M bool :=
  y <- getYear host this ;;
  let jan := JSDate.ofLocalFields host y (Int 0) (Int 1) in
  let jul := JSDate.ofLocalFields host y (Int 6) (Int 1) in
  janOffset <- getOffsetInMinutes host (JSDate.getTime jan) (_zone this) ;;
  julOffset <- getOffsetInMinutes host (JSDate.getTime jul) (_zone this) ;;
  currentOffset <- getOffsetInMinutes host (_time this) (_zone this) ;;
  ret (strict_eq currentOffset (Math_min janOffset julOffset)).

(** ** [endOf] as the specification words it

    "[startOf(unit)] advanced by one unit, minus one millisecond". *)
Definition endOf_spec (host : Platform) (this : Krono) (unit : TimeUnit)
    : M Krono :=
  s <- startOf host this unit ;;
  a <- add host s (Int 1) unit ;;
  subtract host a (Int 1) millisecond.

(** Calendar validity as the specification words it: month 1-12, day
    bounded by that month's length, leap-year February included. *)
Definition calendarValid (year month day : Z) : bool :=
  (1 <=? month) && (month <=? 12) && (1 <=? day)
  && (day <=? (if (month =? 2) && DateSpec.isLeap year then 29
               else nth (Z.to_nat (month - 1)) DAYS_IN_MONTH 0)).

(** Stages 5 to 8 of [_parseToTime], named for the statements below: the
    validated ISO form, the explicit UTC reading, the lenient fallback and
    the final parse error. *)
Definition strictAndLenientStages (host : Platform) (str defaultZone : string)
    : M number :=
  match RegExp.exec ISO_WITH_ZONE_REGEX str with
  | Some isoMatch =>
      validateDateComponents
        (Str.parseDigits (RegExp.groupOr isoMatch 1))
        (Str.parseDigits (RegExp.groupOr isoMatch 2))
        (Str.parseDigits (RegExp.groupOr isoMatch 3))
  | None => ret tt
  end ;;;
  let explicit :=
    if String.eqb defaultZone "UTC" && RegExp.test UTC_DATETIME_REGEX str
    then
      let d := DateParse.parse host (String.append (Str.replace str " " "T") "Z") in
      if negb (isNaN (JSDate.getTime d)) then Some (JSDate.getTime d) else None
    else None in
  match explicit with
  | Some time => ret time
  | None =>
      let parsed := DateParse.parse host str in
      if negb (isNaN (JSDate.getTime parsed)) then ret (JSDate.getTime parsed)
      else throw (KronoParseError str "Unrecognized format")
  end.

(** A text that none of the stages before the ISO form takes. *)
Definition reachesIsoStage (str : string) : bool :=
  negb (String.eqb (Str.toLowerCase str) "now")
  && match firstMatch str NATURAL_PATTERNS with Some _ => false | None => true end
  && match RegExp.exec RELATIVE_REGEX (Str.toLowerCase str) with
     | Some _ => false
     | None => true
     end.

(** The first instant of the period of [unit] that contains [t], in
    UTC; weeks start on Monday. *)
Definition periodStart (unit : TimeUnit) (t : Z) : Z :=
  let Y := DateSpec.YearFromTime t in
  match unit with
  | millisecond => t
  | second => t - t mod MS_PER_SECOND
  | minute => t - t mod MS_PER_MINUTE
  | hour => t - t mod MS_PER_HOUR
  | day => t - t mod MS_PER_DAY
  | week => (DateSpec.Day t - (DateSpec.WeekDay t + 6) mod 7) * MS_PER_DAY
  | month =>
      (DateSpec.DayFromYear Y
       + DateSpec.monthStart (DateSpec.isLeap Y) (DateSpec.MonthFromTime t))
      * MS_PER_DAY
  | year => DateSpec.DayFromYear Y * MS_PER_DAY
  end.

(** The first instant of the period that follows. *)
Definition nextPeriodStart (unit : TimeUnit) (t : Z) : Z :=
  let Y := DateSpec.YearFromTime t in
  match unit with
  | millisecond => t + 1
  | second => periodStart second t + MS_PER_SECOND
  | minute => periodStart minute t + MS_PER_MINUTE
  | hour => periodStart hour t + MS_PER_HOUR
  | day => periodStart day t + MS_PER_DAY
  | week => periodStart week t + MS_PER_WEEK
  | month =>
      (DateSpec.DayFromYear Y
       + DateSpec.monthStart (DateSpec.isLeap Y) (DateSpec.MonthFromTime t + 1))
      * MS_PER_DAY
  | year => DateSpec.DayFromYear (Y + 1) * MS_PER_DAY
  end.

(* ================================================================== *)
(** * Predicates used in the statements                                 *)
(* ================================================================== *)

(** A finite timestamp of magnitude at most 8.64e15. *)
Definition validTimestamp (n : number) : Prop :=
  exists z, n = Int z /\ - 8640000000000000 <= z <= 8640000000000000.

(** A zone identifier the constructor accepts. *)
Definition validZone (host : Platform) (zoneName : string) : Prop :=
  zoneName = "UTC" \/ timeZoneSupported host zoneName = true.

(** The zone-validity set only holds zones the oracle confirmed. *)
Definition zoneCacheSound (host : Platform) (w : World) : Prop :=
  forall z, In z (_validZoneCache w) -> timeZoneSupported host z = true.

(** The clock only gives valid time values. *)
Definition clockValid (host : Platform) : Prop :=
  forall n, validTimestamp (Int (DateNow host n)).

(** The host's local time differs from UTC by less than a day. *)
Definition hostOffsetBounded (host : Platform) : Prop :=
  forall t, - 86400000 < LocalTZA host t < 86400000.

(** The instances an operation of the class can return. *)
Inductive produced (host : Platform) (k : Krono) : Prop :=
| by_create inp options w w' :
    create host inp options w = (Ok k, w') -> produced host k
| by_add this amount unit w w' :
    add host this amount unit w = (Ok k, w') -> produced host k
| by_subtract this amount unit w w' :
    subtract host this amount unit w = (Ok k, w') -> produced host k
| by_set this unit value w w' :
    set host this unit value w = (Ok k, w') -> produced host k
| by_startOf this unit w w' :
    startOf host this unit w = (Ok k, w') -> produced host k
| by_endOf this unit w w' :
    endOf host this unit w = (Ok k, w') -> produced host k
| by_tz this zoneName w w' :
    tz host this zoneName w = (Ok k, w') -> produced host k
| by_utc this w w' :
    utc host this w = (Ok k, w') -> produced host k
| by_local this w w' :
    local host this w = (Ok k, w') -> produced host k.

(* ================================================================== *)
(** * A concrete platform                                               *)
(* ================================================================== *)

(** Four zones without daylight saving time, as the [Intl] oracle
    reports them for present-day instants. *)
Definition fixedZone (zoneName : string) : option Z :=
  if String.eqb zoneName "UTC" then Some 0
  else if String.eqb zoneName "Asia/Tokyo" then Some (9 * MS_PER_HOUR)
  else if String.eqb zoneName "America/Bogota" then Some (- 5 * MS_PER_HOUR)
  else if String.eqb zoneName "Africa/Lagos" then Some MS_PER_HOUR
  else None.

(** The fields of the civil time [t]; years before the common era are
    printed as era years. *)
Definition civilParts (t : Z) : Parts :=
  let y := DateSpec.YearFromTime t in
  {| part_year := if y <=? 0 then 1 - y else y;
     part_month := DateSpec.MonthFromTime t + 1;
     part_day := DateSpec.DateFromTime t;
     part_hour := DateSpec.HourFromTime t;
     part_minute := DateSpec.MinFromTime t;
     part_second := DateSpec.SecFromTime t |}.

(** A host whose local time is [hostOffset] ahead of UTC, whose clock
    shows [now], and which rejects every string outside the date-time
    format. *)
Definition examplePlatform (hostZone : string) (hostOffset now : Z) : Platform :=
  {| timeZoneSupported :=
       fun z => match fixedZone z with Some _ => true | None => false end;
     formatToParts :=
       fun z t => civilParts (t + match fixedZone z with Some o => o | None => 0 end);
     LocalTZA := fun _ => hostOffset;
     resolvedTimeZone := hostZone;
     DateNow := fun _ => now;
     legacyDateParse := fun _ => NaN |}.

(** Sunday 2025-06-15T15:06:40Z. *)
Definition exampleNow : Z := 1750000000000.

Definition utcHost : Platform := examplePlatform "UTC" 0 exampleNow.

(** A host one hour ahead of UTC. *)
Definition lagosHost : Platform :=
  examplePlatform "Africa/Lagos" MS_PER_HOUR exampleNow.

Definition inZone (zoneName : string) : KronoOptions :=
  {| locale := None; zone := Some zoneName; debug := None |}.

Definition instant (time : Z) (zoneName : string) : Krono :=
  {| _time := Int time; _locale := "en-GB"; _zone := zoneName; _debug := false |}.

(* ================================================================== *)
(** * Notions used in the statements about the wider interface          *)
(* ================================================================== *)

(** The characters a decimal integer can start with. *)
Definition leadChar (c : ascii) : bool := Str.isDigit c || Ascii.eqb c "-".

(** [this] at another timestamp. *)
Definition withTime (this : Krono) (t : Z) : Krono :=
  {| _time := Int t; _locale := _locale this; _zone := _zone this;
     _debug := _debug this |}.

(** The state after one more reading of the clock. *)
Definition tick (w : World) : World :=
  {| _offsetCache := _offsetCache w;
     _validZoneCache := _validZoneCache w;
     clockReads := S (clockReads w) |}.

(** The operations of the public interface, by name. *)
Inductive operation : Type :=
| op_create (inp : input) (options : KronoOptions)
| op_add (this : Krono) (amount : number) (unit : TimeUnit)
| op_subtract (this : Krono) (amount : number) (unit : TimeUnit)
| op_set (this : Krono) (unit : TimeUnit) (value : number)
| op_startOf (this : Krono) (unit : TimeUnit)
| op_endOf (this : Krono) (unit : TimeUnit)
| op_tz (this : Krono) (zoneName : string)
| op_utc (this : Krono)
| op_local (this : Krono)
| op_get (this : Krono) (unit : TimeUnit)
| op_dayOfWeek (this : Krono)
| op_dayOfYear (this : Krono)
| op_isSame (this other : Krono) (unit : option TimeUnit)
| op_isLeapYear (this : Krono)
| op_isWeekend (this : Krono)
| op_daysInMonth (this : Krono)
| op_diff (this other : Krono) (unit : TimeUnit)
| op_fromNow (this : Krono)
| op_isDST (this : Krono)
| op_now (zoneName : option string)
| op_today (zoneName : option string)
| op_tomorrow (zoneName : option string)
| op_yesterday (zoneName : option string)
| op_isValidTimeZone (zoneName : string)
| op_getOffset (timestamp : number) (zoneName : string)
| op_convertToZone (timestamp : number) (fromZone toZone : string).

(** What an operation does to the module state. *)
Definition effect (host : Platform) (o : operation) (w : World) : World :=
  match o with
  | op_create inp options => snd (create host inp options w)
  | op_add this amount unit => snd (add host this amount unit w)
  | op_subtract this amount unit => snd (subtract host this amount unit w)
  | op_set this unit value => snd (set host this unit value w)
  | op_startOf this unit => snd (startOf host this unit w)
  | op_endOf this unit => snd (endOf host this unit w)
  | op_tz this zoneName => snd (tz host this zoneName w)
  | op_utc this => snd (utc host this w)
  | op_local this => snd (local host this w)
  | op_get this unit => snd (get host this unit w)
  | op_dayOfWeek this => snd (dayOfWeek host this w)
  | op_dayOfYear this => snd (dayOfYear host this w)
  | op_isSame this other unit => snd (isSame host this other unit w)
  | op_isLeapYear this => snd (isLeapYear host this w)
  | op_isWeekend this => snd (isWeekend host this w)
  | op_daysInMonth this => snd (daysInMonth host this w)
  | op_diff this other unit => snd (diff host this other unit w)
  | op_fromNow this => snd (fromNow host this w)
  | op_isDST this => snd (isDST host this w)
  | op_now zoneName => snd (now host zoneName w)
  | op_today zoneName => snd (today host zoneName w)
  | op_tomorrow zoneName => snd (tomorrow host zoneName w)
  | op_yesterday zoneName => snd (yesterday host zoneName w)
  | op_isValidTimeZone zoneName => snd (isValidTimeZone host zoneName w)
  | op_getOffset timestamp zoneName => snd (zone.getOffset host timestamp zoneName w)
  | op_convertToZone timestamp fromZone toZone =>
      snd (zone.convertToZone host timestamp fromZone toZone w)
  end.

(** The state after a sequence of operations. *)
Definition runAll (host : Platform) (ops : list operation) (w : World) : World :=
  fold_left (fun w o => effect host o w) ops w.


(** The civil field of the time [t] that the getter of [unit] reads;
    the week has no field. *)
Definition civilField (unit : TimeUnit) (t : Z) : option Z :=
  match unit with
  | year => Some (DateSpec.YearFromTime t)
  | month => Some (DateSpec.MonthFromTime t + 1)
  | day => Some (DateSpec.DateFromTime t)
  | hour => Some (DateSpec.HourFromTime t)
  | minute => Some (DateSpec.MinFromTime t)
  | second => Some (DateSpec.SecFromTime t)
  | millisecond => Some (DateSpec.msFromTime t)
  | week => None
  end.

(** The values a time-of-day field takes. *)
Definition fieldRange (unit : TimeUnit) : option (Z * Z) :=
  match unit with
  | hour => Some (0, 23)
  | minute => Some (0, 59)
  | second => Some (0, 59)
  | millisecond => Some (0, 999)
  | _ => None
  end.

(** [pipe(...operations)]: the operations in sequence; one that throws
    ends the sequence. *)
Definition pipe (this : Krono) (operations : list (Krono -> M Krono)) : M Krono :=
  fold_left (fun acc op => k <- acc ;; op k) operations (ret this).

(** The host's local time is not ahead of UTC, and less than a day
    behind. *)
Definition hostNotAheadOfUTC (host : Platform) : Prop :=
  forall t, - 86400000 < LocalTZA host t <= 0.

(* ================================================================== *)
(** * Reasoning in the monad                                            *)
(* ================================================================== *)

Unset Implicit Arguments.

Lemma bind_Ok {A B : Type} {m : M A} {f : A -> M B} {w b w'} :
  bind m f w = (Ok b, w') ->
  exists a w1, m w = (Ok a, w1) /\ f a w1 = (Ok b, w').
Proof.
  unfold bind. destruct (m w) as [[a | e] w1]; intros H.
  - now exists a, w1.
  - discriminate.
Qed.

Lemma bind_run_Ok {A B : Type} {m : M A} (f : A -> M B) {w a w1} :
  m w = (Ok a, w1) -> bind m f w = f a w1.
Proof. unfold bind. now intros ->. Qed.

Lemma bind_run_Throw {A B : Type} {m : M A} (f : A -> M B) {w e w1} :
  m w = (Throw e, w1) -> bind m f w = (Throw e, w1).
Proof. unfold bind. now intros ->. Qed.

(** [m] keeps the property [P] of the state, whatever its outcome. *)
Definition preserves (P : World -> Prop) {A : Type} (m : M A) : Prop :=
  forall w, P w -> P (snd (m w)).

Lemma preserves_ret {P} {A : Type} (a : A) : preserves P (ret a).
Proof. now intros w H. Qed.

Lemma preserves_throw {P} {A : Type} e : preserves P (@throw A e).
Proof. now intros w H. Qed.

Lemma preserves_bind {P} {A B : Type} (m : M A) (f : A -> M B) :
  preserves P m -> (forall a, preserves P (f a)) -> preserves P (bind m f).
Proof.
  intros Hm Hf w H. unfold bind. specialize (Hm w H).
  destruct (m w) as [[a | e] w1]; simpl in *.
  - now apply Hf.
  - exact Hm.
Qed.

(** Every instance [m] returns satisfies [Q]. *)
Definition returns (Q : Krono -> Prop) (m : M Krono) : Prop :=
  forall w k w', m w = (Ok k, w') -> Q k.

Lemma returns_throw {Q} e : returns Q (throw e).
Proof. intros w k w' H. discriminate. Qed.

Lemma returns_bind {Q} {A : Type} (m : M A) (f : A -> M Krono) :
  (forall a, returns Q (f a)) -> returns Q (bind m f).
Proof.
  intros Hf w k w' H. apply bind_Ok in H as (a & w1 & _ & H).
  now apply (Hf a w1 k w').
Qed.

(* ================================================================== *)
(** * The constructor                                                   *)
(* ================================================================== *)

Section Constructor.
Variable host : Platform.

Lemma validateTimestamp_valid n w :
  validTimestamp n -> validateTimestamp n w = (Ok tt, w).
Proof.
  intros (z & -> & Hz). unfold validateTimestamp, ngt; simpl.
  destruct (Z.ltb_spec 8640000000000000 (Z.abs z)); [lia | reflexivity].
Qed.

Lemma validateTimestamp_invalid n w :
  ~ validTimestamp n ->
  exists message, validateTimestamp n w = (Throw (KronoError message), w).
Proof.
  intros Hn. unfold validateTimestamp, ngt.
  destruct n as [z | | s]; simpl; try (eexists; reflexivity).
  destruct (Z.ltb_spec 8640000000000000 (Z.abs z)).
  - eexists; reflexivity.
  - exfalso. apply Hn. exists z. split; [reflexivity | lia].
Qed.

Lemma validateTimestamp_Ok n w u w' :
  validateTimestamp n w = (Ok u, w') -> validTimestamp n /\ w' = w.
Proof.
  unfold validateTimestamp, ngt.
  destruct n as [z | | s]; simpl; try discriminate.
  destruct (Z.ltb_spec 8640000000000000 (Z.abs z)) as [Hlt | Hle]; [discriminate |].
  intros Heq; inversion Heq; subst. split; [| reflexivity].
  exists z. split; [reflexivity | lia].
Qed.

Lemma isValid_supported zoneName w :
  timeZoneSupported host zoneName = true ->
  exists w', zone.isValid host zoneName w = (Ok true, w').
Proof.
  intros H. unfold zone.isValid.
  destruct (existsb _ _); [now eexists |]. rewrite H. now eexists.
Qed.

Lemma isValid_unsupported zoneName w :
  zoneCacheSound host w ->
  timeZoneSupported host zoneName = false ->
  zone.isValid host zoneName w = (Ok false, w).
Proof.
  intros Hs H. unfold zone.isValid.
  destruct (existsb _ _) eqn:E.
  - apply existsb_exists in E as (z & Hin & Hz).
    apply String.eqb_eq in Hz; subst z.
    rewrite (Hs _ Hin) in H. discriminate.
  - now rewrite H.
Qed.

Lemma isValid_sound zoneName :
  preserves (zoneCacheSound host) (zone.isValid host zoneName).
Proof.
  intros w Hs. unfold zone.isValid.
  destruct (existsb _ _); [exact Hs |].
  destruct (timeZoneSupported host zoneName) eqn:E; [| exact Hs].
  intros z Hin; simpl in Hin. apply in_app_or in Hin as [Hin | [<- | []]].
  - now apply Hs.
  - exact E.
Qed.

(** An instance the constructor returns carries the arguments it was
    given, and its timestamp passed validation. *)
Lemma new_Krono_Ok time locale zoneName debug w k w' :
  new_Krono host time locale zoneName debug w = (Ok k, w') ->
  validTimestamp time /\
  k = {| _time := time; _locale := locale; _zone := zoneName; _debug := debug |}.
Proof.
  unfold new_Krono. intros H.
  apply bind_Ok in H as ([] & w1 & Hv & H).
  apply validateTimestamp_Ok in Hv as [Hv ->]. split; [exact Hv |].
  apply bind_Ok in H as (invalid & w2 & _ & H).
  destruct invalid; [discriminate |]. now inversion H.
Qed.

Lemma new_Krono_valid time locale zoneName debug w :
  validTimestamp time -> validZone host zoneName ->
  exists w',
    new_Krono host time locale zoneName debug w
    = (Ok {| _time := time; _locale := locale; _zone := zoneName;
             _debug := debug |}, w').
Proof.
  intros Ht Hz. unfold new_Krono.
  rewrite (bind_run_Ok _ (validateTimestamp_valid _ w Ht)).
  destruct (String.eqb_spec zoneName "UTC") as [-> | Hne]; simpl.
  - now eexists.
  - destruct Hz as [-> | Hz]; [contradiction |].
    destruct (isValid_supported zoneName w Hz) as (w' & Hv).
    unfold bind at 1. unfold bind at 1. rewrite Hv. simpl. now eexists.
Qed.

Lemma new_Krono_UTC time locale debug w :
  validTimestamp time ->
  new_Krono host time locale "UTC" debug w
  = (Ok {| _time := time; _locale := locale; _zone := "UTC"; _debug := debug |}, w).
Proof.
  intros Ht. unfold new_Krono.
  now rewrite (bind_run_Ok _ (validateTimestamp_valid _ w Ht)).
Qed.

Lemma new_Krono_invalid_time time locale zoneName debug w :
  ~ validTimestamp time ->
  exists message,
    new_Krono host time locale zoneName debug w = (Throw (KronoError message), w).
Proof.
  intros Ht. destruct (validateTimestamp_invalid _ w Ht) as (message & Hv).
  exists message. unfold new_Krono. now rewrite (bind_run_Throw _ Hv).
Qed.

Lemma new_Krono_invalid_zone time locale zoneName debug w :
  validTimestamp time -> zoneName <> "UTC" ->
  timeZoneSupported host zoneName = false -> zoneCacheSound host w ->
  new_Krono host time locale zoneName debug w
  = (Throw (KronoTimezoneError zoneName), w).
Proof.
  intros Ht Hne Hz Hs. unfold new_Krono.
  rewrite (bind_run_Ok _ (validateTimestamp_valid _ w Ht)).
  apply String.eqb_neq in Hne. rewrite Hne; simpl.
  unfold bind at 1. unfold bind at 1.
  now rewrite (isValid_unsupported zoneName w Hs Hz).
Qed.

Lemma new_Krono_returns_valid time locale zoneName debug :
  returns (fun k => validTimestamp (_time k))
          (new_Krono host time locale zoneName debug).
Proof.
  intros w k w' H. apply new_Krono_Ok in H as [Ht ->]. exact Ht.
Qed.

End Constructor.

(* ================================================================== *)
(** * The zone-validity set is sound                                    *)
(* ================================================================== *)

Ltac preserves_step :=
  first
    [ apply preserves_ret
    | apply preserves_throw
    | apply preserves_bind; [| intros ?]
    | match goal with
      | |- preserves _ (if ?b then _ else _) => destruct b
      | |- preserves _ (match ?x with _ => _ end) => destruct x
      | |- preserves _ (let (_, _) := ?x in _) => destruct x
      end ].

Section CacheSound.
Variable host : Platform.

Lemma initialWorld_sound : zoneCacheSound host initialWorld.
Proof. intros z []. Qed.

Lemma Date_now_sound : preserves (zoneCacheSound host) (Date_now host).
Proof. intros w Hs. exact Hs. Qed.

Lemma offsetCacheGet_sound zoneName :
  preserves (zoneCacheSound host) (zone.offsetCacheGet zoneName).
Proof.
  intros w Hs. unfold zone.offsetCacheGet.
  destruct (LRUCache.get _ _); exact Hs.
Qed.

Lemma offsetCacheStore_sound zoneName zoneCache timestamp offset :
  preserves (zoneCacheSound host)
            (zone.offsetCacheStore zoneName zoneCache timestamp offset).
Proof. intros w Hs. exact Hs. Qed.

Lemma validateTimestamp_sound n :
  preserves (zoneCacheSound host) (validateTimestamp n).
Proof. unfold validateTimestamp. repeat preserves_step. Qed.

Lemma validateDateComponents_sound y m d :
  preserves (zoneCacheSound host) (validateDateComponents y m d).
Proof. unfold validateDateComponents. repeat preserves_step. Qed.

Lemma getOffset_sound timestamp zoneName :
  preserves (zoneCacheSound host) (zone.getOffset host timestamp zoneName).
Proof.
  unfold zone.getOffset.
  destruct (String.eqb zoneName "UTC"); [apply preserves_ret |].
  apply preserves_bind; [apply offsetCacheGet_sound | intros zoneCache].
  repeat first [ apply offsetCacheStore_sound | preserves_step ].
Qed.

Lemma handleDSTAmbiguity_sound timestamp zoneName preference :
  preserves (zoneCacheSound host)
            (zone.handleDSTAmbiguity host timestamp zoneName preference).
Proof.
  unfold zone.handleDSTAmbiguity.
  repeat first [ apply getOffset_sound | preserves_step ].
Qed.

Lemma addTimeWithDST_sound timestamp amount unit zoneName :
  preserves (zoneCacheSound host)
            (zone.addTimeWithDST host timestamp amount unit zoneName).
Proof.
  unfold zone.addTimeWithDST.
  repeat first [ apply getOffset_sound | apply handleDSTAmbiguity_sound
               | preserves_step ].
Qed.

Lemma new_Krono_sound time locale zoneName debug :
  preserves (zoneCacheSound host) (new_Krono host time locale zoneName debug).
Proof.
  unfold new_Krono.
  repeat first [ apply validateTimestamp_sound | apply isValid_sound
               | preserves_step ].
Qed.

Lemma _getZoneTime_sound this :
  preserves (zoneCacheSound host) (_getZoneTime host this).
Proof.
  unfold _getZoneTime. repeat first [ apply getOffset_sound | preserves_step ].
Qed.

Lemma dayOfWeek_sound this :
  preserves (zoneCacheSound host) (dayOfWeek host this).
Proof.
  unfold dayOfWeek. repeat first [ apply _getZoneTime_sound | preserves_step ].
Qed.

Lemma toISOString_sound this :
  preserves (zoneCacheSound host) (toISOString host this).
Proof.
  unfold toISOString, Date_toISOString.
  repeat first [ apply getOffset_sound | preserves_step ].
Qed.

Lemma add_sound this amount unit :
  preserves (zoneCacheSound host) (add host this amount unit).
Proof.
  unfold add.
  repeat first [ apply toISOString_sound | apply addTimeWithDST_sound
               | apply new_Krono_sound | preserves_step ].
Qed.

Lemma subtract_sound this amount unit :
  preserves (zoneCacheSound host) (subtract host this amount unit).
Proof. apply add_sound. Qed.

Section OverStartOf.
Variable startOf_handler : Krono -> TimeUnit -> M Krono.
Hypothesis startOf_handler_sound :
  forall this unit, preserves (zoneCacheSound host) (startOf_handler this unit).

Lemma endOf_over_sound this unit :
  preserves (zoneCacheSound host) (endOf_over host startOf_handler this unit).
Proof.
  unfold endOf_over.
  repeat first [ apply add_sound | apply subtract_sound
               | apply startOf_handler_sound | preserves_step ].
Qed.

Lemma _parseNaturalLanguage_sound str defaultZone :
  preserves (zoneCacheSound host)
            (_parseNaturalLanguage host startOf_handler str defaultZone).
Proof.
  unfold _parseNaturalLanguage.
  repeat first [ apply Date_now_sound | apply new_Krono_sound
               | apply dayOfWeek_sound | apply add_sound | apply subtract_sound
               | apply startOf_handler_sound | apply endOf_over_sound
               | preserves_step ].
Qed.

Lemma _parseToTime_sound inp defaultZone :
  preserves (zoneCacheSound host)
            (_parseToTime host startOf_handler inp defaultZone).
Proof.
  unfold _parseToTime.
  repeat first [ apply Date_now_sound | apply validateTimestamp_sound
               | apply _parseNaturalLanguage_sound | apply addTimeWithDST_sound
               | apply validateDateComponents_sound | preserves_step ].
Qed.

Lemma create_over_sound inp options :
  preserves (zoneCacheSound host) (create_over host startOf_handler inp options).
Proof.
  unfold create_over.
  repeat first [ apply _parseToTime_sound | apply new_Krono_sound
               | preserves_step ].
Qed.

Lemma startOf_over_sound this unit :
  preserves (zoneCacheSound host) (startOf_over host startOf_handler this unit).
Proof.
  unfold startOf_over.
  repeat first [ apply _getZoneTime_sound | apply new_Krono_sound
               | apply create_over_sound | preserves_step ].
Qed.

End OverStartOf.

Lemma startOf_depth_sound depth this unit :
  preserves (zoneCacheSound host) (startOf_depth host depth this unit).
Proof.
  revert this unit. induction depth as [| depth IH]; intros this unit; simpl.
  - apply preserves_throw.
  - apply startOf_over_sound. exact IH.
Qed.

Lemma startOf_sound this unit :
  preserves (zoneCacheSound host) (startOf host this unit).
Proof. apply startOf_depth_sound. Qed.

Lemma create_sound inp options :
  preserves (zoneCacheSound host) (create host inp options).
Proof. apply create_over_sound, startOf_sound. Qed.

Lemma endOf_sound this unit :
  preserves (zoneCacheSound host) (endOf host this unit).
Proof. apply endOf_over_sound, startOf_sound. Qed.

Lemma set_sound this unit value :
  preserves (zoneCacheSound host) (set host this unit value).
Proof.
  unfold set.
  apply preserves_bind; [apply _getZoneTime_sound | intros date].
  destruct unit; try apply create_sound. apply preserves_throw.
Qed.

Lemma tz_sound this zoneName :
  preserves (zoneCacheSound host) (tz host this zoneName).
Proof. apply new_Krono_sound. Qed.

End CacheSound.

(* ================================================================== *)
(** * Offset resolution for UTC                                         *)
(* ================================================================== *)

(** C6. For every timestamp the offset resolver answers 0 for the zone
    ["UTC"] without touching the state: the offset cache is neither read
    nor written.  Hence the civil time computed from a timestamp [t] in
    ["UTC"] is [t] itself, and the ambiguity check leaves both the
    timestamp and the state alone. *)
Theorem getOffset_UTC (host : Platform) (timestamp : number) (w : World) :
  zone.getOffset host timestamp "UTC" w = (Ok (Int 0), w)
  /\ (forall t : Z,
        (offset <- zone.getOffset host (Int t) "UTC" ;;
         ret (nsub (Int t) offset)) w = (Ok (Int t), w))
  /\ (forall preference,
        zone.handleDSTAmbiguity host timestamp "UTC" preference w
        = (Ok timestamp, w)).
Proof.
  split; [reflexivity | split; [| reflexivity]].
  intros t. unfold bind, zone.getOffset, ret, nsub; simpl.
  now rewrite Z.add_0_r.
Qed.

(* ================================================================== *)
(** * Minimum and maximum                                               *)
(* ================================================================== *)

(** C8. [min] and [max] of no instant raise the generic [KronoError];
    of a single instant they return that instant. *)
Theorem min_max_empty_and_singleton (k : Krono) (w : World) :
  Krono_min [] w = (Throw (KronoError "No dates provided"), w)
  /\ Krono_max [] w = (Throw (KronoError "No dates provided"), w)
  /\ Krono_min [k] w = (Ok k, w)
  /\ Krono_max [k] w = (Ok k, w).
Proof. repeat split. Qed.

(* ================================================================== *)
(** * Zone conversion                                                   *)
(* ================================================================== *)

(** C9. For an instant with a valid timestamp and a zone the constructor
    accepts, [tz] returns an instant that differs in the zone only; so do
    [utc] and, on a host whose system zone is accepted, [local].  As a
    consequence converting to a zone and back to UTC gives the timestamp
    one started from. *)
Theorem zone_conversion_changes_only_zone
    (host : Platform) (this : Krono) (zoneName : string) (w : World) :
  validTimestamp (_time this) ->
  validZone host zoneName ->
  validZone host (resolvedTimeZone host) ->
  (exists w',
      tz host this zoneName w
      = (Ok {| _time := _time this; _locale := _locale this;
               _zone := zoneName; _debug := _debug this |}, w'))
  /\ utc host this w
     = (Ok {| _time := _time this; _locale := _locale this;
              _zone := "UTC"; _debug := _debug this |}, w)
  /\ (exists w',
         local host this w
         = (Ok {| _time := _time this; _locale := _locale this;
                  _zone := resolvedTimeZone host; _debug := _debug this |}, w'))
  /\ (exists k w' k',
         tz host this zoneName w = (Ok k, w')
         /\ utc host k w' = (Ok k', w')
         /\ valueOf k' = valueOf this).
Proof.
  intros Ht Hz Hsys.
  destruct (new_Krono_valid host (_time this) (_locale this) zoneName
              (_debug this) w Ht Hz) as (w' & Htz).
  repeat split.
  - exists w'. exact Htz.
  - apply new_Krono_UTC. exact Ht.
  - unfold local, zone.getSystemZone.
    apply (new_Krono_valid host _ _ _ _ w Ht Hsys).
  - eexists _, w', _. split; [exact Htz |]. split.
    + unfold utc; simpl. apply new_Krono_UTC. exact Ht.
    + reflexivity.
Qed.

Lemma zone_conversion_changes_only_zone_witness :
  (exists w',
      tz utcHost (instant 0 "UTC") "Asia/Tokyo" initialWorld
      = (Ok (instant 0 "Asia/Tokyo"), w'))
  /\ utc utcHost (instant 0 "UTC") initialWorld
     = (Ok (instant 0 "UTC"), initialWorld)
  /\ (exists w',
         local utcHost (instant 0 "UTC") initialWorld
         = (Ok (instant 0 "UTC"), w'))
  /\ (exists k w' k',
         tz utcHost (instant 0 "UTC") "Asia/Tokyo" initialWorld = (Ok k, w')
         /\ utc utcHost k w' = (Ok k', w')
         /\ valueOf k' = valueOf (instant 0 "UTC")).
Proof.
  apply (zone_conversion_changes_only_zone utcHost (instant 0 "UTC")
           "Asia/Tokyo" initialWorld).
  - exists 0. split; [reflexivity | lia].
  - right. reflexivity.
  - left. reflexivity.
Defined.

(* ================================================================== *)
(** * Invalid zone identifiers                                          *)
(* ================================================================== *)

(** C7, counterexample.  The claim read over [create]: a zone that is not
    ["UTC"] and fails the oracle always gives a zone error.  It fails for
    [krono(NaN, { zone: "Invalid/Zone" })]: the timestamp is validated
    first and the generic error is raised. *)
Lemma invalid_zone_is_not_always_a_zone_error :
  ~ (forall (host : Platform) (inp : input) (options : KronoOptions)
            (zoneName : string) (w : World),
        zone options = Some zoneName ->
        zoneName <> "UTC" ->
        timeZoneSupported host zoneName = false ->
        zoneCacheSound host w ->
        exists w',
          create host inp options w = (Throw (KronoTimezoneError zoneName), w')).
Proof.
  intros claim.
  destruct (claim utcHost (InNumber NaN) (inZone "Invalid/Zone") "Invalid/Zone"
              initialWorld eq_refl) as (w' & H).
  - discriminate.
  - reflexivity.
  - apply initialWorld_sound.
  - vm_compute in H. discriminate.
Qed.

(** C7, amended.  Constructing an instant with a zone that is not ["UTC"]
    and fails the oracle never returns an instant: the constructor raises
    the zone error when the timestamp is valid and the generic error of
    timestamp validation otherwise, and [create] with such a zone never
    returns either. *)
Theorem invalid_zone_never_constructs
    (host : Platform) (time : number) (locale zoneName : string)
    (debug : bool) (w : World) :
  zoneName <> "UTC" ->
  timeZoneSupported host zoneName = false ->
  zoneCacheSound host w ->
  (forall k w', new_Krono host time locale zoneName debug w <> (Ok k, w'))
  /\ (validTimestamp time ->
      new_Krono host time locale zoneName debug w
      = (Throw (KronoTimezoneError zoneName), w))
  /\ (~ validTimestamp time ->
      exists message,
        new_Krono host time locale zoneName debug w
        = (Throw (KronoError message), w))
  /\ (forall inp options k w',
        zone options = Some zoneName ->
        create host inp options w <> (Ok k, w')).
Proof.
  intros Hne Hz Hs.
  assert (Hnew : forall time' locale' debug' w0,
             zoneCacheSound host w0 ->
             forall k w', new_Krono host time' locale' zoneName debug' w0
                          <> (Ok k, w')).
  { intros time' locale' debug' w0 Hs0 k w' H.
    destruct (new_Krono_Ok host _ _ _ _ _ _ _ H) as [Ht _].
    rewrite (new_Krono_invalid_zone host _ _ _ _ _ Ht Hne Hz Hs0) in H.
    discriminate. }
  repeat split.
  - apply Hnew, Hs.
  - intros Ht. now apply new_Krono_invalid_zone.
  - apply new_Krono_invalid_time.
  - intros inp options k w' Hopt H. unfold create, create_over in H.
    rewrite Hopt in H; simpl in H.
    apply bind_Ok in H as (t & w1 & Hparse & H).
    apply (Hnew _ _ _ w1) in H; [exact H |].
    pose proof (_parseToTime_sound host (startOf host) (startOf_sound host)
                  inp zoneName w Hs) as Hs1.
    now rewrite Hparse in Hs1.
Qed.

Lemma invalid_zone_never_constructs_witness :
  (forall k w',
      new_Krono utcHost (Int 0) "en-GB" "Invalid/Zone" false initialWorld
      <> (Ok k, w'))
  /\ (validTimestamp (Int 0) ->
      new_Krono utcHost (Int 0) "en-GB" "Invalid/Zone" false initialWorld
      = (Throw (KronoTimezoneError "Invalid/Zone"), initialWorld))
  /\ (~ validTimestamp (Int 0) ->
      exists message,
        new_Krono utcHost (Int 0) "en-GB" "Invalid/Zone" false initialWorld
        = (Throw (KronoError message), initialWorld))
  /\ (forall inp options k w',
        zone options = Some "Invalid/Zone" ->
        create utcHost inp options initialWorld <> (Ok k, w')).
Proof.
  apply (invalid_zone_never_constructs utcHost (Int 0) "en-GB" "Invalid/Zone"
           false initialWorld).
  - discriminate.
  - reflexivity.
  - apply initialWorld_sound.
Defined.

(* ================================================================== *)
(** * Adding months                                                     *)
(* ================================================================== *)

(** C1, the code at the failing input.  On a host one hour ahead of UTC,
    [new Date(targetYear, finalMonth + 1, 0)] is the local midnight of the
    last day of the target month, which is still the day before in UTC, so
    [getUTCDate] gives one day less than the length of the month:
    2025-01-31 plus one month is 2025-02-27 and 2024-01-31 plus one month
    is 2024-02-28.  On a host on UTC the same calls give 2025-02-28 and
    2024-02-29. *)
Theorem add_month_on_host_ahead_of_UTC :
  let civil (k : Krono) :=
    (JSDate.getUTCFullYear (_time k), nadd (JSDate.getUTCMonth (_time k)) (Int 1),
     JSDate.getUTCDate (_time k)) in
  let plusOneMonth (host : Platform) (text : string) :=
    fst ((k <- krono host (InString text) noOptions ;;
          r <- add host k (Int 1) month ;;
          ret (civil k, civil r)) initialWorld) in
  LocalTZA lagosHost 0 = MS_PER_HOUR
  /\ plusOneMonth lagosHost "2025-01-31"
     = Ok ((Int 2025, Int 1, Int 31), (Int 2025, Int 2, Int 27))
  /\ plusOneMonth lagosHost "2024-01-31"
     = Ok ((Int 2024, Int 1, Int 31), (Int 2024, Int 2, Int 28))
  /\ plusOneMonth utcHost "2025-01-31"
     = Ok ((Int 2025, Int 1, Int 31), (Int 2025, Int 2, Int 28))
  /\ plusOneMonth utcHost "2024-01-31"
     = Ok ((Int 2024, Int 1, Int 31), (Int 2024, Int 2, Int 29)).
Proof.
  cbv zeta.
  split; [reflexivity |].
  split; [vm_compute; reflexivity |].
  split; [vm_compute; reflexivity |].
  split; vm_compute; reflexivity.
Qed.

(* ================================================================== *)
(** * Relative expressions                                              *)
(* ================================================================== *)

(** C4, the code at the failing input.  The pattern is matched against
    the lower-cased text, but ["ago"] is looked for in the text as given:
    ["3 days ago"] is three days before the current time and
    ["3 DAYS AGO"] three days after it. *)
Theorem relative_ago_in_upper_case :
  fst (krono utcHost (InString "3 days ago") noOptions initialWorld)
  = Ok (instant (exampleNow - 3 * MS_PER_DAY) "UTC")
  /\ fst (krono utcHost (InString "3 DAYS AGO") noOptions initialWorld)
     = Ok (instant (exampleNow + 3 * MS_PER_DAY) "UTC")
  /\ Str.includes "3 DAYS AGO" "ago" = false
  /\ Str.includes (Str.toLowerCase "3 DAYS AGO") "ago" = true.
Proof.
  split; [vm_compute; reflexivity |].
  split; [vm_compute; reflexivity |].
  split; vm_compute; reflexivity.
Qed.

(* ================================================================== *)
(** * [startOf] outside UTC                                             *)
(* ================================================================== *)

(** C5, the code at the failing input.  Outside UTC [startOf] prints the
    truncated civil fields without an offset and hands the text to
    [create], where the generic date parser reads it in the host's local
    time, not in the zone of the instant.  On a host on UTC, the instant
    2025-06-15T02:00:00Z in America/Bogota (civil 2025-06-14T21:00) has
    start of day 2025-06-14T00:00:00Z, which is 19:00 on the 13th in
    Bogota, and the start of day of that is 2025-06-13T00:00:00Z. *)
Theorem startOf_twice_outside_UTC :
  fst ((s <- startOf utcHost (instant 1749952800000 "America/Bogota") day ;;
        s' <- startOf utcHost s day ;;
        ret (valueOf s, valueOf s')) initialWorld)
  = Ok (Int 1749859200000, Int 1749772800000)
  /\ fst ((s <- startOf utcHost (instant 1749952800000 "UTC") day ;;
           s' <- startOf utcHost s day ;;
           ret (valueOf s, valueOf s')) initialWorld)
     = Ok (Int 1749945600000, Int 1749945600000).
Proof. split; vm_compute; reflexivity. Qed.

(* ================================================================== *)
(** * The timestamp of every instance is valid                          *)
(* ================================================================== *)

Ltac returns_step :=
  first
    [ apply new_Krono_returns_valid
    | apply returns_throw
    | apply returns_bind; intros ?
    | match goal with
      | |- returns _ (if ?b then _ else _) => destruct b
      | |- returns _ (match ?x with _ => _ end) => destruct x
      end ].

Section ValidInstances.
Variable host : Platform.

Let valid (k : Krono) : Prop := validTimestamp (_time k).

Lemma add_returns_valid this amount unit :
  returns valid (add host this amount unit).
Proof. unfold add. repeat returns_step. Qed.

Lemma subtract_returns_valid this amount unit :
  returns valid (subtract host this amount unit).
Proof. apply add_returns_valid. Qed.

Lemma create_over_returns_valid handler inp options :
  returns valid (create_over host handler inp options).
Proof. unfold create_over. repeat returns_step. Qed.

Lemma startOf_over_returns_valid handler this unit :
  returns valid (startOf_over host handler this unit).
Proof.
  unfold startOf_over.
  repeat first [ apply create_over_returns_valid | returns_step ].
Qed.

Lemma startOf_returns_valid this unit : returns valid (startOf host this unit).
Proof. apply startOf_over_returns_valid. Qed.

Lemma endOf_returns_valid this unit : returns valid (endOf host this unit).
Proof.
  unfold endOf, endOf_over.
  repeat first [ apply subtract_returns_valid | returns_step ].
Qed.

Lemma set_returns_valid this unit value :
  returns valid (set host this unit value).
Proof.
  unfold set. apply returns_bind; intros date.
  destruct unit; try apply create_over_returns_valid. apply returns_throw.
Qed.

End ValidInstances.

(** C10.  At the end of the range, what [add] raises outside UTC is not
    the generic error.  The instant of timestamp 8.64e15 in Asia/Tokyo is
    constructed.  Adding one hour to it would leave the range, and [add]
    raises the platform's [RangeError], which is no [KronoError]: the text
    of the debug message is built before anything else, it calls
    [toISOString], and that formats the timestamp moved by the offset of
    the zone, which is no time value.  The constructor is never reached.
    Taking one hour off raises the same error, although the arithmetic
    gives a timestamp of the range.  In UTC the same two calls behave as
    the constructor prescribes: the first raises the generic error, the
    second returns the instant one hour earlier. *)
Theorem add_at_range_end_raises_RangeError :
  let k := instant 8640000000000000 "Asia/Tokyo" in
  let u := instant 8640000000000000 "UTC" in
  fst (krono utcHost (InNumber (Int 8640000000000000)) (inZone "Asia/Tokyo")
         initialWorld) = Ok k
  /\ ~ validTimestamp (Int (8640000000000000 + 1 * MS_PER_HOUR))
  /\ fst (add utcHost k (Int 1) hour initialWorld)
     = Throw (RangeError "Invalid time value")
  /\ instanceofKronoError (RangeError "Invalid time value") = false
  /\ fst (toISOString utcHost k initialWorld)
     = Throw (RangeError "Invalid time value")
  /\ fst (zone.addTimeWithDST utcHost (Int 8640000000000000) (Int (-1)) hour
            "Asia/Tokyo" initialWorld)
     = Ok (Int (8640000000000000 - 1 * MS_PER_HOUR))
  /\ validTimestamp (Int (8640000000000000 - 1 * MS_PER_HOUR))
  /\ fst (add utcHost k (Int (-1)) hour initialWorld)
     = Throw (RangeError "Invalid time value")
  /\ fst (add utcHost u (Int 1) hour initialWorld)
     = Throw (KronoError "Timestamp out of range: 8640000003600000")
  /\ fst (add utcHost u (Int (-1)) hour initialWorld)
     = Ok (instant (8640000000000000 - 1 * MS_PER_HOUR) "UTC").
Proof.
  cbv zeta.
  split; [vm_compute; reflexivity |].
  split.
  { intros (z & Hz & Hr). inversion Hz; subst z. unfold MS_PER_HOUR in Hr. lia. }
  split; [vm_compute; reflexivity |].
  split; [reflexivity |].
  split; [vm_compute; reflexivity |].
  split; [vm_compute; reflexivity |].
  split.
  { exists (8640000000000000 - 1 * MS_PER_HOUR).
    split; [reflexivity | unfold MS_PER_HOUR; lia]. }
  split; [vm_compute; reflexivity |].
  split; vm_compute; reflexivity.
Qed.

(** X29.  The constructor raises the generic error on a timestamp that is
    not finite or lies outside the range, and returns an instance carrying
    the timestamp otherwise.  Every instance returned by [create], [add],
    [subtract], [set], [startOf], [endOf], [tz], [utc] or [local] comes
    from the constructor, so its timestamp is finite and of magnitude at
    most 8.64e15: none of them returns an instant outside the range. *)
Theorem instances_have_valid_timestamps (host : Platform) :
  (forall time locale zoneName debug w,
      ~ validTimestamp time ->
      exists message,
        new_Krono host time locale zoneName debug w
        = (Throw (KronoError message), w))
  /\ (forall time locale zoneName debug w k w',
         new_Krono host time locale zoneName debug w = (Ok k, w') ->
         _time k = time /\ validTimestamp time)
  /\ (forall k, produced host k -> validTimestamp (_time k)).
Proof.
  split; [| split].
  - intros. now apply new_Krono_invalid_time.
  - intros time locale zoneName debug w k w' H.
    apply new_Krono_Ok in H as [Ht ->]. now split.
  - intros k [inp options w w' H | this amount unit w w' H
              | this amount unit w w' H | this unit value w w' H
              | this unit w w' H | this unit w w' H | this zoneName w w' H
              | this w w' H | this w w' H].
    + exact (create_over_returns_valid host _ inp options w k w' H).
    + exact (add_returns_valid host this amount unit w k w' H).
    + exact (subtract_returns_valid host this amount unit w k w' H).
    + exact (set_returns_valid host this unit value w k w' H).
    + exact (startOf_returns_valid host this unit w k w' H).
    + exact (endOf_returns_valid host this unit w k w' H).
    + unfold tz in H. exact (new_Krono_returns_valid host _ _ _ _ w k w' H).
    + unfold utc in H. exact (new_Krono_returns_valid host _ _ _ _ w k w' H).
    + unfold local in H. apply bind_Ok in H as (z & w1 & _ & H).
      exact (new_Krono_returns_valid host _ _ _ _ w1 k w' H).
Qed.

Lemma instances_have_valid_timestamps_witness :
  validTimestamp (_time (instant 3600000 "UTC")).
Proof.
  apply (instances_have_valid_timestamps utcHost).
  apply (@by_add utcHost (instant 3600000 "UTC") (instant 0 "UTC") (Int 1) hour
           initialWorld initialWorld).
  vm_compute. reflexivity.
Defined.

(* ================================================================== *)
(** * Validation of ISO dates                                           *)
(* ================================================================== *)

Section IsoValidation.
Variable host : Platform.

Lemma rem_eq0_mod y k : 0 <= y -> 0 < k -> (Z.rem y k =? 0) = (y mod k =? 0).
Proof. intros Hy Hk. now rewrite Z.rem_mod_nonneg by lia. Qed.

(** [validateDateComponents] accepts exactly the valid calendar dates and
    raises a parse error on the others. *)
Lemma validateDateComponents_spec y m d w :
  0 <= y ->
  (calendarValid y m d = true -> validateDateComponents y m d w = (Ok tt, w))
  /\ (calendarValid y m d = false ->
      exists inp reason,
        validateDateComponents y m d w = (Throw (KronoParseError inp reason), w)).
Proof.
  intros Hy. unfold calendarValid, validateDateComponents, DateSpec.isLeap.
  rewrite !rem_eq0_mod by lia.
  set (leap := ((y mod 4 =? 0) && negb (y mod 100 =? 0) || (y mod 400 =? 0))%bool).
  set (dim := if ((m =? 2) && leap)%bool then 29
              else nth (Z.to_nat (m - 1)) DAYS_IN_MONTH 0).
  assert (Hdim : 1 <= m <= 12 -> dim <= 31).
  { intros Hm. unfold dim.
    destruct ((m =? 2) && leap)%bool; [lia |].
    assert (Hc : m = 1 \/ m = 2 \/ m = 3 \/ m = 4 \/ m = 5 \/ m = 6 \/ m = 7
                 \/ m = 8 \/ m = 9 \/ m = 10 \/ m = 11 \/ m = 12) by lia.
    unfold DAYS_IN_MONTH.
    repeat (destruct Hc as [-> | Hc]; [simpl; lia |]). subst m; simpl; lia. }
  destruct (Z.ltb_spec m 1), (Z.gtb_spec m 12), (Z.ltb_spec d 1),
    (Z.gtb_spec d 31), (Z.leb_spec 1 m), (Z.leb_spec m 12), (Z.leb_spec 1 d),
    (Z.leb_spec d dim), (Z.gtb_spec d dim);
    simpl; try lia; split; intros Hv; try discriminate; try reflexivity;
    try (eexists _, _; reflexivity).
Qed.

Lemma parseDigits_nonneg s : 0 <= Str.parseDigits s.
Proof.
  unfold Str.parseDigits.
  assert (H : forall l acc, 0 <= acc ->
            0 <= fold_left (fun acc c => 10 * acc + Z.of_nat (Str.code c - 48)) l acc).
  { induction l as [| c l IH]; intros acc Hacc; cbn [fold_left]; [exact Hacc |].
    apply IH. pose proof (Nat2Z.is_nonneg (Str.code c - 48)). lia. }
  apply H. lia.
Qed.

Lemma Date_now_run w :
  Date_now host w
  = (Ok (Int (DateNow host (clockReads w))),
     {| _offsetCache := _offsetCache w;
        _validZoneCache := _validZoneCache w;
        clockReads := S (clockReads w) |}).
Proof. reflexivity. Qed.

Lemma _parseNaturalLanguage_no_match handler str defaultZone w :
  clockValid host -> validZone host defaultZone ->
  firstMatch str NATURAL_PATTERNS = None ->
  exists w',
    _parseNaturalLanguage host handler str defaultZone w = (Ok None, w').
Proof.
  intros Hclock Hzone Hnone. unfold _parseNaturalLanguage.
  rewrite (bind_run_Ok _ (Date_now_run w)).
  edestruct (new_Krono_valid host (Int (DateNow host (clockReads w))) "en-GB"
               defaultZone false) as (w' & Hnew); [apply Hclock | exact Hzone |].
  rewrite (bind_run_Ok _ Hnew), Hnone. now eexists.
Qed.

(** A text that the earlier stages leave alone reaches the ISO stage. *)
Lemma _parseToTime_reaches_iso handler s defaultZone w :
  clockValid host -> validZone host defaultZone ->
  reachesIsoStage (Str.trim s) = true ->
  exists w',
    _parseToTime host handler (InString s) defaultZone w
    = strictAndLenientStages host (Str.trim s) defaultZone w'.
Proof.
  intros Hclock Hzone Hreach. unfold reachesIsoStage in Hreach.
  apply andb_prop in Hreach as [Hreach Hrel].
  apply andb_prop in Hreach as [Hnow Hnat].
  apply negb_true_iff in Hnow.
  destruct (firstMatch (Str.trim s) NATURAL_PATTERNS) eqn:Hfirst;
    [discriminate |].
  destruct (RegExp.exec RELATIVE_REGEX (Str.toLowerCase (Str.trim s))) eqn:Hr;
    [discriminate |].
  unfold _parseToTime. rewrite (bind_run_Ok _ (Date_now_run w)), Hnow.
  edestruct (_parseNaturalLanguage_no_match handler (Str.trim s) defaultZone)
    as (w' & Hnl); [exact Hclock | exact Hzone | exact Hfirst |].
  rewrite (bind_run_Ok _ Hnl), Hr. exists w'. reflexivity.
Qed.

End IsoValidation.

(** C3, counterexample.  The text ["2025-02-30Z 5 days"] starts with a
    date in ISO form: [ISO_WITH_ZONE_REGEX] matches it, with year 2025,
    month 2 and day 30, which is no day of the calendar and which
    [validateDateComponents] refuses.  The check is never made.  The
    stage for relative expressions comes before it and its pattern is not
    anchored: it finds ["5 days"] inside the text, and the text is
    parsed, in UTC and in Asia/Tokyo, to five days after the reading of
    the clock. *)
Lemma iso_prefix_with_relative_expression_is_accepted :
  let s := "2025-02-30Z 5 days" in
  (exists isoMatch,
      RegExp.exec ISO_WITH_ZONE_REGEX (Str.trim s) = Some isoMatch
      /\ RegExp.groupOr isoMatch 1 = "2025"
      /\ RegExp.groupOr isoMatch 2 = "02"
      /\ RegExp.groupOr isoMatch 3 = "30"
      /\ calendarValid (Str.parseDigits (RegExp.groupOr isoMatch 1))
                       (Str.parseDigits (RegExp.groupOr isoMatch 2))
                       (Str.parseDigits (RegExp.groupOr isoMatch 3)) = false)
  /\ fst (validateDateComponents 2025 2 30 initialWorld)
     = Throw (KronoParseError "2025-2-30" "Invalid day 30 for month 2 in year 2025")
  /\ reachesIsoStage (Str.trim s) = false
  /\ fst (create utcHost (InString s) (inZone "UTC") initialWorld)
     = Ok (instant (exampleNow + 5 * MS_PER_DAY) "UTC")
  /\ fst (create utcHost (InString s) (inZone "Asia/Tokyo") initialWorld)
     = Ok (instant (exampleNow + 5 * MS_PER_DAY) "Asia/Tokyo").
Proof.
  cbv zeta.
  split.
  { eexists. split; [vm_compute; reflexivity |].
    repeat split; vm_compute; reflexivity. }
  split; [vm_compute; reflexivity |].
  split; [vm_compute; reflexivity |].
  split; vm_compute; reflexivity.
Qed.

(** C3, amended.  A text that reaches the ISO stage (it is not ["now"], no
    natural-language phrase takes it and it holds no relative expression)
    and matches [ISO_WITH_ZONE_REGEX]
    has its year, month and day checked for calendar validity (month 1-12,
    day within the length of the month, 29 February in leap years only);
    when the check fails, parsing raises a parse error.  In particular,
    for every zone the constructor accepts, ["2025-02-30"] and
    ["2025-02-29"] raise a parse error and ["2024-02-29"] is parsed, to
    2024-02-29T00:00:00Z. *)
Theorem iso_dates_are_validated
    (host : Platform) (options : KronoOptions) (w : World) :
  clockValid host ->
  validZone host (orDefault (zone options) "UTC") ->
  (forall s isoMatch,
      reachesIsoStage (Str.trim s) = true ->
      RegExp.exec ISO_WITH_ZONE_REGEX (Str.trim s) = Some isoMatch ->
      calendarValid (Str.parseDigits (RegExp.groupOr isoMatch 1))
                    (Str.parseDigits (RegExp.groupOr isoMatch 2))
                    (Str.parseDigits (RegExp.groupOr isoMatch 3)) = false ->
      exists inp reason w',
        create host (InString s) options w
        = (Throw (KronoParseError inp reason), w'))
  /\ (exists inp reason w',
         create host (InString "2025-02-30") options w
         = (Throw (KronoParseError inp reason), w'))
  /\ (exists inp reason w',
         create host (InString "2025-02-29") options w
         = (Throw (KronoParseError inp reason), w'))
  /\ (exists w',
         create host (InString "2024-02-29") options w
         = (Ok {| _time := Int 1709164800000;
                  _locale := orDefault (locale options) "en-GB";
                  _zone := orDefault (zone options) "UTC";
                  _debug := orDefault (debug options) false |}, w')).
Proof.
  intros Hclock Hzone.
  assert (General : forall s isoMatch,
      reachesIsoStage (Str.trim s) = true ->
      RegExp.exec ISO_WITH_ZONE_REGEX (Str.trim s) = Some isoMatch ->
      calendarValid (Str.parseDigits (RegExp.groupOr isoMatch 1))
                    (Str.parseDigits (RegExp.groupOr isoMatch 2))
                    (Str.parseDigits (RegExp.groupOr isoMatch 3)) = false ->
      exists inp reason w',
        create host (InString s) options w
        = (Throw (KronoParseError inp reason), w')).
  { intros s isoMatch Hreach Hiso Hbad.
    destruct (_parseToTime_reaches_iso host (startOf host) s _ w Hclock Hzone
                Hreach) as (w1 & Hparse).
    destruct (validateDateComponents_spec
                (Str.parseDigits (RegExp.groupOr isoMatch 1))
                (Str.parseDigits (RegExp.groupOr isoMatch 2))
                (Str.parseDigits (RegExp.groupOr isoMatch 3)) w1
                (parseDigits_nonneg _)) as [_ Hthrow].
    destruct (Hthrow Hbad) as (inp & reason & Hv).
    exists inp, reason, w1. unfold create, create_over.
    unfold bind at 1. rewrite Hparse. unfold strictAndLenientStages.
    rewrite Hiso. now rewrite (bind_run_Throw _ Hv). }
  split; [exact General |].
  split; [| split].
  - apply (General "2025-02-30" [(0%nat, Str.chars "2025-02-30");
                                  (3%nat, Str.chars "30"); (2%nat, Str.chars "02");
                                  (1%nat, Str.chars "2025")]);
      vm_compute; reflexivity.
  - apply (General "2025-02-29" [(0%nat, Str.chars "2025-02-29");
                                  (3%nat, Str.chars "29"); (2%nat, Str.chars "02");
                                  (1%nat, Str.chars "2025")]);
      vm_compute; reflexivity.
  - destruct (_parseToTime_reaches_iso host (startOf host) "2024-02-29" _ w
                Hclock Hzone eq_refl) as (w1 & Hparse).
    assert (Hstages : strictAndLenientStages host (Str.trim "2024-02-29")
                        (orDefault (zone options) "UTC") w1
                      = (Ok (Int 1709164800000), w1)).
    { unfold strictAndLenientStages.
      replace (RegExp.test UTC_DATETIME_REGEX (Str.trim "2024-02-29"))
        with false by (vm_compute; reflexivity).
      rewrite andb_false_r.
      replace (DateParse.parse host (Str.trim "2024-02-29"))
        with (Int 1709164800000) by (vm_compute; reflexivity).
      vm_compute. reflexivity. }
    assert (Hvalid : validTimestamp (Int 1709164800000))
      by (exists 1709164800000; split; [reflexivity | lia]).
    destruct (new_Krono_valid host (Int 1709164800000)
                (orDefault (locale options) "en-GB")
                (orDefault (zone options) "UTC")
                (orDefault (debug options) false) w1 Hvalid Hzone)
      as (w' & Hnew).
    exists w'. unfold create, create_over.
    unfold bind at 1. rewrite Hparse, Hstages. exact Hnew.
Qed.

Lemma iso_dates_are_validated_witness :
  (exists inp reason w',
      create utcHost (InString "2025-02-30") (inZone "Asia/Tokyo") initialWorld
      = (Throw (KronoParseError inp reason), w'))
  /\ (exists w',
         create utcHost (InString "2024-02-29") (inZone "Asia/Tokyo") initialWorld
         = (Ok (instant 1709164800000 "Asia/Tokyo"), w')).
Proof.
  destruct (iso_dates_are_validated utcHost (inZone "Asia/Tokyo") initialWorld)
    as (_ & H30 & _ & H29).
  - intros n. exists exampleNow. split; [reflexivity | unfold exampleNow; lia].
  - right. reflexivity.
  - split; [exact H30 | exact H29].
Defined.

(* ================================================================== *)
(** * The calendar                                                      *)
(* ================================================================== *)

Section Calendar.
Import DateSpec.

Lemma div_step a k : 0 < k -> (a + 1) / k = a / k + (if (a + 1) mod k =? 0 then 1 else 0).
Proof.
  intros Hk. destruct (Z.eqb_spec ((a + 1) mod k) 0) as [E | E].
  - pose proof (Z.div_mod (a + 1) k ltac:(lia)) as H1.
    pose proof (Z.div_mod a k ltac:(lia)) as H2.
    pose proof (Z.mod_pos_bound a k Hk). nia.
  - pose proof (Z.div_mod (a + 1) k ltac:(lia)) as H1.
    pose proof (Z.div_mod a k ltac:(lia)) as H2.
    pose proof (Z.mod_pos_bound a k Hk).
    pose proof (Z.mod_pos_bound (a + 1) k Hk). nia.
Qed.

Lemma DayFromYear_succ y : DayFromYear (y + 1) = DayFromYear y + DaysInYear y.
Proof.
  unfold DayFromYear, DaysInYear, isLeap.
  replace (y + 1 - 1969) with (y - 1969 + 1) by lia.
  replace (y + 1 - 1901) with (y - 1901 + 1) by lia.
  replace (y + 1 - 1601) with (y - 1601 + 1) by lia.
  rewrite !div_step by lia.
  replace ((y - 1969 + 1) mod 4) with (y mod 4)
    by (Z.div_mod_to_equations; lia).
  replace ((y - 1901 + 1) mod 100) with (y mod 100)
    by (Z.div_mod_to_equations; lia).
  replace ((y - 1601 + 1) mod 400) with (y mod 400)
    by (Z.div_mod_to_equations; lia).
  destruct (Z.eqb_spec (y mod 4) 0), (Z.eqb_spec (y mod 100) 0),
    (Z.eqb_spec (y mod 400) 0); cbn [andb orb negb]; try lia;
    Z.div_mod_to_equations; lia.
Qed.

Lemma DayFromYear_bounds y :
  146097 * (y - 1970) - 506 <= 400 * DayFromYear y <= 146097 * (y - 1970) + 589.
Proof. unfold DayFromYear. Z.div_mod_to_equations. lia. Qed.

Lemma DaysInYear_pos y : 365 <= DaysInYear y <= 366.
Proof. unfold DaysInYear. destruct (isLeap y); lia. Qed.

Lemma DayFromYear_le y1 y2 : y1 <= y2 -> DayFromYear y1 <= DayFromYear y2.
Proof.
  intros H. pattern y2. apply (Zlt_lower_bound_ind _ y1); [| exact H].
  intros x IH Hx. destruct (Z.eq_dec x y1) as [-> | Hne]; [lia |].
  specialize (IH (x - 1) ltac:(lia)).
  pose proof (DayFromYear_succ (x - 1)) as Hs.
  replace (x - 1 + 1) with x in Hs by lia.
  pose proof (DaysInYear_pos (x - 1)). lia.
Qed.

Lemma DayFromYear_lt y1 y2 : y1 < y2 -> DayFromYear y1 < DayFromYear y2.
Proof.
  intros H. pose proof (DayFromYear_le (y1 + 1) y2 ltac:(lia)).
  pose proof (DayFromYear_succ y1). pose proof (DaysInYear_pos y1). lia.
Qed.

Lemma YearFromDay_spec d :
  DayFromYear (YearFromDay d) <= d < DayFromYear (YearFromDay d + 1).
Proof.
  unfold YearFromDay.
  set (y0 := 1970 + 400 * d / 146097).
  pose proof (DayFromYear_bounds (y0 - 1)) as Hlo.
  pose proof (DayFromYear_bounds (y0 + 2)) as Hhi.
  assert (Hq : 146097 * (y0 - 1970) <= 400 * d < 146097 * (y0 - 1970) + 146097).
  { unfold y0. Z.div_mod_to_equations. lia. }
  destruct (Z.ltb_spec d (DayFromYear y0)).
  - replace (y0 - 1 + 1) with y0 by lia. lia.
  - destruct (Z.leb_spec (DayFromYear (y0 + 1)) d).
    + replace (y0 + 1 + 1) with (y0 + 2) by lia. lia.
    + lia.
Qed.

Lemma YearFromDay_unique d y :
  DayFromYear y <= d < DayFromYear (y + 1) -> YearFromDay d = y.
Proof.
  intros H. pose proof (YearFromDay_spec d) as Hs.
  destruct (Z.lt_trichotomy (YearFromDay d) y) as [Hlt | [Heq | Hgt]];
    [| exact Heq |].
  - pose proof (DayFromYear_le (YearFromDay d + 1) y ltac:(lia)). lia.
  - pose proof (DayFromYear_le (y + 1) (YearFromDay d) ltac:(lia)). lia.
Qed.

Lemma monthStart_bounds leap m :
  0 <= m <= 11 ->
  0 <= monthStart leap m /\ 28 <= monthStart leap (m + 1) - monthStart leap m <= 31
  /\ monthStart leap (m + 1) <= 365 + (if leap then 1 else 0).
Proof.
  intros Hm.
  assert (Hc : m = 0 \/ m = 1 \/ m = 2 \/ m = 3 \/ m = 4 \/ m = 5 \/ m = 6
               \/ m = 7 \/ m = 8 \/ m = 9 \/ m = 10 \/ m = 11) by lia.
  destruct leap;
    repeat (destruct Hc as [-> | Hc]; [simpl; lia |]); subst m; simpl; lia.
Qed.

Lemma monthOfYearDay_spec (leap : bool) d :
  0 <= d < 365 + (if leap then 1 else 0) ->
  0 <= monthOfYearDay leap d <= 11
  /\ monthStart leap (monthOfYearDay leap d) <= d
     < monthStart leap (monthOfYearDay leap d + 1).
Proof.
  intros Hd. unfold monthOfYearDay.
  destruct leap; simpl in Hd;
    repeat match goal with
           | |- context [if Z.ltb ?a ?b then _ else _] =>
               destruct (Z.ltb_spec a b); [simpl in *; lia |]
           end; simpl in *; lia.
Qed.

Lemma monthOfYearDay_unique leap d m :
  0 <= m <= 11 ->
  monthStart leap m <= d < monthStart leap (m + 1) ->
  monthOfYearDay leap d = m.
Proof.
  intros Hm Hd.
  assert (Hc : m = 0 \/ m = 1 \/ m = 2 \/ m = 3 \/ m = 4 \/ m = 5 \/ m = 6
               \/ m = 7 \/ m = 8 \/ m = 9 \/ m = 10 \/ m = 11) by lia.
  unfold monthOfYearDay.
  destruct leap;
    repeat (destruct Hc as [-> | Hc];
            [simpl in Hd;
             repeat match goal with
                    | |- context [if Z.ltb ?a ?b then _ else _] =>
                        destruct (Z.ltb_spec a b); simpl in *; try lia
                    end |]);
    subst m; simpl in Hd;
    repeat match goal with
           | |- context [if Z.ltb ?a ?b then _ else _] =>
               destruct (Z.ltb_spec a b); simpl in *; try lia
           end.
Qed.

Lemma TimeWithinDay_bounds t : 0 <= TimeWithinDay t < msPerDay.
Proof. unfold TimeWithinDay, msPerDay. apply Z.mod_pos_bound. lia. Qed.

Lemma MakeDate_Day t : MakeDate (Day t) (TimeWithinDay t) = t.
Proof.
  unfold MakeDate, Day, TimeWithinDay, msPerDay.
  pose proof (Z.div_mod t 86400000 ltac:(lia)). lia.
Qed.

Lemma Day_MakeDate D tod :
  0 <= tod < msPerDay ->
  Day (MakeDate D tod) = D /\ TimeWithinDay (MakeDate D tod) = tod.
Proof.
  unfold MakeDate, Day, TimeWithinDay, msPerDay. intros H.
  split; Z.div_mod_to_equations; lia.
Qed.

Lemma DayWithinYear_bounds t :
  0 <= DayWithinYear t < 365 + (if InLeapYear t then 1 else 0).
Proof.
  unfold DayWithinYear, InLeapYear, YearFromTime.
  pose proof (YearFromDay_spec (Day t)) as H.
  rewrite DayFromYear_succ in H. unfold DaysInYear in H.
  destruct (isLeap (YearFromDay (Day t))); lia.
Qed.

Lemma civil_decomposition t :
  0 <= MonthFromTime t <= 11
  /\ 1 <= DateFromTime t
     <= monthStart (InLeapYear t) (MonthFromTime t + 1)
        - monthStart (InLeapYear t) (MonthFromTime t)
  /\ Day t = DayFromYear (YearFromTime t)
             + monthStart (InLeapYear t) (MonthFromTime t) + DateFromTime t - 1.
Proof.
  pose proof (monthOfYearDay_spec (InLeapYear t) (DayWithinYear t)
                (DayWithinYear_bounds t)) as H.
  unfold DateFromTime, MonthFromTime. unfold DayWithinYear in *. lia.
Qed.

Lemma MakeDay_normal y m d :
  0 <= m <= 11 -> MakeDay y m d = DayFromYear y + monthStart (isLeap y) m + d - 1.
Proof.
  intros Hm. unfold MakeDay.
  rewrite (Z.div_small m 12), (Z.mod_small m 12) by lia.
  now rewrite Z.add_0_r.
Qed.

Lemma MakeDay_civil t k :
  MakeDay (YearFromTime t) (MonthFromTime t) (DateFromTime t + k) = Day t + k.
Proof.
  destruct (civil_decomposition t) as (Hm & Hd & Hday).
  rewrite MakeDay_normal by exact Hm. unfold InLeapYear in Hday. lia.
Qed.

Lemma civil_of_MakeDay y m d t :
  0 <= m <= 11 ->
  1 <= d <= monthStart (isLeap y) (m + 1) - monthStart (isLeap y) m ->
  Day t = MakeDay y m d ->
  YearFromTime t = y /\ MonthFromTime t = m /\ DateFromTime t = d.
Proof.
  intros Hm Hd Hday. rewrite MakeDay_normal in Hday by exact Hm.
  destruct (monthStart_bounds (isLeap y) m Hm) as (H0 & Hlen & Hend).
  assert (HY : YearFromTime t = y).
  { unfold YearFromTime. apply YearFromDay_unique.
    rewrite DayFromYear_succ. unfold DaysInYear.
    destruct (isLeap y); lia. }
  assert (HM : MonthFromTime t = m).
  { unfold MonthFromTime, InLeapYear, DayWithinYear. rewrite HY.
    apply monthOfYearDay_unique; [exact Hm | lia]. }
  split; [exact HY | split; [exact HM |]].
  unfold DateFromTime, InLeapYear, DayWithinYear. rewrite HM, HY. lia.
Qed.

End Calendar.

(* ================================================================== *)
(** * Periods in UTC                                                    *)
(* ================================================================== *)

Section UTCPeriods.
Import DateSpec.

Lemma Ok_pair_inj {A : Type} (x y : A) (w w' : World) :
  (Ok x, w) = (Ok y, w') -> x = y /\ w = w'.
Proof. intros H. inversion H. now split. Qed.

Lemma Int_inj a b : Int a = Int b -> a = b.
Proof. intros H. now inversion H. Qed.

Lemma TimeClip_in x : - maxTime <= x <= maxTime -> TimeClip x = Int x.
Proof.
  intros H. unfold TimeClip. destruct (Z.leb_spec (Z.abs x) maxTime); [reflexivity | lia].
Qed.

Lemma TimeClip_low x : x < - maxTime -> TimeClip x = NaN.
Proof.
  intros H. unfold TimeClip. destruct (Z.leb_spec (Z.abs x) maxTime); [lia | reflexivity].
Qed.

Lemma TimeClip_Int x y : TimeClip x = Int y -> y = x /\ - maxTime <= x <= maxTime.
Proof.
  unfold TimeClip. destruct (Z.leb_spec (Z.abs x) maxTime) as [Hle | Hgt]; [| discriminate].
  intros Heq; inversion Heq. lia.
Qed.

Lemma time_fields x :
  MakeDate (Day x) (MakeTime (HourFromTime x) (MinFromTime x) (SecFromTime x) 0)
  = x - x mod MS_PER_SECOND
  /\ MakeDate (Day x) (MakeTime (HourFromTime x) (MinFromTime x) 0 0)
     = x - x mod MS_PER_MINUTE
  /\ MakeDate (Day x) (MakeTime (HourFromTime x) 0 0 0) = x - x mod MS_PER_HOUR
  /\ MakeDate (Day x) (MakeTime 0 0 0 0) = x - x mod MS_PER_DAY.
Proof.
  unfold MakeDate, MakeTime, Day, HourFromTime, MinFromTime, SecFromTime,
    msPerDay, msPerHour, msPerMinute, msPerSecond,
    MS_PER_SECOND, MS_PER_MINUTE, MS_PER_HOUR, MS_PER_DAY.
  repeat split; Z.div_mod_to_equations; lia.
Qed.

Lemma setUTCHours_midnight x :
  JSDate.setUTCHours (Int x) (Int 0) (Some (Int 0)) (Some (Int 0)) (Some (Int 0))
  = TimeClip (Day x * msPerDay).
Proof.
  unfold JSDate.setUTCHours, JSDate.orElse, MakeDate, MakeTime. f_equal. lia.
Qed.

Lemma midnight_after_clip Dn tod :
  0 <= tod < msPerDay -> MakeDate Dn tod <= maxTime ->
  JSDate.setUTCHours (TimeClip (MakeDate Dn tod)) (Int 0)
    (Some (Int 0)) (Some (Int 0)) (Some (Int 0))
  = TimeClip (Dn * msPerDay).
Proof.
  intros Htod Hmax.
  destruct (Z_lt_le_dec (MakeDate Dn tod) (- maxTime)) as [Hlo | Hlo].
  - rewrite TimeClip_low by exact Hlo. simpl.
    symmetry. apply TimeClip_low. unfold MakeDate in Hlo. lia.
  - rewrite TimeClip_in by lia. rewrite setUTCHours_midnight.
    now rewrite (proj1 (Day_MakeDate Dn tod Htod)).
Qed.

Lemma WeekDay_bounds x : 0 <= WeekDay x <= 6.
Proof. unfold WeekDay. pose proof (Z.mod_pos_bound (Day x + 4) 7). lia. Qed.

Lemma daysToSubtract_eq wd :
  0 <= wd <= 6 ->
  (if strict_eq (Int wd) (Int 0) then Int 6 else nsub (Int wd) (Int 1))
  = Int ((wd + 6) mod 7).
Proof.
  intros Hwd. unfold strict_eq, nsub, nadd, nneg.
  destruct (Z.eqb_spec wd 0) as [-> | Hne]; [reflexivity |].
  f_equal. Z.div_mod_to_equations. lia.
Qed.

Lemma truncateTo_spec unit x :
  - maxTime <= x <= maxTime ->
  truncateTo (Int x) unit = TimeClip (periodStart unit x).
Proof.
  intros Hx. pose proof (TimeWithinDay_bounds x) as Htod.
  pose proof (MakeDate_Day x) as Hxd.
  destruct unit; unfold truncateTo, periodStart.
  - (* millisecond *) symmetry. now apply TimeClip_in.
  - (* second *)
    unfold JSDate.setUTCMilliseconds. cbv beta iota.
    rewrite (proj1 (time_fields x)). reflexivity.
  - (* minute *)
    unfold JSDate.setUTCSeconds, JSDate.orElse. cbv beta iota.
    rewrite (proj1 (proj2 (time_fields x))). reflexivity.
  - (* hour *)
    unfold JSDate.setUTCMinutes, JSDate.orElse. cbv beta iota.
    rewrite (proj1 (proj2 (proj2 (time_fields x)))). reflexivity.
  - (* day *)
    unfold JSDate.setUTCHours, JSDate.orElse. cbv beta iota.
    rewrite (proj2 (proj2 (proj2 (time_fields x)))). reflexivity.
  - (* week *)
    unfold JSDate.getUTCDay, JSDate.getUTCDate, JSDate.getter.
    pose proof (WeekDay_bounds x) as Hwd.
    rewrite (daysToSubtract_eq (WeekDay x) Hwd).
    unfold nsub, nadd, nneg, JSDate.setUTCDate.
    rewrite MakeDay_civil.
    pose proof (Z.mod_pos_bound (WeekDay x + 6) 7 ltac:(lia)).
    rewrite midnight_after_clip; [unfold MS_PER_DAY, msPerDay; reflexivity
                                 | exact Htod |].
    unfold MakeDate, msPerDay in *. lia.
  - (* month *)
    unfold JSDate.setUTCDate.
    replace 1 with (DateFromTime x + (1 - DateFromTime x)) at 1 by lia.
    rewrite MakeDay_civil.
    destruct (civil_decomposition x) as (HM & HD & Hday).
    rewrite midnight_after_clip;
      [| exact Htod | unfold MakeDate, msPerDay in *; lia].
    unfold MS_PER_DAY, msPerDay, InLeapYear in *. f_equal. lia.
  - (* year *)
    unfold JSDate.setUTCMonth, JSDate.orElse.
    destruct (civil_decomposition x) as (HM & HD & Hday).
    destruct (monthStart_bounds (InLeapYear x) (MonthFromTime x) HM) as (H0 & _).
    rewrite midnight_after_clip; [| exact Htod |].
    + rewrite MakeDay_normal by lia. simpl monthStart.
      unfold MS_PER_DAY, msPerDay. f_equal. lia.
    + rewrite MakeDay_normal by lia. simpl monthStart.
      unfold MakeDate, msPerDay in *. lia.
Qed.

Section UTCArith.
Variable host : Platform.

Lemma getOffset_UTC_run n w : zone.getOffset host n "UTC" w = (Ok (Int 0), w).
Proof. reflexivity. Qed.

Lemma handleDSTAmbiguity_UTC_run n p w :
  zone.handleDSTAmbiguity host n "UTC" p w = (Ok n, w).
Proof. reflexivity. Qed.

Lemma nsub_0_r t : nsub (Int t) (Int 0) = Int t.
Proof. unfold nsub, nadd, nneg. f_equal. lia. Qed.

Lemma nadd_0_r n : nadd n (Int 0) = n.
Proof. destruct n as [z | | s]; try reflexivity. unfold nadd. f_equal. lia. Qed.

(** The calendar units in UTC: the date arithmetic is applied to the
    timestamp itself. *)
Lemma addTimeWithDST_UTC_calendar t amount unit w :
  - maxTime <= t <= maxTime ->
  UNIT_MULTIPLIERS unit = None \/ unit = day \/ unit = week ->
  zone.addTimeWithDST host (Int t) amount unit "UTC" w
  = (Ok (match unit with
         | year =>
             JSDate.setUTCFullYear (Int t)
               (nadd (JSDate.getUTCFullYear (Int t)) amount) None None
         | month =>
             let targetMonth := nadd (JSDate.getUTCMonth (Int t)) amount in
             let targetYear :=
               nadd (JSDate.getUTCFullYear (Int t)) (floor_div targetMonth 12) in
             let finalMonth := nrem (nadd (nrem targetMonth 12) (Int 12)) 12 in
             JSDate.setUTCDate
               (JSDate.setUTCFullYear (Int t) targetYear (Some finalMonth)
                  (Some (Int 1)))
               (Math_min (JSDate.getUTCDate (Int t))
                  (JSDate.getUTCDate
                     (JSDate.ofLocalFields host targetYear
                        (nadd finalMonth (Int 1)) (Int 0))))
         | week =>
             JSDate.setUTCDate (Int t)
               (nadd (JSDate.getUTCDate (Int t)) (nscale amount 7))
         | _ =>
             JSDate.setUTCDate (Int t) (nadd (JSDate.getUTCDate (Int t)) amount)
         end), w).
Proof.
  intros Ht Hu. unfold zone.addTimeWithDST.
  assert (Hfast : match unit with
                  | day | week => None
                  | _ => UNIT_MULTIPLIERS unit
                  end = None).
  { destruct Hu as [Hu | [-> | ->]]; [| reflexivity | reflexivity].
    destruct unit; try reflexivity; discriminate. }
  rewrite Hfast.
  rewrite (bind_run_Ok _ (getOffset_UTC_run (Int t) w)).
  rewrite nsub_0_r. unfold JSDate.ofNumber. rewrite (TimeClip_in t Ht).
  cbv zeta.
  rewrite (bind_run_Ok _ (getOffset_UTC_run _ w)).
  unfold JSDate.getTime. rewrite nadd_0_r.
  rewrite handleDSTAmbiguity_UTC_run.
  destruct unit; try reflexivity;
    destruct Hu as [Hu | [Hu | Hu]]; discriminate.
Qed.

End UTCArith.

Lemma periodStart_le unit t : periodStart unit t <= t.
Proof.
  destruct unit; unfold periodStart, MS_PER_SECOND, MS_PER_MINUTE,
    MS_PER_HOUR, MS_PER_DAY.
  - lia.
  - pose proof (Z.mod_pos_bound t 1000 ltac:(lia)). lia.
  - pose proof (Z.mod_pos_bound t 60000 ltac:(lia)). lia.
  - pose proof (Z.mod_pos_bound t 3600000 ltac:(lia)). lia.
  - pose proof (Z.mod_pos_bound t 86400000 ltac:(lia)). lia.
  - pose proof (Z.mod_pos_bound (WeekDay t + 6) 7 ltac:(lia)).
    pose proof (MakeDate_Day t) as H1. pose proof (TimeWithinDay_bounds t).
    unfold MakeDate, msPerDay in *. lia.
  - destruct (civil_decomposition t) as (HM & HD & Hday).
    pose proof (MakeDate_Day t) as H1. pose proof (TimeWithinDay_bounds t).
    unfold MakeDate, msPerDay, InLeapYear in *. lia.
  - destruct (civil_decomposition t) as (HM & HD & Hday).
    destruct (monthStart_bounds (InLeapYear t) (MonthFromTime t) HM) as (H0 & _).
    pose proof (MakeDate_Day t) as H1. pose proof (TimeWithinDay_bounds t).
    unfold MakeDate, msPerDay, InLeapYear in *. lia.
Qed.

Lemma nextPeriodStart_gt unit t : t < nextPeriodStart unit t.
Proof.
  destruct unit; unfold nextPeriodStart, periodStart, MS_PER_SECOND,
    MS_PER_MINUTE, MS_PER_HOUR, MS_PER_DAY, MS_PER_WEEK.
  - lia.
  - pose proof (Z.mod_pos_bound t 1000 ltac:(lia)). lia.
  - pose proof (Z.mod_pos_bound t 60000 ltac:(lia)). lia.
  - pose proof (Z.mod_pos_bound t 3600000 ltac:(lia)). lia.
  - pose proof (Z.mod_pos_bound t 86400000 ltac:(lia)). lia.
  - pose proof (Z.mod_pos_bound (WeekDay t + 6) 7 ltac:(lia)).
    pose proof (MakeDate_Day t) as H1. pose proof (TimeWithinDay_bounds t).
    unfold MakeDate, msPerDay in *. lia.
  - destruct (civil_decomposition t) as (HM & HD & Hday).
    pose proof (MakeDate_Day t) as H1. pose proof (TimeWithinDay_bounds t).
    unfold MakeDate, msPerDay, InLeapYear in *. lia.
  - destruct (civil_decomposition t) as (HM & HD & Hday).
    destruct (monthStart_bounds (InLeapYear t) (MonthFromTime t) HM)
      as (H0 & Hlen & Hend).
    pose proof (MakeDate_Day t) as H1. pose proof (TimeWithinDay_bounds t).
    rewrite DayFromYear_succ. unfold DaysInYear.
    unfold MakeDate, msPerDay, InLeapYear in *.
    destruct (isLeap (YearFromTime t)); lia.
Qed.

(** The civil fields of the start of a month or of a year. *)
Lemma civil_of_month_start y m :
  0 <= m <= 11 ->
  let P := (DayFromYear y + monthStart (isLeap y) m) * msPerDay in
  YearFromTime P = y /\ MonthFromTime P = m /\ DateFromTime P = 1
  /\ TimeWithinDay P = 0 /\ Day P = DayFromYear y + monthStart (isLeap y) m.
Proof.
  intros Hm P.
  assert (HP : P = MakeDate (DayFromYear y + monthStart (isLeap y) m) 0)
    by (unfold P, MakeDate; lia).
  destruct (Day_MakeDate (DayFromYear y + monthStart (isLeap y) m) 0
              ltac:(unfold msPerDay; lia)) as (Hday & Htod).
  rewrite <- HP in Hday, Htod.
  destruct (monthStart_bounds (isLeap y) m Hm) as (H0 & Hlen & Hend).
  destruct (civil_of_MakeDay y m 1 P Hm ltac:(lia)) as (HY & HM & HD).
  { rewrite MakeDay_normal by exact Hm. lia. }
  repeat split; assumption.
Qed.

Lemma MakeFullYear_leap y :
  isLeap (MakeFullYear y) = true -> isLeap y = true.
Proof.
  unfold MakeFullYear.
  destruct (Z.leb_spec 0 y) as [Hy0 | Hy0]; [| cbn [andb]; tauto].
  destruct (Z.leb_spec y 99) as [Hy9 | Hy9]; cbn [andb]; [| tauto].
  unfold isLeap. intros H.
  apply orb_true_iff in H as [H | H].
  - apply andb_true_iff in H as [H4 H100].
    apply Z.eqb_eq in H4. apply negb_true_iff, Z.eqb_neq in H100.
    apply orb_true_iff. left. apply andb_true_iff. split.
    + apply Z.eqb_eq. Z.div_mod_to_equations. lia.
    + apply negb_true_iff, Z.eqb_neq. Z.div_mod_to_equations. lia.
  - apply Z.eqb_eq in H. exfalso. Z.div_mod_to_equations. lia.
Qed.

Lemma month_length_leap (l l' : bool) m :
  0 <= m <= 11 -> (l' = true -> l = true) ->
  monthStart l' (m + 1) - monthStart l' m <= monthStart l (m + 1) - monthStart l m.
Proof.
  intros Hm Hl.
  assert (Hc : m = 0 \/ m = 1 \/ m = 2 \/ m = 3 \/ m = 4 \/ m = 5 \/ m = 6
               \/ m = 7 \/ m = 8 \/ m = 9 \/ m = 10 \/ m = 11) by lia.
  destruct l, l'; try (specialize (Hl eq_refl); discriminate);
    repeat (destruct Hc as [-> | Hc]; [simpl; lia |]); subst m; simpl; lia.
Qed.

(** The day number of the last day of a month, as [MakeDay] gives it for
    day 0 of the following month. *)
Lemma MakeDay_day_zero y m :
  0 <= m <= 11 ->
  MakeDay y (m + 1) 0 = DayFromYear y + monthStart (isLeap y) (m + 1) - 1.
Proof.
  intros Hm. destruct (Z.eq_dec m 11) as [-> | Hne].
  - unfold MakeDay. change ((11 + 1) / 12) with 1. change ((11 + 1) mod 12) with 0.
    rewrite DayFromYear_succ. unfold DaysInYear.
    destruct (isLeap y), (isLeap (y + 1)); simpl; lia.
  - rewrite MakeDay_normal by lia. lia.
Qed.

Section LastDay.
Variable host : Platform.
Hypothesis Hhost : hostOffsetBounded host.

(** On a host within a day of UTC, the day the code takes for the last of
    the target month is at least 1 and at most the length of that month. *)
Lemma lastDayOfTargetMonth_bounds ty fm l :
  0 <= fm <= 11 ->
  JSDate.getUTCDate (JSDate.ofLocalFields host (Int ty) (Int (fm + 1)) (Int 0))
  = Int l ->
  1 <= l <= monthStart (isLeap ty) (fm + 1) - monthStart (isLeap ty) fm.
Proof.
  intros Hfm. unfold JSDate.ofLocalFields.
  set (y' := MakeFullYear ty).
  set (localTime := MakeDate (MakeDay y' (fm + 1) 0) (MakeTime 0 0 0 0)).
  specialize (Hhost localTime).
  set (u := localTime - LocalTZA host localTime) in *.
  destruct (TimeClip u) as [v | | s] eqn:Hclip; try discriminate.
  apply TimeClip_Int in Hclip as [-> _].
  unfold JSDate.getUTCDate, JSDate.getter. intros H; inversion H; subst l; clear H.
  pose proof (month_length_leap (isLeap ty) (isLeap y') fm Hfm
                (MakeFullYear_leap ty)) as Hlen.
  destruct (monthStart_bounds (isLeap y') fm Hfm) as (H0 & Hdim & Hend).
  set (dim := monthStart (isLeap y') (fm + 1) - monthStart (isLeap y') fm) in *.
  assert (Hlocal : localTime = (MakeDay y' fm dim) * msPerDay).
  { unfold localTime, MakeDate, MakeTime. rewrite MakeDay_day_zero by exact Hfm.
    rewrite MakeDay_normal by exact Hfm. unfold dim. lia. }
  pose proof (MakeDate_Day u) as Hu. pose proof (TimeWithinDay_bounds u) as Htod.
  assert (Hday : Day u = MakeDay y' fm dim \/ Day u = MakeDay y' fm (dim - 1)).
  { unfold MakeDay in *. unfold MakeDate, msPerDay in *. lia. }
  destruct Hday as [Hday | Hday].
  - destruct (civil_of_MakeDay y' fm dim u Hfm ltac:(unfold dim; lia) Hday)
      as (_ & _ & HD). lia.
  - destruct (civil_of_MakeDay y' fm (dim - 1) u Hfm ltac:(unfold dim; lia) Hday)
      as (_ & _ & HD). lia.
Qed.

End LastDay.

Lemma next_month Y M :
  0 <= M <= 11 ->
  0 <= (M + 1) mod 12 <= 11
  /\ Z.rem (Z.rem (M + 1) 12 + 12) 12 = (M + 1) mod 12
  /\ DayFromYear (Y + (M + 1) / 12)
     + monthStart (isLeap (Y + (M + 1) / 12)) ((M + 1) mod 12)
     = DayFromYear Y + monthStart (isLeap Y) (M + 1).
Proof.
  intros HM.
  pose proof (Z.mod_pos_bound (M + 1) 12 ltac:(lia)) as Hb.
  split; [lia |]. split.
  - rewrite (Z.rem_mod_nonneg (M + 1) 12) by lia.
    rewrite Z.rem_mod_nonneg by lia.
    Z.div_mod_to_equations. lia.
  - destruct (Z.eq_dec M 11) as [-> | Hne].
    + change ((11 + 1) / 12) with 1. change ((11 + 1) mod 12) with 0.
      rewrite DayFromYear_succ. unfold DaysInYear.
      destruct (isLeap Y), (isLeap (Y + 1)); simpl; lia.
    + rewrite (Z.div_small (M + 1) 12), (Z.mod_small (M + 1) 12) by lia.
      now rewrite Z.add_0_r.
Qed.

Lemma nadd_Int a b : nadd (Int a) (Int b) = Int (a + b).
Proof. reflexivity. Qed.

Lemma floor_div_Int a k : floor_div (Int a) k = Int (a / k).
Proof. reflexivity. Qed.

Lemma nrem_Int a k : nrem (Int a) k = Int (Z.rem a k).
Proof. reflexivity. Qed.

Lemma Math_min_Int a b : Math_min (Int a) (Int b) = Int (Z.min a b).
Proof.
  unfold Math_min, nlt. destruct (Z.ltb_spec b a); f_equal; lia.
Qed.

(** [setUTCDate] on the first day of a month, after the clipping of
    [setUTCFullYear]. *)
Lemma setUTCDate_on_first y m tod f :
  0 <= m <= 11 -> 0 <= tod < msPerDay ->
  let N := DayFromYear y + monthStart (isLeap y) m in
  JSDate.setUTCDate (TimeClip (MakeDate N tod)) (Int f)
  = match TimeClip (MakeDate N tod) with
    | Int _ => TimeClip (MakeDate (N + f - 1) tod)
    | _ => NaN
    end.
Proof.
  intros Hm Htod N.
  destruct (TimeClip (MakeDate N tod)) as [z | | s] eqn:Hclip; try reflexivity.
  apply TimeClip_Int in Hclip as [-> _].
  destruct (Day_MakeDate N tod Htod) as (Hday & Htw).
  destruct (monthStart_bounds (isLeap y) m Hm) as (H0 & Hlen & Hend).
  destruct (civil_of_MakeDay y m 1 (MakeDate N tod) Hm ltac:(lia))
    as (HY & HM & HD).
  { rewrite Hday, MakeDay_normal by exact Hm. unfold N. lia. }
  unfold JSDate.setUTCDate. rewrite HY, HM, Htw.
  rewrite MakeDay_normal by exact Hm. reflexivity.
Qed.


Lemma getUTCMonth_Int t : JSDate.getUTCMonth (Int t) = Int (MonthFromTime t).
Proof. reflexivity. Qed.
Lemma getUTCFullYear_Int t : JSDate.getUTCFullYear (Int t) = Int (YearFromTime t).
Proof. reflexivity. Qed.
Lemma getUTCDate_Int t : JSDate.getUTCDate (Int t) = Int (DateFromTime t).
Proof. reflexivity. Qed.

Lemma setUTCFullYear_3 t y m d :
  JSDate.setUTCFullYear (Int t) (Int y) (Some (Int m)) (Some (Int d))
  = TimeClip (MakeDate (MakeDay y m d) (TimeWithinDay t)).
Proof. reflexivity. Qed.

Lemma Math_min_NaN_r a : Math_min a NaN = NaN.
Proof. destruct a; reflexivity. Qed.

Lemma getUTCDate_finite d s : JSDate.getUTCDate d <> Infinity s.
Proof. destruct d; discriminate. Qed.

Lemma setUTCDate_NaN d : JSDate.setUTCDate d NaN = NaN.
Proof. destruct d; reflexivity. Qed.

Section MonthStep.
Variable host : Platform.

Lemma add_one_month_UTC_A t w :
  - maxTime <= t <= maxTime ->
  zone.addTimeWithDST host (Int t) (Int 1) month "UTC" w
  = (Ok (JSDate.setUTCDate
           (JSDate.setUTCFullYear (Int t)
              (Int (YearFromTime t + (MonthFromTime t + 1) / 12))
              (Some (Int ((MonthFromTime t + 1) mod 12))) (Some (Int 1)))
           (Math_min (Int (DateFromTime t))
              (JSDate.getUTCDate
                 (JSDate.ofLocalFields host
                    (Int (YearFromTime t + (MonthFromTime t + 1) / 12))
                    (Int ((MonthFromTime t + 1) mod 12 + 1)) (Int 0))))), w).
Proof.
  intros Ht.
  rewrite addTimeWithDST_UTC_calendar by (auto; exact Ht).
  destruct (civil_decomposition t) as (HM & HD & Hday).
  destruct (next_month (YearFromTime t) (MonthFromTime t) HM)
    as (Hfm & Hrem & HN).
  cbv zeta.
  rewrite !getUTCMonth_Int, !getUTCFullYear_Int, !getUTCDate_Int.
  rewrite !nadd_Int, !floor_div_Int, !nrem_Int, !nadd_Int, !nrem_Int, !nadd_Int.
  rewrite Hrem. reflexivity.
Qed.

Lemma setUTCDate_on_first' y m N tod f :
  0 <= m <= 11 -> 0 <= tod < msPerDay ->
  N = DayFromYear y + monthStart (isLeap y) m ->
  JSDate.setUTCDate (TimeClip (MakeDate N tod)) (Int f)
  = match TimeClip (MakeDate N tod) with
    | Int _ => TimeClip (MakeDate (N + f - 1) tod)
    | _ => NaN
    end.
Proof.
  intros Hm Htod ->. exact (setUTCDate_on_first y m tod f Hm Htod).
Qed.

Lemma add_one_month_UTC t w :
  - maxTime <= t <= maxTime ->
  zone.addTimeWithDST host (Int t) (Int 1) month "UTC" w
  = (Ok (match TimeClip
                 (MakeDate
                    (DayFromYear (YearFromTime t)
                     + monthStart (isLeap (YearFromTime t)) (MonthFromTime t + 1))
                    (TimeWithinDay t)),
               JSDate.getUTCDate
                 (JSDate.ofLocalFields host
                    (Int (YearFromTime t + (MonthFromTime t + 1) / 12))
                    (Int ((MonthFromTime t + 1) mod 12 + 1)) (Int 0)) with
         | Int _, Int l =>
             TimeClip
               (MakeDate
                  (DayFromYear (YearFromTime t)
                   + monthStart (isLeap (YearFromTime t)) (MonthFromTime t + 1)
                   + Z.min (DateFromTime t) l - 1)
                  (TimeWithinDay t))
         | _, _ => NaN
         end), w).
Proof.
  intros Ht. rewrite add_one_month_UTC_A by exact Ht.
  destruct (civil_decomposition t) as (HM & HD & Hday).
  destruct (next_month (YearFromTime t) (MonthFromTime t) HM)
    as (Hfm & Hrem & HN).
  rewrite setUTCFullYear_3.
  rewrite (MakeDay_normal _ _ 1) by exact Hfm.
  rewrite HN.
  replace (DayFromYear (YearFromTime t)
           + monthStart (isLeap (YearFromTime t)) (MonthFromTime t + 1) + 1 - 1)
    with (DayFromYear (YearFromTime t)
          + monthStart (isLeap (YearFromTime t)) (MonthFromTime t + 1)) by lia.
  destruct (JSDate.getUTCDate
              (JSDate.ofLocalFields host
                 (Int (YearFromTime t + (MonthFromTime t + 1) / 12))
                 (Int ((MonthFromTime t + 1) mod 12 + 1)) (Int 0)))
    as [l | | s] eqn:HL.
  - rewrite Math_min_Int.
    rewrite (setUTCDate_on_first' (YearFromTime t + (MonthFromTime t + 1) / 12)
               ((MonthFromTime t + 1) mod 12) _ (TimeWithinDay t) _ Hfm
               (TimeWithinDay_bounds t) (eq_sym HN)).
    reflexivity.
  - rewrite Math_min_NaN_r, setUTCDate_NaN.
    destruct (TimeClip _); reflexivity.
  - exfalso. exact (getUTCDate_finite _ _ HL).
Qed.

End MonthStep.



Ltac eval_monthStart :=
  repeat match goal with
         | |- context [monthStart ?l ?m] =>
             let v := eval vm_compute in (monthStart l m) in
             change (monthStart l m) with v
         end.

Lemma day_in_other_year (l l' : bool) m d :
  0 <= m <= 11 ->
  1 <= d <= monthStart l (m + 1) - monthStart l m ->
  0 <= monthStart l' m + d - 1 < 365 + (if l' then 1 else 0).
Proof.
  intros Hm.
  assert (Hc : m = 0 \/ m = 1 \/ m = 2 \/ m = 3 \/ m = 4 \/ m = 5 \/ m = 6
               \/ m = 7 \/ m = 8 \/ m = 9 \/ m = 10 \/ m = 11) by lia.
  destruct l, l';
    repeat (destruct Hc as [-> | Hc]; [eval_monthStart; lia |]);
    subst m; eval_monthStart; lia.
Qed.

Section AddOne.
Variable host : Platform.

Lemma add_one_day_UTC t w :
  - maxTime <= t <= maxTime ->
  zone.addTimeWithDST host (Int t) (Int 1) day "UTC" w
  = (Ok (TimeClip (t + MS_PER_DAY)), w).
Proof.
  intros Ht. rewrite addTimeWithDST_UTC_calendar by (auto; exact Ht).
  change (JSDate.getUTCDate (Int t)) with (Int (DateFromTime t)).
  rewrite nadd_Int. unfold JSDate.setUTCDate. rewrite MakeDay_civil.
  do 3 f_equal. pose proof (MakeDate_Day t).
  unfold MakeDate, MS_PER_DAY, msPerDay in *. lia.
Qed.

Lemma add_one_week_UTC t w :
  - maxTime <= t <= maxTime ->
  zone.addTimeWithDST host (Int t) (Int 1) week "UTC" w
  = (Ok (TimeClip (t + MS_PER_WEEK)), w).
Proof.
  intros Ht. rewrite addTimeWithDST_UTC_calendar by (auto; exact Ht).
  change (JSDate.getUTCDate (Int t)) with (Int (DateFromTime t)).
  change (nscale (Int 1) 7) with (Int 7).
  rewrite nadd_Int. unfold JSDate.setUTCDate. rewrite MakeDay_civil.
  do 3 f_equal. pose proof (MakeDate_Day t).
  unfold MakeDate, MS_PER_WEEK, msPerDay in *. lia.
Qed.

Lemma add_one_year_UTC t w :
  - maxTime <= t <= maxTime ->
  zone.addTimeWithDST host (Int t) (Int 1) year "UTC" w
  = (Ok (TimeClip (MakeDate (MakeDay (YearFromTime t + 1) (MonthFromTime t)
                               (DateFromTime t))
                            (TimeWithinDay t))), w).
Proof.
  intros Ht. rewrite addTimeWithDST_UTC_calendar by (auto; exact Ht).
  reflexivity.
Qed.

End AddOne.

Section OnePeriod.
Variable host : Platform.
Hypothesis Hhost : hostOffsetBounded host.

Lemma add_one_fixed_UTC t unit c w :
  UNIT_MULTIPLIERS unit = Some c -> unit <> day -> unit <> week ->
  zone.addTimeWithDST host (Int t) (Int 1) unit "UTC" w
  = (Ok (Int (t + 1 * c)), w).
Proof.
  intros Hc Hd Hw. unfold zone.addTimeWithDST.
  destruct unit; try discriminate; try contradiction;
    inversion Hc; subst c; reflexivity.
Qed.

(** In UTC, one unit after [t] lies in the period that follows the one
    of [t]. *)
Lemma add_one_then_start unit t a w w' :
  unit <> millisecond ->
  - maxTime <= t <= maxTime ->
  zone.addTimeWithDST host (Int t) (Int 1) unit "UTC" w = (Ok (Int a), w') ->
  periodStart unit a = nextPeriodStart unit t /\ nextPeriodStart unit t <= a.
Proof.
  intros Hu Ht H. destruct unit; [contradiction | | | | | | |].
  - (* second *)
    rewrite (add_one_fixed_UTC t second MS_PER_SECOND) in H
      by (reflexivity || discriminate).
    apply Ok_pair_inj in H as [Ha _]. apply Int_inj in Ha. subst a.
    unfold nextPeriodStart, periodStart, MS_PER_SECOND.
    split; Z.div_mod_to_equations; lia.
  - (* minute *)
    rewrite (add_one_fixed_UTC t minute MS_PER_MINUTE) in H
      by (reflexivity || discriminate).
    apply Ok_pair_inj in H as [Ha _]. apply Int_inj in Ha. subst a.
    unfold nextPeriodStart, periodStart, MS_PER_MINUTE.
    split; Z.div_mod_to_equations; lia.
  - (* hour *)
    rewrite (add_one_fixed_UTC t hour MS_PER_HOUR) in H
      by (reflexivity || discriminate).
    apply Ok_pair_inj in H as [Ha _]. apply Int_inj in Ha. subst a.
    unfold nextPeriodStart, periodStart, MS_PER_HOUR.
    split; Z.div_mod_to_equations; lia.
  - (* day *)
    rewrite add_one_day_UTC in H by exact Ht. apply Ok_pair_inj in H as [Hclip Hw].
    apply TimeClip_Int in Hclip as [-> _].
    unfold nextPeriodStart, periodStart, MS_PER_DAY.
    split; Z.div_mod_to_equations; lia.
  - (* week *)
    rewrite add_one_week_UTC in H by exact Ht. apply Ok_pair_inj in H as [Hclip Hw].
    apply TimeClip_Int in Hclip as [-> _].
    unfold nextPeriodStart, periodStart, WeekDay, Day, msPerDay,
      MS_PER_WEEK, MS_PER_DAY.
    split; Z.div_mod_to_equations; lia.
  - (* month *)
    rewrite add_one_month_UTC in H by exact Ht. cbv zeta in H.
    apply Ok_pair_inj in H as [Hres Hw].
    destruct (civil_decomposition t) as (HM & HD & Hday).
    destruct (next_month (YearFromTime t) (MonthFromTime t) HM)
      as (Hfm & _ & HN).
    set (ty := YearFromTime t + (MonthFromTime t + 1) / 12) in *.
    set (fm := (MonthFromTime t + 1) mod 12) in *.
    set (N := DayFromYear (YearFromTime t)
              + monthStart (isLeap (YearFromTime t)) (MonthFromTime t + 1)) in *.
    destruct (TimeClip (MakeDate N (TimeWithinDay t))); try discriminate.
    destruct (JSDate.getUTCDate
                (JSDate.ofLocalFields host (Int ty) (Int (fm + 1)) (Int 0)))
      as [l | | s] eqn:HL; try discriminate.
    apply TimeClip_Int in Hres as [-> _].
    pose proof (lastDayOfTargetMonth_bounds host Hhost ty fm l Hfm HL) as Hl.
    set (f := Z.min (DateFromTime t) l) in *.
    pose proof (TimeWithinDay_bounds t) as Htod.
    destruct (Day_MakeDate (N + f - 1) (TimeWithinDay t) Htod) as (Hda & _).
    destruct (civil_of_MakeDay ty fm f (MakeDate (N + f - 1) (TimeWithinDay t))
                Hfm ltac:(unfold f; lia)) as (HY & HMo & _).
    { rewrite Hda, MakeDay_normal by exact Hfm. lia. }
    unfold nextPeriodStart, periodStart. rewrite HY, HMo.
    fold N. rewrite HN. split; [reflexivity |].
    unfold MakeDate, MS_PER_DAY, msPerDay in *. unfold f. lia.
  - (* year *)
    rewrite add_one_year_UTC in H by exact Ht. apply Ok_pair_inj in H as [Hclip Hw].
    apply TimeClip_Int in Hclip as [-> _].
    destruct (civil_decomposition t) as (HM & HD & Hday).
    pose proof (TimeWithinDay_bounds t) as Htod.
    set (y1 := YearFromTime t + 1).
    destruct (Day_MakeDate (MakeDay y1 (MonthFromTime t) (DateFromTime t))
                (TimeWithinDay t) Htod) as (Hda & _).
    pose proof (day_in_other_year (InLeapYear t) (isLeap y1) (MonthFromTime t)
                  (DateFromTime t) HM HD) as Hin.
    rewrite MakeDay_normal in * by exact HM.
    assert (HY : YearFromTime
                   (MakeDate (DayFromYear y1 + monthStart (isLeap y1) (MonthFromTime t)
                              + DateFromTime t - 1) (TimeWithinDay t)) = y1).
    { unfold YearFromTime. apply YearFromDay_unique. rewrite Hda.
      rewrite DayFromYear_succ. unfold DaysInYear.
      destruct (isLeap y1); lia. }
    unfold nextPeriodStart, periodStart. rewrite HY. fold y1.
    split; [reflexivity |].
    unfold MakeDate, MS_PER_DAY, msPerDay in *. lia.
Qed.

(** In UTC, one unit after the start of the period of [t] is the start
    of the period that follows, provided one unit after [t] is a valid
    timestamp. *)
Lemma start_then_add_one unit t a w w' :
  unit <> millisecond ->
  - maxTime <= t <= maxTime ->
  - maxTime <= a <= maxTime ->
  zone.addTimeWithDST host (Int t) (Int 1) unit "UTC" w = (Ok (Int a), w') ->
  - maxTime <= periodStart unit t ->
  zone.addTimeWithDST host (Int (periodStart unit t)) (Int 1) unit "UTC" w
  = (Ok (Int (nextPeriodStart unit t)), w).
Proof.
  intros Hu Ht Ha H HP.
  destruct (add_one_then_start unit t a w w' Hu Ht H) as (_ & HNa).
  pose proof (nextPeriodStart_gt unit t) as HNt.
  pose proof (periodStart_le unit t) as HPt.
  assert (HPv : - maxTime <= periodStart unit t <= maxTime) by lia.
  assert (HNv : TimeClip (nextPeriodStart unit t) = Int (nextPeriodStart unit t))
    by (apply TimeClip_in; lia).
  destruct unit; [contradiction | | | | | | |].
  - rewrite (add_one_fixed_UTC _ second MS_PER_SECOND)
      by (reflexivity || discriminate).
    unfold nextPeriodStart. now rewrite Z.mul_1_l.
  - rewrite (add_one_fixed_UTC _ minute MS_PER_MINUTE)
      by (reflexivity || discriminate).
    unfold nextPeriodStart. now rewrite Z.mul_1_l.
  - rewrite (add_one_fixed_UTC _ hour MS_PER_HOUR)
      by (reflexivity || discriminate).
    unfold nextPeriodStart. now rewrite Z.mul_1_l.
  - rewrite add_one_day_UTC by exact HPv. rewrite <- HNv. reflexivity.
  - rewrite add_one_week_UTC by exact HPv. rewrite <- HNv. reflexivity.
  - (* month *)
    rewrite add_one_month_UTC in H by exact Ht. cbv zeta in H.
    apply Ok_pair_inj in H as [Hres Hw].
    rewrite add_one_month_UTC by exact HPv. cbv zeta.
    destruct (civil_decomposition t) as (HM & HD & Hday).
    destruct (civil_of_month_start (YearFromTime t) (MonthFromTime t) HM)
      as (HY' & HM' & HD' & Htod' & _).
    change ((DayFromYear (YearFromTime t)
             + monthStart (isLeap (YearFromTime t)) (MonthFromTime t)) * msPerDay)
      with (periodStart month t) in HY', HM', HD', Htod'.
    rewrite HY', HM', HD', Htod'.
    destruct (next_month (YearFromTime t) (MonthFromTime t) HM)
      as (Hfm & _ & HN).
    set (ty := YearFromTime t + (MonthFromTime t + 1) / 12) in *.
    set (fm := (MonthFromTime t + 1) mod 12) in *.
    set (N := DayFromYear (YearFromTime t)
              + monthStart (isLeap (YearFromTime t)) (MonthFromTime t + 1)) in *.
    destruct (TimeClip (MakeDate N (TimeWithinDay t))); try discriminate.
    destruct (JSDate.getUTCDate
                (JSDate.ofLocalFields host (Int ty) (Int (fm + 1)) (Int 0)))
      as [l | | s] eqn:HL; try discriminate.
    pose proof (lastDayOfTargetMonth_bounds host Hhost ty fm l Hfm HL) as Hl.
    assert (HNN : nextPeriodStart month t = N * MS_PER_DAY) by reflexivity.
    rewrite HNN in *.
    replace (MakeDate N 0) with (N * MS_PER_DAY)
      by (unfold MakeDate, MS_PER_DAY, msPerDay; lia).
    rewrite HNv.
    replace (MakeDate (N + Z.min 1 l - 1) 0) with (N * MS_PER_DAY)
      by (unfold MakeDate, MS_PER_DAY, msPerDay; lia).
    rewrite HNv. reflexivity.
  - (* year *)
    rewrite add_one_year_UTC by exact HPv.
    destruct (civil_of_month_start (YearFromTime t) 0 ltac:(lia))
      as (HY' & HM' & HD' & Htod' & _).
    assert (HP0 : (DayFromYear (YearFromTime t)
                   + monthStart (isLeap (YearFromTime t)) 0) * msPerDay
                  = periodStart year t).
    { unfold periodStart, MS_PER_DAY, msPerDay.
      change (monthStart (isLeap (YearFromTime t)) 0) with 0. lia. }
    rewrite HP0 in HY', HM', HD', Htod'.
    rewrite HY', HM', HD', Htod'.
    rewrite MakeDay_normal by lia.
    change (monthStart (isLeap (YearFromTime t + 1)) 0) with 0.
    replace (MakeDate (DayFromYear (YearFromTime t + 1) + 0 + 1 - 1) 0)
      with (nextPeriodStart year t)
      by (unfold nextPeriodStart, MakeDate, MS_PER_DAY, msPerDay; lia).
    rewrite HNv. reflexivity.
Qed.

End OnePeriod.

Section EndOf.
Variable host : Platform.

Lemma validTimestamp_Int t :
  validTimestamp (Int t) <-> - maxTime <= t <= maxTime.
Proof.
  unfold validTimestamp, maxTime. split.
  - intros (z & Hz & Hr). inversion Hz; subst z. exact Hr.
  - intros H. exists t. split; [reflexivity | exact H].
Qed.

Lemma toISOString_UTC this t w :
  _zone this = "UTC" -> _time this = Int t -> - maxTime <= t <= maxTime ->
  toISOString host this w = (Ok tt, w).
Proof.
  intros Hz Ht Hr. unfold toISOString. rewrite Hz, Ht.
  change (String.eqb "UTC" "UTC") with true. cbv iota.
  unfold JSDate.ofNumber. now rewrite TimeClip_in.
Qed.

Lemma toISOString_UTC_Ok this t w u w' :
  _zone this = "UTC" -> _time this = Int t ->
  toISOString host this w = (Ok u, w') -> - maxTime <= t <= maxTime.
Proof.
  intros Hz Ht. unfold toISOString. rewrite Hz, Ht.
  change (String.eqb "UTC" "UTC") with true. cbv iota.
  unfold JSDate.ofNumber, TimeClip.
  destruct (Z.leb_spec (Z.abs t) maxTime) as [Hle | Hgt]; [lia | discriminate].
Qed.

Lemma add_UTC this t amount unit w :
  _zone this = "UTC" -> _time this = Int t -> - maxTime <= t <= maxTime ->
  add host this amount unit w
  = (newTime <- zone.addTimeWithDST host (Int t) amount unit "UTC" ;;
     new_Krono host newTime (_locale this) "UTC" (_debug this)) w.
Proof.
  intros Hz Ht Hr. unfold add.
  rewrite (bind_run_Ok _ (toISOString_UTC this t w Hz Ht Hr)).
  now rewrite Hz, Ht.
Qed.

Lemma startOf_UTC this t unit w :
  _zone this = "UTC" -> _time this = Int t -> - maxTime <= t <= maxTime ->
  startOf host this unit w
  = new_Krono host (TimeClip (periodStart unit t)) (_locale this) "UTC"
      (_debug this) w.
Proof.
  intros Hz Ht Hr. unfold startOf. cbn [startOf_depth]. unfold startOf_over.
  rewrite Hz, Ht. change (String.eqb "UTC" "UTC") with true. cbv iota.
  unfold JSDate.ofNumber, JSDate.getTime. rewrite (TimeClip_in t Hr).
  now rewrite truncateTo_spec.
Qed.

Lemma subtract_one_millisecond_UTC this t w :
  _zone this = "UTC" -> _time this = Int t -> - maxTime <= t - 1 ->
  t <= maxTime ->
  subtract host this (Int 1) millisecond w
  = (Ok {| _time := Int (t - 1); _locale := _locale this; _zone := "UTC";
           _debug := _debug this |}, w).
Proof.
  intros Hz Ht Hlo Hhi. unfold subtract.
  rewrite (add_UTC this t) by (assumption || lia).
  unfold zone.addTimeWithDST. cbv iota beta.
  change (UNIT_MULTIPLIERS millisecond) with (Some 1).
  cbv iota beta. unfold bind at 1. unfold ret.
  change (nadd (Int t) (nscale (nneg (Int 1)) 1)) with (Int (t + -1 * 1)).
  replace (t + -1 * 1) with (t - 1) by lia.
  apply new_Krono_UTC. apply validTimestamp_Int. lia.
Qed.

End EndOf.


Lemma addTimeWithDST_UTC_world host t amount unit w n w' :
  - maxTime <= t <= maxTime ->
  zone.addTimeWithDST host (Int t) amount unit "UTC" w = (Ok n, w') -> w' = w.
Proof.
  intros Ht H.
  assert (Hcases : UNIT_MULTIPLIERS unit = None \/ unit = day \/ unit = week
                   \/ (exists c, UNIT_MULTIPLIERS unit = Some c
                                 /\ unit <> day /\ unit <> week)).
  { destruct unit; simpl; auto;
      right; right; right; eexists; (split; [reflexivity |]); split; discriminate. }
  destruct Hcases as [Hu | [Hu | [Hu | (c & Hc & Hd & Hw)]]].
  - rewrite addTimeWithDST_UTC_calendar in H by auto.
    now apply Ok_pair_inj in H as [_ <-].
  - rewrite addTimeWithDST_UTC_calendar in H by auto.
    now apply Ok_pair_inj in H as [_ <-].
  - rewrite addTimeWithDST_UTC_calendar in H by auto.
    now apply Ok_pair_inj in H as [_ <-].
  - unfold zone.addTimeWithDST in H.
    destruct unit; try discriminate; try contradiction;
      now apply Ok_pair_inj in H as [_ <-].
Qed.

(** C2, counterexample.  Half a second before the end of the range, in
    UTC, the start of the second advanced by one second and taken back by
    one millisecond is the valid instant 8.64e15 - 1, while [endOf] raises:
    it adds the second first, which leaves the range. *)
Lemma endOf_differs_from_spec_at_range_end :
  validTimestamp (Int (8640000000000000 - 500))
  /\ endOf utcHost (instant (8640000000000000 - 500) "UTC") second initialWorld
     = (Throw (KronoError "Timestamp out of range: 8640000000000500"),
        initialWorld)
  /\ endOf_spec utcHost (instant (8640000000000000 - 500) "UTC") second
       initialWorld
     = (Ok (instant (8640000000000000 - 1) "UTC"), initialWorld).
Proof.
  split; [exists (8640000000000000 - 500); split; [reflexivity | lia] |].
  split; vm_compute; reflexivity.
Qed.

(** C2, amended.  [endOf] is [add] of one unit, then [startOf], then the
    subtraction of one millisecond: whenever it returns, its value is that
    of [startOf (add (i, 1, u), u)] minus one.  For an instant in UTC, a
    unit from second to year and a host within a day of UTC, whenever both
    [add (i, 1, u)] and [startOf (i, u)] return, [endOf] returns the
    instant one millisecond before the start of the next period, and so
    does the definition "[startOf] advanced by one unit, minus one
    millisecond"; month lengths and leap years included. *)
Theorem endOf_one_millisecond_before_next_period
    (host : Platform) (this : Krono) (unit : TimeUnit) (w : World) :
  (forall e w',
      endOf host this unit w = (Ok e, w') ->
      exists a w1 s w2,
        add host this (Int 1) unit w = (Ok a, w1)
        /\ startOf host a unit w1 = (Ok s, w2)
        /\ valueOf e = nsub (valueOf s) (Int 1))
  /\ (hostOffsetBounded host -> _zone this = "UTC" -> unit <> millisecond ->
      forall t a s w1 w2,
        _time this = Int t ->
        add host this (Int 1) unit w = (Ok a, w1) ->
        startOf host this unit w = (Ok s, w2) ->
        let e := {| _time := Int (nextPeriodStart unit t - 1);
                    _locale := _locale this; _zone := "UTC";
                    _debug := _debug this |} in
        endOf host this unit w = (Ok e, w)
        /\ endOf_spec host this unit w = (Ok e, w)).
Proof.
  split.
  - intros e w' H. unfold endOf, endOf_over in H.
    apply bind_Ok in H as (a & w1 & Hadd & H).
    apply bind_Ok in H as (s & w2 & Hstart & H).
    exists a, w1, s, w2. split; [exact Hadd |]. split; [exact Hstart |].
    unfold subtract, add in H.
    apply bind_Ok in H as (u & w3 & _ & H).
    apply bind_Ok in H as (newTime & w4 & Hnew & H).
    apply new_Krono_Ok in H as [_ ->].
    unfold zone.addTimeWithDST in Hnew. cbv iota beta in Hnew.
    apply Ok_pair_inj in Hnew as [<- _]. reflexivity.
  - intros Hhost Hz Hu t a s w1 w2 Ht Hadd Hstart e.
    (* the timestamp is valid, or [add] would have failed *)
    assert (Hr : - maxTime <= t <= maxTime).
    { unfold add in Hadd. apply bind_Ok in Hadd as (u & w3 & Hiso & _).
      exact (toISOString_UTC_Ok host this t w u w3 Hz Ht Hiso). }
    (* one unit later *)
    rewrite (add_UTC host this t) in Hadd by assumption.
    apply bind_Ok in Hadd as (newTime & w3 & Hnew & Hadd).
    pose proof (addTimeWithDST_UTC_world host t (Int 1) unit w newTime w3 Hr Hnew);
      subst w3.
    destruct (new_Krono_Ok host _ _ _ _ _ _ _ Hadd) as [(at_ & -> & Hat) Ha].
    assert (Hw1 : w1 = w).
    { rewrite new_Krono_UTC in Hadd by (exists at_; split; [reflexivity | exact Hat]).
      now apply Ok_pair_inj in Hadd as [_ <-]. }
    subst w1.
    destruct (add_one_then_start host Hhost unit t at_ w w Hu Hr Hnew)
      as (Hps & HNa).
    pose proof (nextPeriodStart_gt unit t) as HNt.
    set (N := nextPeriodStart unit t) in *.
    assert (HNv : validTimestamp (Int N)) by (apply validTimestamp_Int; unfold maxTime in *; lia).
    (* the start of the period *)
    rewrite (startOf_UTC host this t) in Hstart by assumption.
    destruct (new_Krono_Ok host _ _ _ _ _ _ _ Hstart) as [(p & Hp & Hpr) Hs].
    apply TimeClip_Int in Hp as [-> HP].
    rewrite TimeClip_in in Hs by exact HP.
    assert (Hw2 : w2 = w).
    { rewrite TimeClip_in, new_Krono_UTC in Hstart
        by (exact HP || (apply validTimestamp_Int; exact HP)).
      now apply Ok_pair_inj in Hstart as [_ <-]. }
    subst w2.
    set (sN := {| _time := Int N; _locale := _locale this; _zone := "UTC";
                  _debug := _debug this |}).
    assert (Hsub : subtract host sN (Int 1) millisecond w = (Ok e, w)).
    { apply (subtract_one_millisecond_UTC host sN N w); try reflexivity;
        unfold maxTime in *; lia. }
    split.
    + (* the code: add, then startOf, then subtract *)
      unfold endOf, endOf_over.
      assert (Hadd' : add host this (Int 1) unit w = (Ok a, w)).
      { rewrite (add_UTC host this t) by assumption.
        rewrite (bind_run_Ok _ Hnew). exact Hadd. }
      rewrite (bind_run_Ok _ Hadd').
      assert (Hst : startOf host a unit w = (Ok sN, w)).
      { rewrite (startOf_UTC host a at_) by (subst a; try reflexivity; unfold maxTime; exact Hat).
        rewrite Hps. fold N. subst a. cbn [_locale _debug].
        rewrite TimeClip_in by (unfold maxTime in *; lia).
        apply new_Krono_UTC. exact HNv. }
      rewrite (bind_run_Ok _ Hst). exact Hsub.
    + (* the specification: startOf, then add, then subtract *)
      unfold endOf_spec.
      assert (Hst : startOf host this unit w = (Ok s, w)).
      { rewrite (startOf_UTC host this t) by assumption. exact Hstart. }
      rewrite (bind_run_Ok _ Hst).
      assert (Hadd' : add host s (Int 1) unit w = (Ok sN, w)).
      { rewrite (add_UTC host s (periodStart unit t))
          by (subst s; try reflexivity; exact HP).
        rewrite (bind_run_Ok _
                   (start_then_add_one host Hhost unit t at_ w w Hu Hr
                      ltac:(unfold maxTime; exact Hat) Hnew (proj1 HP))).
        fold N. subst s. cbn [_locale _debug]. apply new_Krono_UTC. exact HNv. }
      rewrite (bind_run_Ok _ Hadd'). exact Hsub.
Qed.

Lemma endOf_one_millisecond_before_next_period_witness :
  endOf utcHost (instant exampleNow "UTC") month initialWorld
  = (Ok (instant 1751327999999 "UTC"), initialWorld)
  /\ endOf_spec utcHost (instant exampleNow "UTC") month initialWorld
     = (Ok (instant 1751327999999 "UTC"), initialWorld).
Proof.
  refine (proj2 (endOf_one_millisecond_before_next_period utcHost
                   (instant exampleNow "UTC") month initialWorld)
            _ eq_refl _ exampleNow (instant 1752592000000 "UTC")
            (instant 1748736000000 "UTC") initialWorld initialWorld eq_refl _ _).
  - intros t. change (LocalTZA utcHost t) with 0. lia.
  - discriminate.
  - vm_compute. reflexivity.
  - vm_compute. reflexivity.
Defined.

End UTCPeriods.

(* ================================================================== *)
(** * The LRU cache                                                     *)
(* ================================================================== *)

Section LRUCacheFacts.
Context {V : Type}.

Lemma JSMap_get_set_same (m : JSMap.t string V) k v :
  JSMap.get String.eqb (JSMap.set String.eqb m k v) k = Some v.
Proof.
  induction m as [| [k' v'] m IH]; simpl.
  - now rewrite String.eqb_refl.
  - destruct (String.eqb k k') eqn:E; simpl; rewrite E; [reflexivity | exact IH].
Qed.

Lemma JSMap_get_None (m : JSMap.t string V) k :
  JSMap.get String.eqb m k = None <-> ~ In k (keysOf m).
Proof.
  induction m as [| [k' v'] m IH]; simpl.
  - tauto.
  - destruct (String.eqb_spec k k') as [-> | Hne].
    + split; [discriminate | intros H; exfalso; apply H; now left].
    + rewrite IH. split; [intros H [E | Hin]; [now symmetry in E | tauto] | tauto].
Qed.

Lemma JSMap_set_absent (m : JSMap.t string V) k v :
  JSMap.get String.eqb m k = None ->
  JSMap.set String.eqb m k v = (m ++ [(k, v)])%list.
Proof.
  induction m as [| [k' v'] m IH]; simpl; [reflexivity |].
  destruct (String.eqb k k'); [discriminate |].
  intros H. now rewrite IH.
Qed.

Lemma JSMap_keys_delete (m : JSMap.t string V) k x :
  In x (keysOf (JSMap.delete String.eqb m k)) -> In x (keysOf m).
Proof.
  induction m as [| [k' v'] m IH]; simpl; [tauto |].
  destruct (String.eqb k k'); simpl; tauto.
Qed.

Lemma JSMap_delete_NoDup (m : JSMap.t string V) k :
  NoDup (keysOf m) ->
  NoDup (keysOf (JSMap.delete String.eqb m k))
  /\ JSMap.get String.eqb (JSMap.delete String.eqb m k) k = None.
Proof.
  induction m as [| [k' v'] m IH]; simpl; intros Hnd.
  - split; [constructor | reflexivity].
  - inversion Hnd as [| ? ? Hnotin Hnd']; subst.
    destruct (String.eqb_spec k k') as [-> | Hne]; simpl.
    + split; [exact Hnd' | now apply JSMap_get_None].
    + destruct (IH Hnd') as [IH1 IH2].
      destruct (String.eqb_spec k k') as [E | _]; [contradiction |].
      split; [| exact IH2].
      constructor; [| exact IH1].
      intros Hin. apply Hnotin. eapply JSMap_keys_delete, Hin.
Qed.

Lemma JSMap_size_set (m : JSMap.t string V) k v :
  JSMap.size (JSMap.set String.eqb m k v)
  = if JSMap.has String.eqb m k then JSMap.size m else S (JSMap.size m).
Proof.
  unfold JSMap.size, JSMap.has.
  induction m as [| [k' v'] m IH]; simpl; [reflexivity |].
  destruct (String.eqb k k'); simpl; [reflexivity |].
  rewrite IH. now destruct (JSMap.get String.eqb m k).
Qed.

Lemma JSMap_size_delete (m : JSMap.t string V) k :
  JSMap.size (JSMap.delete String.eqb m k)
  = if JSMap.has String.eqb m k then pred (JSMap.size m) else JSMap.size m.
Proof.
  unfold JSMap.size, JSMap.has.
  induction m as [| [k' v'] m IH]; simpl; [reflexivity |].
  destruct (String.eqb k k'); simpl; [reflexivity |].
  rewrite IH. destruct (JSMap.get String.eqb m k) eqn:E; [| reflexivity].
  destruct m; [discriminate | reflexivity].
Qed.

Lemma JSMap_has_size (m : JSMap.t string V) k :
  JSMap.has String.eqb m k = true -> JSMap.size m <> O.
Proof. destruct m; [discriminate | discriminate]. Qed.

Lemma JSMap_has_firstKey (m : JSMap.t string V) k :
  JSMap.firstKey m = Some k -> JSMap.has String.eqb m k = true.
Proof.
  destruct m as [| [k' v'] m]; simpl; [discriminate |].
  intros [= ->]. unfold JSMap.has; simpl. now rewrite String.eqb_refl.
Qed.

Lemma LRUCache_get_set (c : LRUCache.t V) (key : string) (value : V) :
  fst (LRUCache.get (LRUCache.set c key value) key) = Some value.
Proof.
  unfold LRUCache.get, LRUCache.set; simpl. now rewrite JSMap_get_set_same.
Qed.

(** X1. A value stored in the cache is what the next lookup of its key
    returns, whatever the cache held and however full it was. *)
Theorem LRUCache_get_after_set (c : LRUCache.t V) (key : string) (value : V) :
  fst (LRUCache.get (LRUCache.set c key value) key) = Some value
  /\ LRUCache.has (LRUCache.set c key value) key = true.
Proof.
  split; [apply LRUCache_get_set |].
  unfold LRUCache.has, LRUCache.set, JSMap.has; simpl.
  now rewrite JSMap_get_set_same.
Qed.

Lemma LRUCache_sizes (c : LRUCache.t V) (key : string) (value : V) :
  (1 <= LRUCache.maxSize c)%nat ->
  (JSMap.size (LRUCache.cache c) <= LRUCache.maxSize c)%nat ->
  (JSMap.size (LRUCache.cache (LRUCache.set c key value))
   <= LRUCache.maxSize c)%nat
  /\ LRUCache.maxSize (LRUCache.set c key value) = LRUCache.maxSize c
  /\ (JSMap.size (LRUCache.cache (snd (LRUCache.get c key)))
      <= LRUCache.maxSize c)%nat
  /\ LRUCache.maxSize (snd (LRUCache.get c key)) = LRUCache.maxSize c.
Proof.
  intros Hmax Hsize.
  assert (Hset : (JSMap.size (LRUCache.cache (LRUCache.set c key value))
                  <= LRUCache.maxSize c)%nat).
  { unfold LRUCache.set; simpl.
    rewrite JSMap_size_set.
    destruct (JSMap.has String.eqb (LRUCache.cache c) key) eqn:Hhas.
    - rewrite JSMap_size_delete, Hhas. apply JSMap_has_size in Hhas.
      destruct (JSMap.has _ (JSMap.delete _ _ _) _); lia.
    - destruct (Nat.leb_spec (LRUCache.maxSize c) (JSMap.size (LRUCache.cache c)))
        as [Hfull | Hroom].
      + destruct (JSMap.firstKey (LRUCache.cache c)) as [firstKey |] eqn:Hfirst.
        * rewrite JSMap_size_delete, (JSMap_has_firstKey _ _ Hfirst).
          assert (JSMap.size (LRUCache.cache c) <> O).
          { destruct (LRUCache.cache c); [discriminate | simpl; lia]. }
          destruct (JSMap.has _ (JSMap.delete _ _ _) _); lia.
        * destruct (LRUCache.cache c) as [| [k0 v0] m]; [| discriminate].
          simpl in *. lia.
      + rewrite Hhas. lia. }
  split; [exact Hset |]. split; [reflexivity |].
  unfold LRUCache.get.
  destruct (JSMap.get String.eqb (LRUCache.cache c) key) as [v |] eqn:Hget; simpl.
  - split; [| reflexivity].
    assert (Hhas : JSMap.has String.eqb (LRUCache.cache c) key = true)
      by (unfold JSMap.has; now rewrite Hget).
    rewrite JSMap_size_set, JSMap_size_delete, Hhas. apply JSMap_has_size in Hhas.
    destruct (JSMap.has _ (JSMap.delete _ _ _) _); lia.
  - now split.
Qed.

(** X2. A cache that respects its capacity keeps respecting it: neither
    a lookup nor a store makes it hold more than [maxSize] entries, for a
    capacity of at least one. *)
Theorem LRUCache_capacity (c : LRUCache.t V) (key : string) (value : V) :
  (1 <= LRUCache.maxSize c)%nat ->
  (JSMap.size (LRUCache.cache c) <= LRUCache.maxSize c)%nat ->
  (JSMap.size (LRUCache.cache (LRUCache.set c key value))
   <= LRUCache.maxSize c)%nat
  /\ LRUCache.maxSize (LRUCache.set c key value) = LRUCache.maxSize c
  /\ (JSMap.size (LRUCache.cache (snd (LRUCache.get c key)))
      <= LRUCache.maxSize c)%nat
  /\ LRUCache.maxSize (snd (LRUCache.get c key)) = LRUCache.maxSize c.
Proof. apply LRUCache_sizes. Qed.

(** X3. The cache evicts in order of use.  With distinct keys: a lookup
    that finds its key moves the entry behind all the others; a store of
    a new key into a full cache drops the entry at the front, the one
    used least recently, and nothing else; a store into a cache with
    room drops nothing. *)
Theorem LRUCache_eviction_order (c : LRUCache.t V) (key : string) (value : V) :
  NoDup (keysOf (LRUCache.cache c)) ->
  (forall found,
      JSMap.get String.eqb (LRUCache.cache c) key = Some found ->
      LRUCache.get c key
      = (Some found,
         {| LRUCache.cache :=
              (JSMap.delete String.eqb (LRUCache.cache c) key ++ [(key, found)])%list;
            LRUCache.maxSize := LRUCache.maxSize c |}))
  /\ (JSMap.get String.eqb (LRUCache.cache c) key = None ->
      LRUCache.cache (LRUCache.set c key value)
      = if Nat.leb (LRUCache.maxSize c) (JSMap.size (LRUCache.cache c))
        then (tl (LRUCache.cache c) ++ [(key, value)])%list
        else (LRUCache.cache c ++ [(key, value)])%list).
Proof.
  intros Hnd. split.
  - intros found Hget. unfold LRUCache.get. rewrite Hget.
    destruct (JSMap_delete_NoDup _ key Hnd) as [_ Hgone].
    now rewrite (JSMap_set_absent _ _ _ Hgone).
  - intros Hget. unfold LRUCache.set, JSMap.has; simpl. rewrite Hget.
    destruct (Nat.leb (LRUCache.maxSize c) (JSMap.size (LRUCache.cache c))).
    + destruct (LRUCache.cache c) as [| [k0 v0] m] eqn:Hc; simpl.
      * reflexivity.
      * rewrite String.eqb_refl. apply JSMap_set_absent.
        simpl in Hget. destruct (String.eqb key k0); [discriminate | exact Hget].
    + now apply JSMap_set_absent.
Qed.

End LRUCacheFacts.

Lemma LRUCache_capacity_witness :
  let c := {| LRUCache.cache := [("a", 1); ("b", 2)]; LRUCache.maxSize := 2%nat |} in
  (JSMap.size (LRUCache.cache (LRUCache.set c "c" 3%Z)) <= 2)%nat.
Proof.
  intros c.
  apply (LRUCache_capacity c "c" 3%Z); simpl; lia.
Defined.

Lemma LRUCache_eviction_order_witness :
  let c := {| LRUCache.cache := [("a", 1); ("b", 2)]; LRUCache.maxSize := 2%nat |} in
  LRUCache.cache (LRUCache.set (snd (LRUCache.get c "a")) "c" 3)
  = [("a", 1); ("c", 3)].
Proof.
  intros c.
  assert (Hnd : NoDup (keysOf (LRUCache.cache c))).
  { repeat constructor; simpl; intuition discriminate. }
  rewrite (proj1 (LRUCache_eviction_order c "a" 0 Hnd) 1 eq_refl).
  reflexivity.
Defined.

(* ================================================================== *)
(** * Invariants of the module state                                    *)
(* ================================================================== *)

(** The module state changes through four primitives only: a reading of
    the clock, a zone-validity check, a lookup in the offset cache and a
    store into it.  A property of the state that these four keep is kept
    by every operation. *)
Section StateInvariant.
Variable host : Platform.
Variable P : World -> Prop.
Hypothesis Date_now_keeps : preserves P (Date_now host).
Hypothesis isValid_keeps : forall z, preserves P (zone.isValid host z).
Hypothesis offsetCacheGet_keeps : forall z, preserves P (zone.offsetCacheGet z).
Hypothesis offsetCacheStore_keeps :
  forall z zc t o, preserves P (zone.offsetCacheStore z zc t o).

Lemma validateTimestamp_keeps n : preserves P (validateTimestamp n).
Proof. unfold validateTimestamp. repeat preserves_step. Qed.

Lemma validateDateComponents_keeps y m d :
  preserves P (validateDateComponents y m d).
Proof. unfold validateDateComponents. repeat preserves_step. Qed.

Lemma getOffset_keeps timestamp zoneName :
  preserves P (zone.getOffset host timestamp zoneName).
Proof.
  unfold zone.getOffset.
  destruct (String.eqb zoneName "UTC"); [apply preserves_ret |].
  apply preserves_bind; [apply offsetCacheGet_keeps | intros zoneCache].
  repeat first [ apply offsetCacheStore_keeps | preserves_step ].
Qed.

Lemma convertToZone_keeps timestamp fromZone toZone :
  preserves P (zone.convertToZone host timestamp fromZone toZone).
Proof.
  unfold zone.convertToZone. repeat first [ apply getOffset_keeps | preserves_step ].
Qed.

Lemma handleDSTAmbiguity_keeps timestamp zoneName preference :
  preserves P (zone.handleDSTAmbiguity host timestamp zoneName preference).
Proof.
  unfold zone.handleDSTAmbiguity.
  repeat first [ apply getOffset_keeps | preserves_step ].
Qed.

Lemma addTimeWithDST_keeps timestamp amount unit zoneName :
  preserves P (zone.addTimeWithDST host timestamp amount unit zoneName).
Proof.
  unfold zone.addTimeWithDST.
  repeat first [ apply getOffset_keeps | apply handleDSTAmbiguity_keeps
               | preserves_step ].
Qed.

Lemma new_Krono_keeps time locale zoneName debug :
  preserves P (new_Krono host time locale zoneName debug).
Proof.
  unfold new_Krono.
  repeat first [ apply validateTimestamp_keeps | apply isValid_keeps
               | preserves_step ].
Qed.

Lemma _getZoneTime_keeps this : preserves P (_getZoneTime host this).
Proof.
  unfold _getZoneTime. repeat first [ apply getOffset_keeps | preserves_step ].
Qed.

Lemma dayOfWeek_keeps this : preserves P (dayOfWeek host this).
Proof.
  unfold dayOfWeek. repeat first [ apply _getZoneTime_keeps | preserves_step ].
Qed.

Lemma toISOString_keeps this : preserves P (toISOString host this).
Proof.
  unfold toISOString, Date_toISOString.
  repeat first [ apply getOffset_keeps | preserves_step ].
Qed.

Lemma add_keeps this amount unit : preserves P (add host this amount unit).
Proof.
  unfold add.
  repeat first [ apply toISOString_keeps | apply addTimeWithDST_keeps
               | apply new_Krono_keeps | preserves_step ].
Qed.

Lemma subtract_keeps this amount unit :
  preserves P (subtract host this amount unit).
Proof. apply add_keeps. Qed.

Section OverStartOf.
Variable startOf_handler : Krono -> TimeUnit -> M Krono.
Hypothesis startOf_handler_keeps :
  forall this unit, preserves P (startOf_handler this unit).

Lemma endOf_over_keeps this unit :
  preserves P (endOf_over host startOf_handler this unit).
Proof.
  unfold endOf_over.
  repeat first [ apply add_keeps | apply subtract_keeps
               | apply startOf_handler_keeps | preserves_step ].
Qed.

Lemma _parseNaturalLanguage_keeps str defaultZone :
  preserves P (_parseNaturalLanguage host startOf_handler str defaultZone).
Proof.
  unfold _parseNaturalLanguage.
  repeat first [ apply Date_now_keeps | apply new_Krono_keeps
               | apply dayOfWeek_keeps | apply add_keeps | apply subtract_keeps
               | apply startOf_handler_keeps | apply endOf_over_keeps
               | preserves_step ].
Qed.

Lemma _parseToTime_keeps inp defaultZone :
  preserves P (_parseToTime host startOf_handler inp defaultZone).
Proof.
  unfold _parseToTime.
  repeat first [ apply Date_now_keeps | apply validateTimestamp_keeps
               | apply _parseNaturalLanguage_keeps | apply addTimeWithDST_keeps
               | apply validateDateComponents_keeps | preserves_step ].
Qed.

Lemma create_over_keeps inp options :
  preserves P (create_over host startOf_handler inp options).
Proof.
  unfold create_over.
  repeat first [ apply _parseToTime_keeps | apply new_Krono_keeps
               | preserves_step ].
Qed.

Lemma startOf_over_keeps this unit :
  preserves P (startOf_over host startOf_handler this unit).
Proof.
  unfold startOf_over.
  repeat first [ apply _getZoneTime_keeps | apply new_Krono_keeps
               | apply create_over_keeps | preserves_step ].
Qed.

End OverStartOf.

Lemma startOf_depth_keeps depth this unit :
  preserves P (startOf_depth host depth this unit).
Proof.
  revert this unit. induction depth as [| depth IH]; intros this unit; simpl.
  - apply preserves_throw.
  - apply startOf_over_keeps. exact IH.
Qed.

Lemma startOf_keeps this unit : preserves P (startOf host this unit).
Proof. apply startOf_depth_keeps. Qed.

Lemma create_keeps inp options : preserves P (create host inp options).
Proof. apply create_over_keeps, startOf_keeps. Qed.

Lemma endOf_keeps this unit : preserves P (endOf host this unit).
Proof. apply endOf_over_keeps, startOf_keeps. Qed.

Lemma set_keeps this unit value : preserves P (set host this unit value).
Proof.
  unfold set.
  apply preserves_bind; [apply _getZoneTime_keeps | intros date].
  destruct unit; try apply create_keeps. apply preserves_throw.
Qed.

Lemma tz_keeps this zoneName : preserves P (tz host this zoneName).
Proof. apply new_Krono_keeps. Qed.

Lemma utc_keeps this : preserves P (utc host this).
Proof. apply new_Krono_keeps. Qed.

Lemma local_keeps this : preserves P (local host this).
Proof.
  unfold local, zone.getSystemZone.
  repeat first [ apply new_Krono_keeps | preserves_step ].
Qed.

Lemma fieldOf_keeps field this : preserves P (fieldOf host field this).
Proof.
  unfold fieldOf. repeat first [ apply _getZoneTime_keeps | preserves_step ].
Qed.

Lemma getMonth_keeps this : preserves P (getMonth host this).
Proof.
  unfold getMonth. repeat first [ apply _getZoneTime_keeps | preserves_step ].
Qed.

Lemma dayOfYear_keeps this : preserves P (dayOfYear host this).
Proof.
  unfold dayOfYear. repeat first [ apply startOf_keeps | preserves_step ].
Qed.

Lemma weekOfYear_keeps this : preserves P (weekOfYear host this).
Proof.
  unfold weekOfYear. repeat first [ apply startOf_keeps | preserves_step ].
Qed.

Lemma get_keeps this unit : preserves P (get host this unit).
Proof.
  destruct unit; simpl;
    first [ apply fieldOf_keeps | apply getMonth_keeps | apply weekOfYear_keeps ].
Qed.

Lemma isSame_keeps this other unit : preserves P (isSame host this other unit).
Proof.
  unfold isSame. repeat first [ apply startOf_keeps | preserves_step ].
Qed.

Lemma isLeapYear_keeps this : preserves P (isLeapYear host this).
Proof.
  unfold isLeapYear. repeat first [ apply fieldOf_keeps | preserves_step ].
Qed.

Lemma isWeekend_keeps this : preserves P (isWeekend host this).
Proof.
  unfold isWeekend. repeat first [ apply dayOfWeek_keeps | preserves_step ].
Qed.

Lemma daysInMonth_keeps this : preserves P (daysInMonth host this).
Proof.
  unfold daysInMonth.
  repeat first [ apply getMonth_keeps | apply isLeapYear_keeps | preserves_step ].
Qed.

Lemma diff_keeps this other unit : preserves P (diff host this other unit).
Proof.
  unfold diff.
  destruct (UNIT_MULTIPLIERS unit); [apply preserves_ret |].
  destruct (nlt (_time this) (_time other)); destruct unit;
    repeat first [ apply fieldOf_keeps | apply getMonth_keeps | preserves_step ].
Qed.

Lemma fromNow_keeps this : preserves P (fromNow host this).
Proof.
  unfold fromNow. repeat first [ apply Date_now_keeps | preserves_step ].
Qed.

Lemma isDST_keeps this : preserves P (isDST host this).
Proof.
  unfold isDST, getOffsetInMinutes, getYear.
  repeat first [ apply fieldOf_keeps | apply getOffset_keeps | preserves_step ].
Qed.

Lemma now_keeps zoneName : preserves P (now host zoneName).
Proof.
  unfold now, krono, zone.getSystemZone.
  repeat first [ apply create_keeps | preserves_step ].
Qed.

Lemma today_keeps zoneName : preserves P (today host zoneName).
Proof.
  unfold today, krono, zone.getSystemZone.
  repeat first [ apply create_keeps | apply startOf_keeps | preserves_step ].
Qed.

Lemma tomorrow_keeps zoneName : preserves P (tomorrow host zoneName).
Proof.
  unfold tomorrow, krono, zone.getSystemZone.
  repeat first [ apply create_keeps | apply startOf_keeps | apply add_keeps
               | preserves_step ].
Qed.

Lemma yesterday_keeps zoneName : preserves P (yesterday host zoneName).
Proof.
  unfold yesterday, krono, zone.getSystemZone.
  repeat first [ apply create_keeps | apply startOf_keeps | apply subtract_keeps
               | preserves_step ].
Qed.

End StateInvariant.

Lemma effect_keeps host (P : World -> Prop) :
  preserves P (Date_now host) ->
  (forall z, preserves P (zone.isValid host z)) ->
  (forall z, preserves P (zone.offsetCacheGet z)) ->
  (forall z zc t o, preserves P (zone.offsetCacheStore z zc t o)) ->
  forall o w, P w -> P (effect host o w).
Proof.
  intros H1 H2 H3 H4 o w Hw.
  destruct o; simpl;
    [ apply create_keeps | apply add_keeps | apply subtract_keeps
    | apply set_keeps | apply startOf_keeps | apply endOf_keeps
    | apply tz_keeps | apply utc_keeps | apply local_keeps | apply get_keeps
    | apply dayOfWeek_keeps | apply dayOfYear_keeps | apply isSame_keeps
    | apply isLeapYear_keeps | apply isWeekend_keeps | apply daysInMonth_keeps
    | apply diff_keeps | apply fromNow_keeps | apply isDST_keeps
    | apply now_keeps | apply today_keeps
    | apply tomorrow_keeps | apply yesterday_keeps | apply H2
    | apply getOffset_keeps | apply convertToZone_keeps ]; assumption.
Qed.

Lemma runAll_keeps host (P : World -> Prop) :
  preserves P (Date_now host) ->
  (forall z, preserves P (zone.isValid host z)) ->
  (forall z, preserves P (zone.offsetCacheGet z)) ->
  (forall z zc t o, preserves P (zone.offsetCacheStore z zc t o)) ->
  forall ops w, P w -> P (runAll host ops w).
Proof.
  intros H1 H2 H3 H4 ops. unfold runAll.
  induction ops as [| o ops IH]; intros w Hw; simpl; [exact Hw |].
  apply IH. now apply effect_keeps.
Qed.

(** X4. The offset cache never holds more than 100 zones: from the
    state the module starts in, no sequence of operations, on any
    platform and whether they return or throw, takes it beyond its
    capacity. *)
Theorem offset_cache_is_bounded (host : Platform) (ops : list operation) :
  (JSMap.size (LRUCache.cache (_offsetCache (runAll host ops initialWorld)))
   <= 100)%nat.
Proof.
  set (P := fun w : World =>
              (JSMap.size (LRUCache.cache (_offsetCache w)) <= 100)%nat
              /\ LRUCache.maxSize (_offsetCache w) = 100%nat).
  assert (H : P (runAll host ops initialWorld)); [| exact (proj1 H)].
  apply runAll_keeps.
  - intros w Hw. exact Hw.
  - intros z w Hw. unfold zone.isValid.
    destruct (existsb _ _); [exact Hw |].
    destruct (timeZoneSupported host z); exact Hw.
  - intros z w [Hs Hm]. unfold zone.offsetCacheGet.
    destruct (LRUCache.get (_offsetCache w) z) as [found c] eqn:E; unfold P; simpl.
    destruct (LRUCache_sizes (_offsetCache w) z (@nil (number * number)))
      as (_ & _ & H3 & H4); [lia | lia |].
    rewrite E in H3, H4; simpl in H3, H4. split; lia.
  - intros z zc t o w [Hs Hm]. unfold zone.offsetCacheStore, P; simpl.
    destruct zc as [zoneCache |]; simpl.
    + split; [| exact Hm].
      destruct (JSMap.get String.eqb (LRUCache.cache (_offsetCache w)) z)
        as [held |] eqn:E; [| exact Hs].
      rewrite JSMap_size_set. unfold JSMap.has. now rewrite E.
    + destruct (LRUCache_sizes (_offsetCache w) z
                  (JSMap.set sameValueZero [] t o)) as (H1 & H2 & _); [lia | lia |].
      split; [| exact Hm]. rewrite Hm in H1. exact H1.
  - split; [simpl; lia | reflexivity].
Qed.

(** X5. The zone-validity set only grows and the clock only advances:
    a zone once recorded as valid stays recorded, and the number of
    clock readings never decreases, through any sequence of operations. *)
Theorem valid_zones_and_clock_only_grow
    (host : Platform) (ops : list operation) (w : World) :
  incl (_validZoneCache w) (_validZoneCache (runAll host ops w))
  /\ (clockReads w <= clockReads (runAll host ops w))%nat.
Proof.
  split.
  - intros z Hz.
    apply (runAll_keeps host (fun w => In z (_validZoneCache w))); try exact Hz.
    + intros w0 Hw. exact Hw.
    + intros z0 w0 Hw. unfold zone.isValid.
      destruct (existsb _ _); [exact Hw |].
      destruct (timeZoneSupported host z0); [| exact Hw].
      simpl. apply in_or_app. now left.
    + intros z0 w0 Hw. unfold zone.offsetCacheGet.
      destruct (LRUCache.get _ _); exact Hw.
    + intros z0 zc t o w0 Hw. exact Hw.
  - apply (runAll_keeps host (fun w' => (clockReads w <= clockReads w')%nat));
      try apply le_n.
    + intros w0 Hw. simpl. lia.
    + intros z0 w0 Hw. unfold zone.isValid.
      destruct (existsb _ _); [exact Hw |].
      destruct (timeZoneSupported host z0); [| exact Hw].
      simpl. lia.
    + intros z0 w0 Hw. unfold zone.offsetCacheGet.
      destruct (LRUCache.get _ _); exact Hw.
    + intros z0 zc t o w0 Hw. exact Hw.
Qed.

(* ================================================================== *)
(** * The text [startOf] parses is never a natural-language phrase      *)
(* ================================================================== *)

Section DateStringShape.

Lemma leadChar_cases c :
  leadChar c = true -> In c (Str.chars "-0123456789").
Proof.
  destruct c as [b0 b1 b2 b3 b4 b5 b6 b7].
  destruct b0, b1, b2, b3, b4, b5, b6, b7; intros H;
    first [ discriminate H | simpl; tauto ].
Qed.

Lemma chars_append a b :
  Str.chars (String.append a b) = (Str.chars a ++ Str.chars b)%list.
Proof.
  unfold Str.chars. induction a as [| c a IH]; simpl; [reflexivity |].
  now rewrite IH.
Qed.

Lemma chars_ofChars l : Str.chars (Str.ofChars l) = l.
Proof. apply list_ascii_of_string_of_list_ascii. Qed.

Lemma digitChar_lead z : 0 <= z < 10 -> leadChar (Str.digitChar z) = true.
Proof.
  intros H.
  assert (E : z = 0 \/ z = 1 \/ z = 2 \/ z = 3 \/ z = 4 \/ z = 5 \/ z = 6
              \/ z = 7 \/ z = 8 \/ z = 9) by lia.
  repeat destruct E as [-> | E]; try subst z; reflexivity.
Qed.

Lemma digitsOfPos_head fuel z acc :
  0 <= z ->
  (fuel <> O \/ exists c l, acc = c :: l /\ leadChar c = true) ->
  exists c l, Str.digitsOfPos fuel z acc = c :: l /\ leadChar c = true.
Proof.
  revert z acc. induction fuel as [| fuel IH]; intros z acc Hz Hacc; simpl.
  - destruct Hacc as [H | H]; [contradiction | exact H].
  - destruct (Z.ltb_spec z 10) as [Hlt | Hge].
    + eexists _, _. split; [reflexivity |]. apply digitChar_lead. lia.
    + apply IH.
      * apply Z.div_pos; lia.
      * right. eexists _, _. split; [reflexivity |].
        apply digitChar_lead. apply Z.mod_pos_bound. lia.
Qed.

Lemma ofZ_head z :
  exists c l, Str.chars (Str.ofZ z) = c :: l /\ leadChar c = true.
Proof.
  unfold Str.ofZ. cbv zeta.
  destruct (z <? 0).
  - rewrite chars_append. eexists _, _. split; [reflexivity | reflexivity].
  - rewrite chars_ofChars. apply digitsOfPos_head; [lia | now left].
Qed.

Lemma dropWhile_snoc (p : ascii -> bool) l c :
  p c = false -> exists l', Str.dropWhile p (l ++ [c]) = (l' ++ [c])%list.
Proof.
  intros Hc. induction l as [| a l IH]; simpl.
  - rewrite Hc. now exists [].
  - destruct (p a); [exact IH | now exists (a :: l)].
Qed.

Lemma trim_head s c l :
  Str.chars s = c :: l -> Str.isWhiteSpace c = false ->
  exists l', Str.chars (Str.trim s) = c :: l'.
Proof.
  intros Hs Hc. unfold Str.trim. rewrite chars_ofChars, Hs.
  cbn [Str.dropWhile]. rewrite Hc. cbn [rev].
  destruct (dropWhile_snoc Str.isWhiteSpace (rev l) c Hc) as (l' & ->).
  rewrite rev_app_distr. now exists (rev l').
Qed.

Lemma search_Bol r s n : RegExp.search (RegExp.Seq RegExp.Bol r) (S n) s = None.
Proof.
  revert n. induction s as [| a s IH]; intros n; simpl; [reflexivity |].
  apply IH.
Qed.

(** No phrase of [NATURAL_PATTERNS] starts with a digit or a sign. *)
Lemma natural_needs_letter str c l :
  Str.chars str = c :: l -> leadChar c = true ->
  firstMatch str NATURAL_PATTERNS = None.
Proof.
  intros Hs Hc. apply leadChar_cases in Hc.
  unfold NATURAL_PATTERNS, firstMatch, RegExp.exec. rewrite Hs.
  unfold RegExp.seqs; cbn [fold_right RegExp.search].
  rewrite !search_Bol.
  simpl in Hc.
  repeat destruct Hc as [<- | Hc]; try contradiction; lazy; reflexivity.
Qed.

Lemma dateString_not_natural d :
  firstMatch (Str.trim (dateString d)) NATURAL_PATTERNS = None.
Proof.
  destruct d as [t | | s]; [| vm_compute; reflexivity
                            | destruct s; vm_compute; reflexivity].
  assert (H : exists rest,
             dateString (Int t)
             = String.append (Str.ofZ (DateSpec.YearFromTime t)) rest).
  { unfold dateString. cbv zeta. cbn [String.concat]. eexists. reflexivity. }
  destruct H as (rest & ->).
  destruct (ofZ_head (DateSpec.YearFromTime t)) as (c & l & Hl & Hc).
  assert (Hws : Str.isWhiteSpace c = false).
  { apply leadChar_cases in Hc. simpl in Hc.
    repeat destruct Hc as [<- | Hc]; try contradiction; reflexivity. }
  destruct (trim_head (String.append (Str.ofZ (DateSpec.YearFromTime t)) rest)
              c (l ++ Str.chars rest)%list) as (l' & Hl').
  { now rewrite chars_append, Hl. }
  { exact Hws. }
  exact (natural_needs_letter _ c l' Hl' Hc).
Qed.

End DateStringShape.

Section StartOfDepth.
Variable host : Platform.

Lemma create_over_no_match h1 h2 s options w :
  firstMatch (Str.trim s) NATURAL_PATTERNS = None ->
  create_over host h1 (InString s) options w
  = create_over host h2 (InString s) options w.
Proof.
  intros H. unfold create_over, _parseToTime, _parseNaturalLanguage.
  rewrite H. reflexivity.
Qed.

Lemma startOf_over_any_handler h1 h2 this unit w :
  startOf_over host h1 this unit w = startOf_over host h2 this unit w.
Proof.
  unfold startOf_over.
  destruct (String.eqb (_zone this) "UTC"); [reflexivity |].
  unfold bind. destruct (_getZoneTime host this w) as [[zonedDate | e] w1];
    [| reflexivity].
  apply create_over_no_match, dateString_not_natural.
Qed.

End StartOfDepth.

(** X6. [startOf] never re-enters itself.  Outside UTC it hands
    [create] a text it has printed; that text starts with a digit, a sign
    or ["NaN"], so none of the natural-language patterns takes it and no
    handler calls [startOf] again.  Any positive bound on the nesting
    therefore gives the same outcome and the same state as [startOf]:
    the stack overflow that stands for unbounded nesting is out of
    reach. *)
Theorem startOf_depth_stable
    (host : Platform) (depth : nat) (this : Krono) (unit : TimeUnit) (w : World) :
  startOf_depth host (S depth) this unit w = startOf host this unit w.
Proof. unfold startOf. cbn [startOf_depth]. apply startOf_over_any_handler. Qed.

(* ================================================================== *)
(** * Arithmetic, periods and fields in UTC                             *)
(* ================================================================== *)

Section UTCInterface.
Import DateSpec.
Variable host : Platform.

Lemma withTime_same this t : _time this = Int t -> withTime this t = this.
Proof. destruct this; simpl; intros ->; reflexivity. Qed.

Lemma new_Krono_withTime this t w :
  _zone this = "UTC" -> - maxTime <= t <= maxTime ->
  new_Krono host (Int t) (_locale this) "UTC" (_debug this) w
  = (Ok (withTime this t), w).
Proof.
  intros Hz Ht. rewrite new_Krono_UTC by now apply validTimestamp_Int.
  unfold withTime. now rewrite Hz.
Qed.

(** In UTC the units that have a duration move the timestamp by that
    duration, the calendar path of days and weeks included. *)
Lemma add_linear_UTC this t n unit c w :
  _zone this = "UTC" -> _time this = Int t -> - maxTime <= t <= maxTime ->
  UNIT_MULTIPLIERS unit = Some c ->
  - maxTime <= t + n * c <= maxTime ->
  add host this (Int n) unit w = (Ok (withTime this (t + n * c)), w).
Proof.
  intros Hz Ht Hr Hc Hr'. rewrite (add_UTC host this t) by assumption.
  assert (Hadd : zone.addTimeWithDST host (Int t) (Int n) unit "UTC" w
                 = (Ok (Int (t + n * c)), w)).
  { destruct unit; try discriminate; inversion Hc; subst c.
    - reflexivity.
    - reflexivity.
    - reflexivity.
    - reflexivity.
    - rewrite addTimeWithDST_UTC_calendar by (auto; exact Hr).
      change (JSDate.getUTCDate (Int t)) with (Int (DateFromTime t)).
      rewrite nadd_Int. unfold JSDate.setUTCDate. rewrite MakeDay_civil.
      replace (MakeDate (Day t + n) (TimeWithinDay t)) with (t + n * MS_PER_DAY).
      + now rewrite TimeClip_in.
      + pose proof (MakeDate_Day t). unfold MakeDate, MS_PER_DAY, msPerDay in *. lia.
    - rewrite addTimeWithDST_UTC_calendar by (auto; exact Hr).
      change (JSDate.getUTCDate (Int t)) with (Int (DateFromTime t)).
      change (nscale (Int n) 7) with (Int (n * 7)).
      rewrite nadd_Int. unfold JSDate.setUTCDate. rewrite MakeDay_civil.
      replace (MakeDate (Day t + n * 7) (TimeWithinDay t))
        with (t + n * MS_PER_WEEK).
      + now rewrite TimeClip_in.
      + pose proof (MakeDate_Day t).
        unfold MakeDate, MS_PER_WEEK, msPerDay in *. lia. }
  rewrite (bind_run_Ok _ Hadd). now apply new_Krono_withTime.
Qed.

Lemma periodStart_idempotent unit t :
  periodStart unit (periodStart unit t) = periodStart unit t.
Proof.
  destruct unit.
  - reflexivity.
  - unfold periodStart, MS_PER_SECOND. Z.div_mod_to_equations. lia.
  - unfold periodStart, MS_PER_MINUTE. Z.div_mod_to_equations. lia.
  - unfold periodStart, MS_PER_HOUR. Z.div_mod_to_equations. lia.
  - unfold periodStart, MS_PER_DAY. Z.div_mod_to_equations. lia.
  - unfold periodStart, WeekDay, Day, msPerDay, MS_PER_DAY.
    Z.div_mod_to_equations. lia.
  - destruct (civil_decomposition t) as (HM & _ & _).
    destruct (civil_of_month_start (YearFromTime t) (MonthFromTime t) HM)
      as (HY & HMo & _).
    unfold periodStart at 1. unfold periodStart.
    change MS_PER_DAY with msPerDay. now rewrite HY, HMo.
  - destruct (civil_of_month_start (YearFromTime t) 0 ltac:(lia)) as (HY & _).
    cbn [monthStart] in HY. rewrite Z.add_0_r in HY.
    unfold periodStart at 1. unfold periodStart.
    change MS_PER_DAY with msPerDay. now rewrite HY.
Qed.

Lemma startOf_UTC_run this t unit w :
  _zone this = "UTC" -> _time this = Int t -> - maxTime <= t <= maxTime ->
  - maxTime <= periodStart unit t ->
  startOf host this unit w = (Ok (withTime this (periodStart unit t)), w).
Proof.
  intros Hz Ht Hr Hlo. pose proof (periodStart_le unit t) as Hle.
  rewrite (startOf_UTC host this t) by assumption.
  rewrite TimeClip_in by lia. apply new_Krono_withTime; [exact Hz | lia].
Qed.

Lemma ceil_div_days q r :
  0 <= r < MS_PER_DAY ->
  ceil_div (Int (q * MS_PER_DAY + r)) MS_PER_DAY
  = Int (q + (if r =? 0 then 0 else 1)).
Proof.
  intros Hr. unfold ceil_div, MS_PER_DAY in *. f_equal.
  destruct (Z.eqb_spec r 0); Z.div_mod_to_equations; lia.
Qed.

Lemma rem_eq0 y k : 0 < k -> (Z.rem y k =? 0) = (y mod k =? 0).
Proof.
  intros Hk.
  destruct (Z.eqb_spec (Z.rem y k) 0) as [H | H];
    destruct (Z.eqb_spec (y mod k) 0) as [H' | H']; try reflexivity; exfalso.
  - apply H'. apply Z.mod_divide; [lia |]. apply Z.rem_divide; [lia | exact H].
  - apply H. apply Z.rem_divide; [lia |]. apply Z.mod_divide; [lia | exact H'].
Qed.

Lemma fieldOf_UTC field this t w :
  _zone this = "UTC" -> _time this = Int t -> - maxTime <= t <= maxTime ->
  fieldOf host field this w = (Ok (field (Int t)), w).
Proof.
  intros Hz Ht Hr. unfold fieldOf. rewrite Hz, Ht.
  change (String.eqb "UTC" "UTC") with true. cbv iota.
  unfold JSDate.ofNumber. now rewrite TimeClip_in.
Qed.

Lemma getMonth_UTC this t w :
  _zone this = "UTC" -> _time this = Int t -> - maxTime <= t <= maxTime ->
  getMonth host this w = (Ok (Int (MonthFromTime t + 1)), w).
Proof.
  intros Hz Ht Hr. unfold getMonth. rewrite Hz, Ht.
  change (String.eqb "UTC" "UTC") with true. cbv iota.
  unfold JSDate.ofNumber. now rewrite TimeClip_in.
Qed.

Lemma isLeapYear_UTC this t w :
  _zone this = "UTC" -> _time this = Int t -> - maxTime <= t <= maxTime ->
  isLeapYear host this w = (Ok (InLeapYear t), w).
Proof.
  intros Hz Ht Hr. unfold isLeapYear, getYear.
  rewrite (bind_run_Ok _ (fieldOf_UTC _ this t w Hz Ht Hr)).
  change (JSDate.getUTCFullYear (Int t)) with (Int (YearFromTime t)).
  unfold nrem, strict_eq, ret, InLeapYear, isLeap.
  now rewrite !rem_eq0 by lia.
Qed.

End UTCInterface.

(** X7. In UTC, for an instance whose timestamp is a whole number of
    milliseconds and an amount that is a whole number, [add] with a unit
    that has a duration moves the timestamp by exactly
    [duration(amount, unit)] and leaves the state alone; this holds for
    days and weeks too, which go through the calendar fields and not
    through the multiplier.  Timestamps and amounts with a fractional
    part are not covered. *)
Theorem add_is_duration_in_UTC
    (host : Platform) (this : Krono) (t n : Z) (unit : TimeUnit) (c : Z)
    (w : World) :
  _zone this = "UTC" -> _time this = Int t ->
  - 8640000000000000 <= t <= 8640000000000000 ->
  UNIT_MULTIPLIERS unit = Some c ->
  - 8640000000000000 <= t + n * c <= 8640000000000000 ->
  duration (Int n) unit w = (Ok (Int (n * c)), w)
  /\ add host this (Int n) unit w = (Ok (withTime this (t + n * c)), w).
Proof.
  intros Hz Ht Hr Hc Hr'. split.
  - unfold duration. now rewrite Hc.
  - now apply add_linear_UTC.
Qed.

Lemma add_is_duration_in_UTC_witness :
  add utcHost (instant 1750000000000 "UTC") (Int 3) week initialWorld
  = (Ok (instant 1751814400000 "UTC"), initialWorld).
Proof.
  refine (proj2 (add_is_duration_in_UTC utcHost (instant 1750000000000 "UTC")
                   1750000000000 3 week MS_PER_WEEK initialWorld _ _ _ _ _));
    first [reflexivity | lia | vm_compute; split; discriminate].
Defined.

(** X8. In UTC, for an instance whose timestamp is a whole number of
    milliseconds, an amount that is a whole number and a unit that has a
    duration, [subtract] undoes [add]: the instance comes back with its
    timestamp, zone, locale and debug flag.  Timestamps and amounts with
    a fractional part are not covered. *)
Theorem subtract_undoes_add_in_UTC
    (host : Platform) (this : Krono) (t n : Z) (unit : TimeUnit) (c : Z)
    (w : World) :
  _zone this = "UTC" -> _time this = Int t ->
  - 8640000000000000 <= t <= 8640000000000000 ->
  UNIT_MULTIPLIERS unit = Some c ->
  - 8640000000000000 <= t + n * c <= 8640000000000000 ->
  (a <- add host this (Int n) unit ;; subtract host a (Int n) unit) w
  = (Ok this, w).
Proof.
  intros Hz Ht Hr Hc Hr'.
  rewrite (bind_run_Ok _ (add_linear_UTC host this t n unit c w Hz Ht Hr Hc Hr')).
  unfold subtract. change (nneg (Int n)) with (Int (- n)).
  rewrite (add_linear_UTC host (withTime this (t + n * c)) (t + n * c) (- n) unit c)
    by (try assumption; try reflexivity; unfold DateSpec.maxTime; lia).
  replace (t + n * c + - n * c) with t by lia.
  unfold withTime; simpl. destruct this; simpl in *. now subst.
Qed.

Lemma subtract_undoes_add_in_UTC_witness :
  (a <- add utcHost (instant 1750000000000 "UTC") (Int 36) hour ;;
   subtract utcHost a (Int 36) hour) initialWorld
  = (Ok (instant 1750000000000 "UTC"), initialWorld).
Proof.
  refine (subtract_undoes_add_in_UTC utcHost (instant 1750000000000 "UTC")
            1750000000000 36 hour MS_PER_HOUR initialWorld _ _ _ _ _);
    first [reflexivity | lia | vm_compute; split; discriminate].
Defined.





(** X11. In UTC, [isLeapYear] agrees with the calendar of [Date], and
    [daysInMonth] is the number of days between the first of the month
    and the first of the next; it is never [undefined]. *)
Theorem daysInMonth_in_UTC
    (host : Platform) (this : Krono) (t : Z) (w : World) :
  _zone this = "UTC" -> _time this = Int t ->
  - 8640000000000000 <= t <= 8640000000000000 ->
  isLeapYear host this w = (Ok (DateSpec.InLeapYear t), w)
  /\ daysInMonth host this w
     = (Ok (Some (Int (DateSpec.monthStart (DateSpec.InLeapYear t)
                         (DateSpec.MonthFromTime t + 1)
                       - DateSpec.monthStart (DateSpec.InLeapYear t)
                           (DateSpec.MonthFromTime t)))), w).
Proof.
  intros Hz Ht Hr. split; [now apply isLeapYear_UTC |].
  unfold daysInMonth.
  rewrite (bind_run_Ok _ (getMonth_UTC host this t w Hz Ht Hr)).
  destruct (civil_decomposition t) as (HM & _ & _).
  assert (Hc : DateSpec.MonthFromTime t = 0 \/ DateSpec.MonthFromTime t = 1
               \/ DateSpec.MonthFromTime t = 2 \/ DateSpec.MonthFromTime t = 3
               \/ DateSpec.MonthFromTime t = 4 \/ DateSpec.MonthFromTime t = 5
               \/ DateSpec.MonthFromTime t = 6 \/ DateSpec.MonthFromTime t = 7
               \/ DateSpec.MonthFromTime t = 8 \/ DateSpec.MonthFromTime t = 9
               \/ DateSpec.MonthFromTime t = 10 \/ DateSpec.MonthFromTime t = 11)
    by lia.
  pose proof (isLeapYear_UTC host this t w Hz Ht Hr) as HL.
  repeat destruct Hc as [Hc | Hc]; rewrite Hc;
    repeat match goal with
           | |- context [strict_eq ?a ?b] =>
               let v := eval vm_compute in (strict_eq a b) in
               change (strict_eq a b) with v
           end;
    cbv iota; cbn [andb];
    first [ rewrite (bind_run_Ok _ HL) | unfold bind at 1; unfold ret at 1 ];
    destruct (DateSpec.InLeapYear t); reflexivity.
Qed.

Lemma daysInMonth_in_UTC_witness :
  daysInMonth utcHost (instant 1709000000000 "UTC") initialWorld
  = (Ok (Some (Int 29)), initialWorld).
Proof.
  refine (proj2 (daysInMonth_in_UTC utcHost (instant 1709000000000 "UTC")
                   1709000000000 initialWorld _ _ _));
    first [reflexivity | lia | vm_compute; split; discriminate].
Defined.

(* ================================================================== *)
(** * Minimum and maximum of several instants                           *)
(* ================================================================== *)

Section MinMax.

Let finite (k : Krono) : Prop := exists z, _time k = Int z.

Lemma nle_Int a b : nle (Int a) (Int b) = true <-> a <= b.
Proof.
  unfold nle, nlt, strict_eq.
  destruct (Z.ltb_spec a b), (Z.eqb_spec a b); simpl; split; intros; try lia;
    try reflexivity; discriminate.
Qed.

Lemma fold_min_spec rest :
  forall acc m, finite acc -> Forall finite rest ->
  fold_left (fun min current => if isBefore current min then current else min)
            rest acc = m ->
  finite m /\ In m (acc :: rest)
  /\ nle (_time m) (_time acc) = true
  /\ (forall k, In k rest -> nle (_time m) (_time k) = true).
Proof.
  induction rest as [| x rest IH]; intros acc m Hacc Hrest Hm; cbn [fold_left] in Hm.
  - subst m. destruct Hacc as (a & Ha). repeat split.
    + now exists a.
    + now left.
    + rewrite Ha. apply nle_Int. lia.
    + intros k [].
  - apply Forall_cons_iff in Hrest as [Hx Hrest'].
    destruct Hacc as (a & Ha). pose proof Hx as (b & Hb).
    unfold isBefore, nlt in Hm. rewrite Ha, Hb in Hm.
    destruct (Z.ltb_spec b a) as [Hlt | Hge].
    + destruct (IH x _ Hx Hrest' Hm) as (Hf & Hin & Hle & Hall).
      pose proof Hf as (z & Hz). rewrite Hz, ?Ha, ?Hb in *.
      apply nle_Int in Hle.
      split; [exact Hf |]. split; [now right |].
      split; [apply nle_Int; lia |].
      intros k [<- | Hk]; [rewrite Hb; apply nle_Int; lia | now apply Hall].
    + destruct (IH acc _ (ex_intro _ a Ha) Hrest' Hm) as (Hf & Hin & Hle & Hall).
      pose proof Hf as (z & Hz). rewrite Hz, ?Ha, ?Hb in *.
      apply nle_Int in Hle.
      split; [exact Hf |].
      split; [destruct Hin as [Hin | Hin]; [now left | right; now right] |].
      split; [apply nle_Int; lia |].
      intros k [<- | Hk]; [rewrite Hb; apply nle_Int; lia | now apply Hall].
Qed.

Lemma fold_max_spec rest :
  forall acc m, finite acc -> Forall finite rest ->
  fold_left (fun max current => if isAfter current max then current else max)
            rest acc = m ->
  finite m /\ In m (acc :: rest)
  /\ nle (_time acc) (_time m) = true
  /\ (forall k, In k rest -> nle (_time k) (_time m) = true).
Proof.
  induction rest as [| x rest IH]; intros acc m Hacc Hrest Hm; cbn [fold_left] in Hm.
  - subst m. destruct Hacc as (a & Ha). repeat split.
    + now exists a.
    + now left.
    + rewrite Ha. apply nle_Int. lia.
    + intros k [].
  - apply Forall_cons_iff in Hrest as [Hx Hrest'].
    destruct Hacc as (a & Ha). pose proof Hx as (b & Hb).
    unfold isAfter, ngt, nlt in Hm. rewrite Ha, Hb in Hm.
    destruct (Z.ltb_spec a b) as [Hlt | Hge].
    + destruct (IH x _ Hx Hrest' Hm) as (Hf & Hin & Hle & Hall).
      pose proof Hf as (z & Hz). rewrite Hz, ?Ha, ?Hb in *.
      apply nle_Int in Hle.
      split; [exact Hf |]. split; [now right |].
      split; [apply nle_Int; lia |].
      intros k [<- | Hk]; [rewrite Hb; apply nle_Int; lia | now apply Hall].
    + destruct (IH acc _ (ex_intro _ a Ha) Hrest' Hm) as (Hf & Hin & Hle & Hall).
      pose proof Hf as (z & Hz). rewrite Hz, ?Ha, ?Hb in *.
      apply nle_Int in Hle.
      split; [exact Hf |].
      split; [destruct Hin as [Hin | Hin]; [now left | right; now right] |].
      split; [apply nle_Int; lia |].
      intros k [<- | Hk]; [rewrite Hb; apply nle_Int; lia | now apply Hall].
Qed.

End MinMax.

(** X12. Of a non-empty list of instants with finite timestamps,
    [min] returns a member that no member precedes and [max] a member
    that no member follows; neither touches the state. *)
Theorem min_max_bound_their_arguments
    (first : Krono) (rest : list Krono) (w : World) :
  Forall (fun k => exists z, _time k = Int z) (first :: rest) ->
  exists lo hi,
    Krono_min (first :: rest) w = (Ok lo, w)
    /\ Krono_max (first :: rest) w = (Ok hi, w)
    /\ In lo (first :: rest) /\ In hi (first :: rest)
    /\ (forall k, In k (first :: rest) ->
          nle (_time lo) (_time k) = true /\ nle (_time k) (_time hi) = true).
Proof.
  intros Hall. inversion Hall as [| ? ? Hfirst Hrest]; subst.
  destruct (fold_min_spec rest first _ Hfirst Hrest eq_refl)
    as (_ & Hin & Hle & Hmin).
  destruct (fold_max_spec rest first _ Hfirst Hrest eq_refl)
    as (_ & Hin' & Hle' & Hmax).
  eexists _, _.
  split; [reflexivity |]. split; [reflexivity |].
  split; [exact Hin |]. split; [exact Hin' |].
  intros k [<- | Hk]; split; auto.
Qed.

Lemma min_max_bound_their_arguments_witness :
  exists lo hi,
    Krono_min [instant 3 "UTC"; instant 1 "UTC"; instant 2 "UTC"] initialWorld
    = (Ok lo, initialWorld)
    /\ Krono_max [instant 3 "UTC"; instant 1 "UTC"; instant 2 "UTC"] initialWorld
       = (Ok hi, initialWorld)
    /\ In lo [instant 3 "UTC"; instant 1 "UTC"; instant 2 "UTC"]
    /\ In hi [instant 3 "UTC"; instant 1 "UTC"; instant 2 "UTC"]
    /\ (forall k, In k [instant 3 "UTC"; instant 1 "UTC"; instant 2 "UTC"] ->
          nle (_time lo) (_time k) = true /\ nle (_time k) (_time hi) = true).
Proof.
  apply (min_max_bound_their_arguments (instant 3 "UTC")
           [instant 1 "UTC"; instant 2 "UTC"] initialWorld).
  repeat constructor; eexists; reflexivity.
Defined.

(* ================================================================== *)
(** * The offset resolver                                               *)
(* ================================================================== *)

Section OffsetResolver.
Variable host : Platform.

Lemma offsetCacheGet_run zoneName w :
  zone.offsetCacheGet zoneName w
  = (Ok (fst (LRUCache.get (_offsetCache w) zoneName)),
     {| _offsetCache := snd (LRUCache.get (_offsetCache w) zoneName);
        _validZoneCache := _validZoneCache w;
        clockReads := clockReads w |}).
Proof.
  unfold zone.offsetCacheGet. now destruct (LRUCache.get (_offsetCache w) zoneName).
Qed.

(** The resolver always answers: whatever goes wrong inside is caught. *)
Lemma getOffset_total timestamp zoneName w :
  exists offset w', zone.getOffset host timestamp zoneName w = (Ok offset, w').
Proof.
  unfold zone.getOffset.
  destruct (String.eqb zoneName "UTC"); [now eexists _, _ |].
  rewrite (bind_run_Ok _ (offsetCacheGet_run zoneName w)).
  destruct (match fst (LRUCache.get (_offsetCache w) zoneName) with
            | Some zc => JSMap.get sameValueZero zc timestamp
            | None => None
            end); [now eexists _, _ |].
  destruct (negb (timeZoneSupported host zoneName)); [now eexists _, _ |].
  destruct (JSDate.ofNumber timestamp); now eexists _, _.
Qed.

End OffsetResolver.

(** X13. The offset resolver never throws, and the adjustment for
    daylight-saving transitions that [addTimeWithDST] applies, with the
    preference ["later"], returns the timestamp it was given: it only
    fills the offset cache.  With ["earlier"] it returns the timestamp or
    the timestamp one hour before. *)
Theorem handleDSTAmbiguity_returns_its_argument
    (host : Platform) (timestamp : number) (zoneName : string)
    (preference : DSTPreference) (w : World) :
  (exists offset w', zone.getOffset host timestamp zoneName w = (Ok offset, w'))
  /\ (exists w', zone.handleDSTAmbiguity host timestamp zoneName later w
                 = (Ok timestamp, w'))
  /\ (exists result w',
        zone.handleDSTAmbiguity host timestamp zoneName preference w
        = (Ok result, w')
        /\ (result = timestamp \/ result = nsub timestamp (Int MS_PER_HOUR))).
Proof.
  split; [apply getOffset_total |].
  assert (H : forall p, exists result w',
             zone.handleDSTAmbiguity host timestamp zoneName p w = (Ok result, w')
             /\ (result = timestamp
                 \/ (p = earlier /\ result = nsub timestamp (Int MS_PER_HOUR)))).
  { intros p. unfold zone.handleDSTAmbiguity.
    destruct (String.eqb zoneName "UTC"); [eexists _, _; split; [reflexivity | now left] |].
    cbv zeta.
    destruct (getOffset_total host (nsub timestamp (Int MS_PER_HOUR)) zoneName w)
      as (o1 & w1 & H1).
    rewrite (bind_run_Ok _ H1).
    destruct (getOffset_total host (nadd timestamp (Int MS_PER_HOUR)) zoneName w1)
      as (o2 & w2 & H2).
    rewrite (bind_run_Ok _ H2).
    destruct (negb (strict_eq o1 o2)); [| eexists _, _; split; [reflexivity | now left]].
    destruct p; eexists _, _; (split; [reflexivity |]); [right; now split | now left]. }
  split.
  - destruct (H later) as (r & w' & Hr & [-> | [Hp _]]); [now exists w' | discriminate].
  - destruct (H preference) as (r & w' & Hr & [Hres | [_ Hres]]);
      exists r, w'; (split; [exact Hr |]); [now left | now right].
Qed.

Section OffsetCache.

Lemma Some_inj {A : Type} (x y : A) : Some x = Some y -> x = y.
Proof. now intros [= ->]. Qed.

Lemma sameValueZero_refl n : sameValueZero n n = true.
Proof.
  destruct n as [z | | s]; simpl; [apply Z.eqb_refl | reflexivity |].
  now destruct s.
Qed.

Lemma JSMap_get_set_number (m : JSMap.t number number) k v :
  JSMap.get sameValueZero (JSMap.set sameValueZero m k v) k = Some v.
Proof.
  induction m as [| [k' v'] m IH]; simpl.
  - now rewrite sameValueZero_refl.
  - destruct (sameValueZero k k') eqn:E; simpl; rewrite E; [reflexivity | exact IH].
Qed.

End OffsetCache.

(** X14. The offset resolver answers a repeated question from its
    cache.  For a zone the platform supports and a valid timestamp, once
    [getOffset] has answered, the same question gets the same answer on
    any platform: the oracle is not consulted again. *)
Theorem getOffset_is_memoized
    (host host' : Platform) (t : Z) (zoneName : string) (offset : number)
    (w w1 : World) :
  timeZoneSupported host zoneName = true ->
  - 8640000000000000 <= t <= 8640000000000000 ->
  zone.getOffset host (Int t) zoneName w = (Ok offset, w1) ->
  exists w2, zone.getOffset host' (Int t) zoneName w1 = (Ok offset, w2).
Proof.
  intros Hsup Ht. unfold zone.getOffset.
  destruct (String.eqb zoneName "UTC"); [intros [= <- <-]; now eexists |].
  rewrite (bind_run_Ok _ (offsetCacheGet_run zoneName w)).
  rewrite Hsup. cbn [negb]. unfold JSDate.ofNumber.
  rewrite TimeClip_in by exact Ht. cbv zeta.
  set (fresh := nsub (Int t) _). clearbody fresh.
  destruct (LRUCache.get (_offsetCache w) zoneName) as [found c] eqn:Hget.
  cbn [fst snd].
  destruct found as [zc |].
  - assert (Hc : JSMap.get String.eqb (LRUCache.cache c) zoneName = Some zc).
    { unfold LRUCache.get in Hget.
      destruct (JSMap.get String.eqb (LRUCache.cache (_offsetCache w)) zoneName)
        as [v |] eqn:E; [| discriminate].
      apply pair_equal_spec in Hget as [Hv <-]. apply Some_inj in Hv as ->.
      apply JSMap_get_set_same. }
    destruct (JSMap.get sameValueZero zc (Int t)) as [cached |] eqn:Hhit.
    + intros H. apply Ok_pair_inj in H as [<- <-].
      rewrite (bind_run_Ok _ (offsetCacheGet_run zoneName _)).
      cbn [_offsetCache]. unfold LRUCache.get at 1. rewrite Hc. cbn [fst].
      rewrite Hhit. now eexists.
    + unfold bind at 1, zone.offsetCacheStore at 1. cbn [_offsetCache].
      rewrite Hc. unfold ret. intros H. apply Ok_pair_inj in H as [<- <-].
      rewrite (bind_run_Ok _ (offsetCacheGet_run zoneName _)).
      cbn [_offsetCache]. unfold LRUCache.get at 1. cbn [LRUCache.cache].
      rewrite JSMap_get_set_same. cbn [fst].
      rewrite JSMap_get_set_number. now eexists.
  - unfold bind at 1, zone.offsetCacheStore at 1. cbn [_offsetCache].
    unfold ret. intros H. apply Ok_pair_inj in H as [<- <-].
    rewrite (bind_run_Ok _ (offsetCacheGet_run zoneName _)).
    cbn [_offsetCache].
    rewrite LRUCache_get_set, JSMap_get_set_number. now eexists.
Qed.

Lemma getOffset_is_memoized_witness :
  exists w2,
    zone.getOffset lagosHost (Int 1750000000000) "Asia/Tokyo"
      (snd (zone.getOffset utcHost (Int 1750000000000) "Asia/Tokyo" initialWorld))
    = (Ok (Int (- 32400000)), w2).
Proof.
  apply (getOffset_is_memoized utcHost lagosHost 1750000000000 "Asia/Tokyo"
           (Int (- 32400000)) initialWorld);
    [reflexivity | lia | vm_compute; reflexivity].
Defined.

(** X15. The zone-validity check remembers what it accepted and
    nothing else.  Once it has answered [true] for a zone it answers
    [true] again on any platform, without consulting the formatter or
    the clock and without changing the state; an answer [false] leaves
    the state as it was, so a rejected zone is checked anew each time. *)
Theorem isValid_remembers_accepted_zones
    (host host' : Platform) (zoneName : string) (answer : bool) (w w1 : World) :
  zone.isValid host zoneName w = (Ok answer, w1) ->
  if answer then zone.isValid host' zoneName w1 = (Ok true, w1)
  else w1 = w.
Proof.
  unfold zone.isValid.
  destruct (existsb (String.eqb zoneName) (_validZoneCache w)) eqn:E.
  - intros H. apply Ok_pair_inj in H as [<- <-]. now rewrite E.
  - destruct (timeZoneSupported host zoneName).
    + intros H. apply Ok_pair_inj in H as [<- <-]. cbn [_validZoneCache].
      rewrite existsb_app. cbn [existsb]. rewrite String.eqb_refl.
      now rewrite orb_true_r.
    + intros H. now apply Ok_pair_inj in H as [<- <-].
Qed.

Lemma isValid_remembers_accepted_zones_witness :
  zone.isValid lagosHost "Asia/Tokyo"
    (snd (zone.isValid utcHost "Asia/Tokyo" initialWorld))
  = (Ok true, snd (zone.isValid utcHost "Asia/Tokyo" initialWorld)).
Proof.
  apply (isValid_remembers_accepted_zones utcHost lagosHost "Asia/Tokyo" true
           initialWorld).
  vm_compute. reflexivity.
Defined.

(* ================================================================== *)
(** * Creation                                                          *)
(* ================================================================== *)

(** X16. A copy takes nothing but the timestamp.  [create] given an
    instance behaves as [create] given the number that instance holds:
    zone, locale and debug flag come from the options, and default to
    ["UTC"], ["en-GB"] and [false], whatever the instance carried.  *)
Theorem create_copies_the_timestamp_only
    (host : Platform) (k : Krono) (options : KronoOptions) (w : World) :
  create host (InKrono k) options w
  = create host (InNumber (valueOf k)) options w
  /\ (forall k', fst (create host (InKrono k) options w) = Ok k' ->
        _time k' = _time k
        /\ _zone k' = orDefault (zone options) "UTC"
        /\ _locale k' = orDefault (locale options) "en-GB"
        /\ _debug k' = orDefault (debug options) false).
Proof.
  split.
  - unfold create, create_over, _parseToTime, new_Krono, valueOf, bind, ret.
    destruct (validateTimestamp (_time k) w) as [[[] | e] w1] eqn:E;
      [| reflexivity].
    pose proof (validateTimestamp_Ok _ _ _ _ E) as [_ ->]. now rewrite E.
  - intros k' H.
    destruct (create host (InKrono k) options w) as [[k'' | e] w'] eqn:E;
      [| discriminate].
    simpl in H. injection H as ->.
    unfold create, create_over, _parseToTime in E. cbv zeta in E.
    unfold bind at 1 in E. unfold ret at 1 in E.
    apply new_Krono_Ok in E as [_ ->]. now repeat split.
Qed.

(** X17. The word ["now"], in any letter case and with white space
    around it, is the same as no input: [create] has the same outcome
    and leaves the same state. *)
Theorem create_now_is_create_without_input
    (host : Platform) (s : string) (options : KronoOptions) (w : World) :
  Str.toLowerCase (Str.trim s) = "now" ->
  create host (InString s) options w = create host Undefined options w.
Proof.
  intros H. unfold create, create_over, _parseToTime. cbv zeta.
  rewrite H. change (String.eqb "now" "now") with true. cbv iota.
  unfold bind. rewrite !(Date_now_run host w). reflexivity.
Qed.

Lemma create_now_is_create_without_input_witness :
  create utcHost (InString "  NoW ") (inZone "Asia/Tokyo") initialWorld
  = create utcHost Undefined (inZone "Asia/Tokyo") initialWorld.
Proof.
  apply (create_now_is_create_without_input utcHost "  NoW "
           (inZone "Asia/Tokyo") initialWorld).
  vm_compute. reflexivity.
Defined.

(* ================================================================== *)
(** * The factory functions in UTC                                      *)
(* ================================================================== *)

Section Factories.
Variable host : Platform.

Lemma krono_now_UTC w nowT :
  DateNow host (clockReads w) = nowT ->
  - DateSpec.maxTime <= nowT <= DateSpec.maxTime ->
  krono host Undefined {| locale := None; zone := Some "UTC"; debug := None |} w
  = (Ok (instant nowT "UTC"), tick w).
Proof.
  intros Hnow Hr. unfold krono, create, create_over, _parseToTime. cbv zeta.
  rewrite (bind_run_Ok _ (Date_now_run host w)). rewrite Hnow.
  cbn [orDefault locale zone debug].
  rewrite new_Krono_UTC by now apply validTimestamp_Int.
  reflexivity.
Qed.

End Factories.

(** X18. On any platform whose clock shows a valid time, the UTC
    factories read the clock once; [now] returns that instant, [today]
    the start of its UTC day, and [tomorrow] and [yesterday] the instants
    exactly 86400000 ms after and before the result of [today]. *)
Theorem factories_in_UTC (host : Platform) (w : World) (nowT : Z) :
  DateNow host (clockReads w) = nowT ->
  - 8640000000000000 <= periodStart day nowT - MS_PER_DAY ->
  periodStart day nowT + MS_PER_DAY <= 8640000000000000 ->
  nowT <= 8640000000000000 ->
  now host (Some "UTC") w = (Ok (instant nowT "UTC"), tick w)
  /\ today host (Some "UTC") w
     = (Ok (instant (periodStart day nowT) "UTC"), tick w)
  /\ tomorrow host (Some "UTC") w
     = (Ok (instant (periodStart day nowT + MS_PER_DAY) "UTC"), tick w)
  /\ yesterday host (Some "UTC") w
     = (Ok (instant (periodStart day nowT - MS_PER_DAY) "UTC"), tick w).
Proof.
  intros Hnow Hlo Hhi Hmax.
  pose proof (periodStart_le day nowT) as Hle.
  assert (Hr : - DateSpec.maxTime <= nowT <= DateSpec.maxTime)
    by (unfold DateSpec.maxTime, MS_PER_DAY in *; lia).
  pose proof (krono_now_UTC host w nowT Hnow Hr) as Hk.
  assert (Hs : startOf host (instant nowT "UTC") day (tick w)
               = (Ok (instant (periodStart day nowT) "UTC"), tick w)).
  { apply (startOf_UTC_run host (instant nowT "UTC") nowT day (tick w));
      try reflexivity; try exact Hr.
    unfold DateSpec.maxTime, MS_PER_DAY in *; lia. }
  assert (Hp : - DateSpec.maxTime <= periodStart day nowT <= DateSpec.maxTime)
    by (unfold DateSpec.maxTime, MS_PER_DAY in *; lia).
  split; [| split; [| split]].
  - unfold now. unfold ret, bind at 1. exact Hk.
  - unfold today. unfold ret, bind at 1.
    rewrite (bind_run_Ok _ Hk). exact Hs.
  - unfold tomorrow. unfold ret, bind at 1.
    rewrite (bind_run_Ok _ Hk). rewrite (bind_run_Ok _ Hs).
    rewrite (add_linear_UTC host (instant (periodStart day nowT) "UTC")
               (periodStart day nowT) 1 day MS_PER_DAY)
      by (try reflexivity; try exact Hp;
          unfold DateSpec.maxTime, MS_PER_DAY in *; lia).
    replace (periodStart day nowT + 1 * MS_PER_DAY)
      with (periodStart day nowT + MS_PER_DAY) by lia.
    reflexivity.
  - unfold yesterday. unfold ret, bind at 1.
    rewrite (bind_run_Ok _ Hk). rewrite (bind_run_Ok _ Hs).
    unfold subtract. change (nneg (Int 1)) with (Int (- 1)).
    rewrite (add_linear_UTC host (instant (periodStart day nowT) "UTC")
               (periodStart day nowT) (- 1) day MS_PER_DAY)
      by (try reflexivity; try exact Hp;
          unfold DateSpec.maxTime, MS_PER_DAY in *; lia).
    replace (periodStart day nowT + - 1 * MS_PER_DAY)
      with (periodStart day nowT - MS_PER_DAY) by lia.
    reflexivity.
Qed.

Lemma factories_in_UTC_witness :
  today utcHost (Some "UTC") initialWorld
  = (Ok (instant 1749945600000 "UTC"), tick initialWorld)
  /\ tomorrow utcHost (Some "UTC") initialWorld
     = (Ok (instant 1750032000000 "UTC"), tick initialWorld)
  /\ yesterday utcHost (Some "UTC") initialWorld
     = (Ok (instant 1749859200000 "UTC"), tick initialWorld).
Proof.
  refine (proj2 (factories_in_UTC utcHost initialWorld 1750000000000 _ _ _ _));
    first [reflexivity | lia | vm_compute; discriminate].
Defined.

(* ================================================================== *)
(** * Differences in UTC                                                *)
(* ================================================================== *)

Section Monotone.
Import DateSpec.

Lemma Day_mono a b : a <= b -> Day a <= Day b.
Proof. intros H. unfold Day, msPerDay. apply Z.div_le_mono; lia. Qed.

Lemma YearFromTime_mono a b : a <= b -> YearFromTime a <= YearFromTime b.
Proof.
  intros H. apply Day_mono in H. unfold YearFromTime.
  pose proof (YearFromDay_spec (Day a)) as Ha.
  pose proof (YearFromDay_spec (Day b)) as Hb.
  destruct (Z_le_gt_dec (YearFromDay (Day a)) (YearFromDay (Day b)))
    as [Hle | Hgt]; [exact Hle |].
  pose proof (DayFromYear_le (YearFromDay (Day b) + 1) (YearFromDay (Day a))
                ltac:(lia)).
  lia.
Qed.

Lemma monthStart_mono l m m' :
  0 <= m <= m' -> m' <= 12 -> monthStart l m <= monthStart l m'.
Proof.
  intros Hm Hm'.
  assert (Hc : m = 0 \/ m = 1 \/ m = 2 \/ m = 3 \/ m = 4 \/ m = 5 \/ m = 6
               \/ m = 7 \/ m = 8 \/ m = 9 \/ m = 10 \/ m = 11 \/ m = 12) by lia.
  assert (Hc' : m' = 0 \/ m' = 1 \/ m' = 2 \/ m' = 3 \/ m' = 4 \/ m' = 5
                \/ m' = 6 \/ m' = 7 \/ m' = 8 \/ m' = 9 \/ m' = 10 \/ m' = 11
                \/ m' = 12) by lia.
  destruct l;
    repeat (destruct Hc as [-> | Hc]);
    try subst m;
    repeat (destruct Hc' as [-> | Hc']);
    try subst m'; simpl; lia.
Qed.

(** Year and month, counted in months, do not decrease with time. *)
Lemma monthIndex_mono a b :
  a <= b ->
  12 * YearFromTime a + MonthFromTime a <= 12 * YearFromTime b + MonthFromTime b.
Proof.
  intros H. pose proof (YearFromTime_mono a b H) as HY.
  destruct (civil_decomposition a) as (HMa & HDa & Hda).
  destruct (civil_decomposition b) as (HMb & HDb & Hdb).
  destruct (Z.eq_dec (YearFromTime a) (YearFromTime b)) as [E | NE]; [| lia].
  apply Day_mono in H.
  destruct (Z_le_gt_dec (MonthFromTime a) (MonthFromTime b)) as [Hle | Hgt];
    [lia |].
  unfold InLeapYear in *. rewrite E in *.
  pose proof (monthStart_mono (isLeap (YearFromTime b)) (MonthFromTime b + 1)
                (MonthFromTime a) ltac:(lia) ltac:(lia)).
  lia.
Qed.

End Monotone.

(** X19. In UTC, [diff] is symmetric and never negative.  For a unit
    that has a duration it is the whole number of units in the distance
    between the timestamps; in years it is the distance between the
    calendar years, and in months the distance between the calendar
    months, whatever the days of the month and the times of day. *)
Theorem diff_in_UTC
    (host : Platform) (this other : Krono) (a b : Z) (unit : TimeUnit)
    (w : World) :
  _zone this = "UTC" -> _zone other = "UTC" ->
  _time this = Int a -> _time other = Int b ->
  - 8640000000000000 <= a <= 8640000000000000 ->
  - 8640000000000000 <= b <= 8640000000000000 ->
  Z.abs (a - b) < 9000000000000000 ->
  diff host this other unit w
  = (Ok (Int (match UNIT_MULTIPLIERS unit with
              | Some c => Z.abs (a - b) / c
              | None =>
                  match unit with
                  | year =>
                      Z.abs (DateSpec.YearFromTime a - DateSpec.YearFromTime b)
                  | _ =>
                      Z.abs (12 * DateSpec.YearFromTime a + DateSpec.MonthFromTime a
                             - (12 * DateSpec.YearFromTime b
                                + DateSpec.MonthFromTime b))
                  end
              end)), w)
  /\ diff host other this unit w = diff host this other unit w.
Proof.
  intros Hz Hz' Ha Hb Hra Hrb _.
  assert (Hfix : forall c, UNIT_MULTIPLIERS unit = Some c ->
            diff host this other unit w = (Ok (Int (Z.abs (a - b) / c)), w)
            /\ diff host other this unit w = (Ok (Int (Z.abs (a - b) / c)), w)).
  { intros c Hc. unfold diff. rewrite Hc, Ha, Hb.
    unfold Math_abs, nsub, nadd, nneg, floor_div, ret.
    replace (b + - a) with (- (a + - b)) by lia. rewrite Z.abs_opp.
    now replace (a + - b) with (a - b) by lia. }
  assert (HY : forall k x, _zone k = "UTC" -> _time k = Int x ->
            - DateSpec.maxTime <= x <= DateSpec.maxTime ->
            getYear host k w = (Ok (Int (DateSpec.YearFromTime x)), w)).
  { intros k x Hk Hx Hr. unfold getYear.
    now rewrite (fieldOf_UTC host _ k x w Hk Hx Hr). }
  pose proof (HY this a Hz Ha Hra) as HYa.
  pose proof (HY other b Hz' Hb Hrb) as HYb.
  pose proof (getMonth_UTC host this a w Hz Ha Hra) as HMa.
  pose proof (getMonth_UTC host other b w Hz' Hb Hrb) as HMb.
  destruct (UNIT_MULTIPLIERS unit) as [c |] eqn:Hc.
  { destruct (Hfix c eq_refl) as [H1 H2]. rewrite H1, H2. now split. }
  clear Hfix.
  assert (Hnone : forall x y : Krono,
            diff host x y unit w
            = (let (earlier_, later_) :=
                 if nlt (_time x) (_time y) then (x, y) else (y, x) in
               match unit with
               | year =>
                   ly <- getYear host later_ ;;
                   ey <- getYear host earlier_ ;;
                   ret (nsub ly ey)
               | month =>
                   ly <- getYear host later_ ;;
                   ey <- getYear host earlier_ ;;
                   lm <- getMonth host later_ ;;
                   em <- getMonth host earlier_ ;;
                   ret (nadd (nscale (nsub ly ey) 12) (nsub lm em))
               | _ => ret (Int 0)
               end) w).
  { intros x y. unfold diff. now rewrite Hc. }
  rewrite !Hnone. rewrite Ha, Hb. unfold nlt.
  pose proof (YearFromTime_mono a b) as Hyab.
  pose proof (YearFromTime_mono b a) as Hyba.
  pose proof (monthIndex_mono a b) as Hmab.
  pose proof (monthIndex_mono b a) as Hmba.
  destruct unit; try discriminate.
  - (* month *)
    destruct (Z.ltb_spec a b) as [Hlt | Hge];
      destruct (Z.ltb_spec b a) as [Hlt' | Hge']; try lia;
      rewrite ?(bind_run_Ok _ HYa), ?(bind_run_Ok _ HYb),
        ?(bind_run_Ok _ HYa), ?(bind_run_Ok _ HMa), ?(bind_run_Ok _ HMb),
        ?(bind_run_Ok _ HMa);
      unfold ret, nsub, nadd, nneg, nscale;
      split; try reflexivity; do 3 f_equal; lia.
  - (* year *)
    destruct (Z.ltb_spec a b) as [Hlt | Hge];
      destruct (Z.ltb_spec b a) as [Hlt' | Hge']; try lia;
      rewrite ?(bind_run_Ok _ HYa), ?(bind_run_Ok _ HYb), ?(bind_run_Ok _ HYa);
      unfold ret, nsub, nadd, nneg;
      split; try reflexivity; do 3 f_equal; lia.
Qed.

Lemma diff_in_UTC_witness :
  diff utcHost (instant 1738281600000 "UTC") (instant 1738368000000 "UTC") month
    initialWorld
  = (Ok (Int 1), initialWorld).
Proof.
  refine (proj1 (diff_in_UTC utcHost (instant 1738281600000 "UTC")
                   (instant 1738368000000 "UTC") 1738281600000 1738368000000
                   month initialWorld _ _ _ _ _ _ _));
    first [reflexivity | lia].
Defined.

(* ================================================================== *)
(** * Getters outside UTC                                               *)
(* ================================================================== *)

Section ZoneGetters.
Import DateSpec.
Variable host : Platform.

Lemma civil_time_rebuilt x ms :
  ms = msFromTime x ->
  MakeDate (MakeDay (YearFromTime x) (MonthFromTime x + 1 - 1) (DateFromTime x))
           (MakeTime (HourFromTime x) (MinFromTime x) (SecFromTime x) ms)
  = x.
Proof.
  intros ->. replace (MonthFromTime x + 1 - 1) with (MonthFromTime x) by lia.
  replace (DateFromTime x) with (DateFromTime x + 0) by lia.
  rewrite MakeDay_civil, Z.add_0_r.
  unfold MakeDate, MakeTime, Day, HourFromTime, MinFromTime, SecFromTime,
    msFromTime, msPerDay, msPerHour, msPerMinute, msPerSecond.
  Z.div_mod_to_equations. lia.
Qed.

(** Where the platform reports, for the instant [t] in a zone, the civil
    fields of [t + o], the resolver finds the offset [- o]. *)
Lemma getOffset_fixed zoneName t o w :
  String.eqb zoneName "UTC" = false ->
  timeZoneSupported host zoneName = true ->
  formatToParts host zoneName t = civilParts (t + o) ->
  o mod 1000 = 0 -> 100 <= YearFromTime (t + o) ->
  - maxTime <= t <= maxTime -> - maxTime <= t + o <= maxTime ->
  match fst (LRUCache.get (_offsetCache w) zoneName) with
  | Some zc => JSMap.get sameValueZero zc (Int t)
  | None => None
  end = None ->
  exists w', zone.getOffset host (Int t) zoneName w = (Ok (Int (- o)), w').
Proof.
  intros Hz Hsup Hparts Ho Hy Ht Hto Hmiss. unfold zone.getOffset.
  rewrite Hz. rewrite (bind_run_Ok _ (offsetCacheGet_run zoneName w)).
  rewrite Hmiss, Hsup. cbn [negb]. unfold JSDate.ofNumber.
  rewrite TimeClip_in by exact Ht. cbv zeta.
  assert (Hoff : nsub (Int t)
                   (JSDate.UTC7
                      (Int (part_year (formatToParts host zoneName t)))
                      (Int (part_month (formatToParts host zoneName t) - 1))
                      (Int (part_day (formatToParts host zoneName t)))
                      (Int (part_hour (formatToParts host zoneName t)))
                      (Int (part_minute (formatToParts host zoneName t)))
                      (Int (part_second (formatToParts host zoneName t)))
                      (JSDate.getUTCMilliseconds (Int t)))
                 = Int (- o)).
  { rewrite Hparts. unfold civilParts.
    cbn [part_year part_month part_day part_hour part_minute part_second].
    destruct (Z.leb_spec (YearFromTime (t + o)) 0) as [Hle | _]; [lia |].
    unfold JSDate.UTC7, JSDate.getUTCMilliseconds, JSDate.getter.
    replace (MakeFullYear (YearFromTime (t + o))) with (YearFromTime (t + o)).
    - rewrite civil_time_rebuilt.
      + rewrite TimeClip_in by exact Hto. unfold nsub, nneg, nadd. f_equal. lia.
      + unfold msFromTime, msPerSecond. Z.div_mod_to_equations. lia.
    - unfold MakeFullYear.
      destruct (Z.leb_spec 0 (YearFromTime (t + o)));
        destruct (Z.leb_spec (YearFromTime (t + o)) 99); cbn [andb]; lia. }
  rewrite Hoff.
  unfold bind, zone.offsetCacheStore, ret.
  destruct (fst (LRUCache.get (_offsetCache w) zoneName)); now eexists.
Qed.

End ZoneGetters.



(* ================================================================== *)
(** * "next" and "last" weekday in UTC                                  *)
(* ================================================================== *)

Section Weekdays.
Import DateSpec.
Variable host : Platform.

Lemma WEEKDAY_MAP_bounds name : 0 <= WEEKDAY_MAP name <= 6.
Proof.
  unfold WEEKDAY_MAP.
  repeat match goal with
         | |- context [if ?b then _ else _] => destruct b; [lia |]
         end.
  lia.
Qed.

Lemma dayOfWeek_UTC this t w :
  _zone this = "UTC" -> _time this = Int t -> - maxTime <= t <= maxTime ->
  dayOfWeek host this w = (Ok (Int (WeekDay t)), w).
Proof.
  intros Hz Ht Hr. unfold dayOfWeek. rewrite Hz, Ht.
  change (String.eqb "UTC" "UTC") with true. cbv iota.
  unfold JSDate.ofNumber. now rewrite TimeClip_in.
Qed.

(** A move by whole days followed by the start of the day, in UTC. *)
Lemma days_then_startOf this t d w :
  _zone this = "UTC" -> _time this = Int t -> - maxTime <= t <= maxTime ->
  - maxTime <= (Day t + d) * msPerDay -> t + d * MS_PER_DAY <= maxTime ->
  (a <- add host this (Int d) day ;; s <- startOf host a day ;;
   ret (Some (_time s))) w
  = (Ok (Some (Int ((Day t + d) * msPerDay))), w).
Proof.
  intros Hz Ht Hr Hlo Hhi.
  pose proof (TimeWithinDay_bounds t) as Htod. pose proof (MakeDate_Day t) as Hd.
  assert (Hin : - maxTime <= t + d * MS_PER_DAY <= maxTime).
  { unfold MakeDate, MS_PER_DAY, msPerDay in *. lia. }
  rewrite (bind_run_Ok _ (add_linear_UTC host this t d day MS_PER_DAY w Hz Ht Hr
                            eq_refl Hin)).
  assert (Hp : periodStart day (t + d * MS_PER_DAY) = (Day t + d) * msPerDay).
  { unfold periodStart, Day, MS_PER_DAY, msPerDay. Z.div_mod_to_equations. lia. }
  rewrite (bind_run_Ok _ (startOf_UTC_run host (withTime this (t + d * MS_PER_DAY))
                            (t + d * MS_PER_DAY) day w Hz eq_refl Hin
                            ltac:(rewrite Hp; exact Hlo))).
  rewrite Hp. reflexivity.
Qed.

Lemma natural_weekday_UTC str m handler w now2 :
  firstMatch str NATURAL_PATTERNS = Some (m, handler) ->
  handler = nextWeekday \/ handler = lastWeekday ->
  DateNow host (clockReads w) = now2 ->
  - maxTime <= now2 - 8 * MS_PER_DAY -> now2 + 8 * MS_PER_DAY <= maxTime ->
  let target := WEEKDAY_MAP (Str.toLowerCase (RegExp.groupOr m 1)) in
  let current := WeekDay now2 in
  let d := match handler with
           | nextWeekday =>
               if current <? target then target - current
               else 7 - current + target
           | _ =>
               - (if target <? current then current - target
                  else current + 7 - target)
           end in
  _parseNaturalLanguage host (startOf host) str "UTC" w
  = (Ok (Some (Int ((Day now2 + d) * msPerDay))), tick w).
Proof.
  intros Hm Hh Hclock Hlo Hhi target current d.
  pose proof (TimeWithinDay_bounds now2) as Htod.
  pose proof (MakeDate_Day now2) as Hd.
  pose proof (WEEKDAY_MAP_bounds (Str.toLowerCase (RegExp.groupOr m 1))) as Ht.
  pose proof (WeekDay_bounds now2) as Hc.
  fold target in Ht. fold current in Hc.
  assert (Hr : - maxTime <= now2 <= maxTime) by (unfold MS_PER_DAY in *; lia).
  unfold _parseNaturalLanguage.
  rewrite (bind_run_Ok _ (Date_now_run host w)). rewrite Hclock.
  rewrite (bind_run_Ok _ (new_Krono_UTC host (Int now2) "en-GB" false _
                            (proj2 (validTimestamp_Int now2) Hr))).
  rewrite Hm.
  assert (Hd7 : - 7 <= d <= 7).
  { subst d. destruct Hh as [-> | ->].
    - destruct (Z.ltb_spec current target); lia.
    - destruct (Z.ltb_spec target current); lia. }
  assert (Hrun : forall w0,
            (a <- add host {| _time := Int now2; _locale := "en-GB";
                              _zone := "UTC"; _debug := false |} (Int d) day ;;
             s0 <- startOf host a day ;; ret (Some (_time s0))) w0
            = (Ok (Some (Int ((Day now2 + d) * msPerDay))), w0)).
  { intros w0. apply days_then_startOf; try reflexivity; try exact Hr;
      unfold MakeDate, MS_PER_DAY, msPerDay in *; lia. }
  destruct Hh as [-> | ->]; cbv iota beta;
    rewrite (bind_run_Ok _ (dayOfWeek_UTC
                              {| _time := Int now2; _locale := "en-GB";
                                 _zone := "UTC"; _debug := false |}
                              now2 _ eq_refl eq_refl Hr));
    fold current; fold target; unfold ngt, nlt.
  - replace (if current <? target
             then nsub (Int target) (Int current)
             else nadd (nsub (Int 7) (Int current)) (Int target))
      with (Int d)
      by (subst d; unfold nsub, nadd, nneg;
          destruct (current <? target); f_equal; lia).
    rewrite Hrun. reflexivity.
  - unfold subtract.
    replace (nneg (if target <? current
                   then nsub (Int current) (Int target)
                   else nsub (nadd (Int current) (Int 7)) (Int target)))
      with (Int d)
      by (subst d; unfold nsub, nadd, nneg;
          destruct (target <? current); f_equal; lia).
    rewrite Hrun. reflexivity.
Qed.

End Weekdays.

(** X21. ["next <weekday>"] in UTC is the start of the first day after
    the current UTC date that falls on that weekday, so between one and
    seven days ahead; ["last <weekday>"] is the start of the last such
    day before the current date, between one and seven days back.  The
    current date is that of the second of the two clock readings the
    parse makes. *)
Theorem next_and_last_weekday_in_UTC
    (host : Platform) (s : string) (m : RegExp.captures) (handler : handlerName)
    (options : KronoOptions) (w : World) (now2 : Z) :
  String.eqb (Str.toLowerCase (Str.trim s)) "now" = false ->
  firstMatch (Str.trim s) NATURAL_PATTERNS = Some (m, handler) ->
  handler = nextWeekday \/ handler = lastWeekday ->
  orDefault (zone options) "UTC" = "UTC" ->
  DateNow host (S (clockReads w)) = now2 ->
  - 8640000000000000 <= now2 - 8 * MS_PER_DAY ->
  now2 + 8 * MS_PER_DAY <= 8640000000000000 ->
  exists r,
    create host (InString s) options w
    = (Ok {| _time := Int r;
             _locale := orDefault (locale options) "en-GB";
             _zone := "UTC";
             _debug := orDefault (debug options) false |}, tick (tick w))
    /\ DateSpec.WeekDay r = WEEKDAY_MAP (Str.toLowerCase (RegExp.groupOr m 1))
    /\ DateSpec.TimeWithinDay r = 0
    /\ match handler with
       | nextWeekday =>
           DateSpec.Day now2 < DateSpec.Day r <= DateSpec.Day now2 + 7
       | _ => DateSpec.Day now2 - 7 <= DateSpec.Day r < DateSpec.Day now2
       end.
Proof.
  intros Hnow Hm Hh Hzone Hclock Hlo Hhi.
  pose proof (natural_weekday_UTC host (Str.trim s) m handler (tick w) now2 Hm Hh
                Hclock Hlo Hhi) as Hnat.
  cbv zeta in Hnat.
  change (clockReads (tick w)) with (S (clockReads w)) in Hnat.
  set (target := WEEKDAY_MAP (Str.toLowerCase (RegExp.groupOr m 1))) in *.
  set (current := DateSpec.WeekDay now2) in *.
  set (d := match handler with
            | nextWeekday =>
                if current <? target then target - current
                else 7 - current + target
            | _ =>
                - (if target <? current then current - target
                   else current + 7 - target)
            end) in *.
  assert (Hparse : _parseToTime host (startOf host) (InString s) "UTC" w
                   = (Ok (Int ((DateSpec.Day now2 + d) * DateSpec.msPerDay)),
                      tick (tick w))).
  { unfold _parseToTime. cbv zeta.
    rewrite (bind_run_Ok _ (Date_now_run host w)), Hnow. cbv iota.
    change {| _offsetCache := _offsetCache w;
              _validZoneCache := _validZoneCache w;
              clockReads := S (clockReads w) |} with (tick w).
    now rewrite (bind_run_Ok _ Hnat). }
  clear Hnat.
  pose proof (WEEKDAY_MAP_bounds (Str.toLowerCase (RegExp.groupOr m 1))) as Ht.
  pose proof (WeekDay_bounds now2) as Hc.
  fold target in Ht. fold current in Hc.
  pose proof (TimeWithinDay_bounds now2) as Htod.
  pose proof (MakeDate_Day now2) as Hd.
  exists ((DateSpec.Day now2 + d) * DateSpec.msPerDay).
  destruct (Day_MakeDate (DateSpec.Day now2 + d) 0 ltac:(unfold DateSpec.msPerDay; lia))
    as [HDay Htw].
  unfold DateSpec.MakeDate in HDay, Htw. rewrite Z.add_0_r in HDay, Htw.
  split; [| split; [| split]].
  - unfold create, create_over. cbv zeta. rewrite Hzone.
    rewrite (bind_run_Ok _ Hparse).
    apply new_Krono_UTC. apply validTimestamp_Int.
    assert (- 7 <= d <= 7).
    { subst d. destruct Hh as [-> | ->].
      - destruct (Z.ltb_spec current target); lia.
      - destruct (Z.ltb_spec target current); lia. }
    unfold DateSpec.MakeDate, DateSpec.maxTime, MS_PER_DAY, DateSpec.msPerDay in *.
    lia.
  - unfold DateSpec.WeekDay at 1. rewrite HDay.
    subst d current. unfold DateSpec.WeekDay in *.
    destruct Hh as [-> | ->].
    + destruct (Z.ltb_spec ((DateSpec.Day now2 + 4) mod 7) target);
        Z.div_mod_to_equations; lia.
    + destruct (Z.ltb_spec target ((DateSpec.Day now2 + 4) mod 7));
        Z.div_mod_to_equations; lia.
  - exact Htw.
  - rewrite HDay. subst d. destruct Hh as [-> | ->].
    + destruct (Z.ltb_spec current target); lia.
    + destruct (Z.ltb_spec target current); lia.
Qed.

Lemma next_and_last_weekday_in_UTC_witness :
  exists r,
    create utcHost (InString "Next Monday") (inZone "UTC") initialWorld
    = (Ok (instant r "UTC"), tick (tick initialWorld))
    /\ DateSpec.WeekDay r = 1
    /\ DateSpec.TimeWithinDay r = 0
    /\ DateSpec.Day 1750000000000 < DateSpec.Day r
       <= DateSpec.Day 1750000000000 + 7.
Proof.
  refine (next_and_last_weekday_in_UTC utcHost "Next Monday"
            [(0%nat, Str.chars "Next Monday"); (1%nat, Str.chars "Monday")]
            nextWeekday (inZone "UTC") initialWorld 1750000000000 _ _ _ _ _ _ _);
    first [reflexivity | now left | vm_compute; reflexivity
          | vm_compute; discriminate ].
Defined.

(* ================================================================== *)
(** * Setting a field in UTC                                            *)
(* ================================================================== *)

Section SetField.
Import DateSpec.
Variable host : Platform.

Lemma time_of_day_fields D h mi s ms :
  0 <= h < 24 -> 0 <= mi < 60 -> 0 <= s < 60 -> 0 <= ms < 1000 ->
  Day (MakeDate D (MakeTime h mi s ms)) = D
  /\ HourFromTime (MakeDate D (MakeTime h mi s ms)) = h
  /\ MinFromTime (MakeDate D (MakeTime h mi s ms)) = mi
  /\ SecFromTime (MakeDate D (MakeTime h mi s ms)) = s
  /\ msFromTime (MakeDate D (MakeTime h mi s ms)) = ms.
Proof.
  intros Hh Hmi Hs Hms.
  unfold MakeDate, MakeTime, Day, HourFromTime, MinFromTime, SecFromTime,
    msFromTime, msPerDay, msPerHour, msPerMinute, msPerSecond.
  repeat split; Z.div_mod_to_equations; lia.
Qed.

Lemma time_of_day_decomposition t :
  0 <= HourFromTime t < 24 /\ 0 <= MinFromTime t < 60
  /\ 0 <= SecFromTime t < 60 /\ 0 <= msFromTime t < 1000
  /\ t = MakeDate (Day t)
           (MakeTime (HourFromTime t) (MinFromTime t) (SecFromTime t)
              (msFromTime t)).
Proof.
  unfold MakeDate, MakeTime, Day, HourFromTime, MinFromTime, SecFromTime,
    msFromTime, msPerDay, msPerHour, msPerMinute, msPerSecond.
  repeat split; Z.div_mod_to_equations; lia.
Qed.

(** The calendar fields depend on the day number only. *)
Lemma calendar_fields_of_Day a b :
  Day a = Day b ->
  YearFromTime a = YearFromTime b /\ MonthFromTime a = MonthFromTime b
  /\ DateFromTime a = DateFromTime b.
Proof.
  intros H.
  unfold DateFromTime, MonthFromTime, InLeapYear, DayWithinYear, YearFromTime.
  now rewrite H.
Qed.

Lemma get_UTC this t unit x w :
  _zone this = "UTC" -> _time this = Int t -> - maxTime <= t <= maxTime ->
  civilField unit t = Some x ->
  get host this unit w = (Ok (Int x), w).
Proof.
  intros Hz Ht Hr Hx.
  destruct unit; simpl in Hx; try discriminate; injection Hx as <-;
    unfold get, getYear, getDay, getHour, getMinute, getSecond, getMillisecond;
    first [ now rewrite (fieldOf_UTC host _ this t w Hz Ht Hr)
          | now rewrite (getMonth_UTC host this t w Hz Ht Hr) ].
Qed.

Lemma set_UTC_run this t unit value newTime w :
  _zone this = "UTC" -> _time this = Int t -> - maxTime <= t <= maxTime ->
  unit <> week ->
  match unit with
  | year => JSDate.setUTCFullYear (Int t) value None None
  | month => JSDate.setUTCMonth (Int t) (nsub value (Int 1)) None
  | day => JSDate.setUTCDate (Int t) value
  | hour => JSDate.setUTCHours (Int t) value None None None
  | minute => JSDate.setUTCMinutes (Int t) value None None
  | second => JSDate.setUTCSeconds (Int t) value None
  | _ => JSDate.setUTCMilliseconds (Int t) value
  end = Int newTime ->
  - maxTime <= newTime <= maxTime ->
  set host this unit value w = (Ok (withTime this newTime), w).
Proof.
  intros Hz Ht Hr Hu Hset Hnew. unfold set.
  assert (Hzt : _getZoneTime host this w = (Ok (Int t), w)).
  { unfold _getZoneTime. rewrite Hz, Ht.
    change (String.eqb "UTC" "UTC") with true. cbv iota.
    unfold JSDate.ofNumber. now rewrite TimeClip_in. }
  rewrite (bind_run_Ok _ Hzt). cbv zeta.
  assert (Hcreate : forall d, d = Int newTime ->
            create host (InDate d) (instanceOptions this) w
            = (Ok (withTime this newTime), w)).
  { intros d ->. unfold create, create_over, _parseToTime, instanceOptions.
    cbv zeta. cbn [orDefault locale zone debug].
    unfold bind at 1. unfold ret at 1. unfold JSDate.getTime.
    rewrite Hz. now apply new_Krono_withTime. }
  destruct unit; try contradiction; now apply Hcreate.
Qed.

End SetField.

(** X22. In UTC, for an instance whose timestamp is a whole number of
    milliseconds, setting a time-of-day field to a whole number of its
    range changes that field and no other: the instance returned reads
    the new value for the unit set, and for every other unit the value
    the original had.  Its timestamp is the original moved by the change
    of the field times the duration of the unit.  Timestamps and values
    with a fractional part are not covered. *)
Theorem set_changes_one_field_in_UTC
    (host : Platform) (this : Krono) (t : Z) (unit : TimeUnit)
    (lo hi v current c : Z) (w : World) :
  _zone this = "UTC" -> _time this = Int t ->
  - 8640000000000000 <= t <= 8640000000000000 ->
  fieldRange unit = Some (lo, hi) -> lo <= v <= hi ->
  civilField unit t = Some current ->
  UNIT_MULTIPLIERS unit = Some c ->
  t + (v - current) * c <= 8640000000000000 ->
  set host this unit (Int v) w
  = (Ok (withTime this (t + (v - current) * c)), w)
  /\ get host (withTime this (t + (v - current) * c)) unit w = (Ok (Int v), w)
  /\ (forall other x, other <> unit -> civilField other t = Some x ->
        get host (withTime this (t + (v - current) * c)) other w
        = (Ok (Int x), w)).
Proof.
  intros Hz Ht Hr Hrange Hv Hcur Hc Hhi.
  destruct (time_of_day_decomposition t) as (Hh & Hmi & Hs & Hms & Hdec).
  set (D := DateSpec.Day t) in *.
  set (h := DateSpec.HourFromTime t) in *.
  set (mi := DateSpec.MinFromTime t) in *.
  set (s := DateSpec.SecFromTime t) in *.
  set (ms := DateSpec.msFromTime t) in *.
  assert (Hnew : exists h' mi' s' ms',
             (0 <= h' < 24 /\ 0 <= mi' < 60 /\ 0 <= s' < 60 /\ 0 <= ms' < 1000)
             /\ t + (v - current) * c
                = DateSpec.MakeDate D (DateSpec.MakeTime h' mi' s' ms')
             /\ match unit with
                | hour => h' = v /\ mi' = mi /\ s' = s /\ ms' = ms
                | minute => h' = h /\ mi' = v /\ s' = s /\ ms' = ms
                | second => h' = h /\ mi' = mi /\ s' = v /\ ms' = ms
                | _ => h' = h /\ mi' = mi /\ s' = s /\ ms' = v
                end).
  { destruct unit; try discriminate; simpl in Hcur, Hc, Hrange;
      injection Hcur as <-; injection Hc as <-; injection Hrange as <- <-.
    - exists h, mi, s, v. fold ms. split; [lia |]. split; [| tauto].
      rewrite Hdec at 1. unfold DateSpec.MakeDate, DateSpec.MakeTime. lia.
    - exists h, mi, v, ms. fold s. split; [lia |]. split; [| tauto].
      rewrite Hdec at 1.
      unfold DateSpec.MakeDate, DateSpec.MakeTime, MS_PER_SECOND,
        DateSpec.msPerSecond. lia.
    - exists h, v, s, ms. fold mi. split; [lia |]. split; [| tauto].
      rewrite Hdec at 1.
      unfold DateSpec.MakeDate, DateSpec.MakeTime, MS_PER_MINUTE,
        DateSpec.msPerMinute. lia.
    - exists v, mi, s, ms. fold h. split; [lia |]. split; [| tauto].
      rewrite Hdec at 1.
      unfold DateSpec.MakeDate, DateSpec.MakeTime, MS_PER_HOUR,
        DateSpec.msPerHour. lia. }
  destruct Hnew as (h' & mi' & s' & ms' & (Hh' & Hmi' & Hs' & Hms') & Ht' & Hfields).
  destruct (time_of_day_fields D h' mi' s' ms' Hh' Hmi' Hs' Hms')
    as (HD' & Hh'' & Hmi'' & Hs'' & Hms'').
  rewrite <- Ht' in HD', Hh'', Hmi'', Hs'', Hms''.
  set (t' := t + (v - current) * c) in *.
  assert (Hr' : - DateSpec.maxTime <= t' <= DateSpec.maxTime).
  { split; [| exact Hhi]. rewrite Ht'.
    assert (- 100000000 <= D).
    { subst D. unfold DateSpec.Day, DateSpec.msPerDay.
      Z.div_mod_to_equations. lia. }
    unfold DateSpec.MakeDate, DateSpec.MakeTime, DateSpec.maxTime,
      DateSpec.msPerDay, DateSpec.msPerHour, DateSpec.msPerMinute,
      DateSpec.msPerSecond. lia. }
  destruct (calendar_fields_of_Day t' t HD') as (HY & HM & HDt).
  clearbody t'. subst D h mi s ms.
  split; [| split].
  - apply (set_UTC_run host this t unit (Int v) t' w Hz Ht Hr).
    + destruct unit; discriminate.
    + destruct unit; try discriminate; destruct Hfields as (-> & -> & -> & ->);
        unfold JSDate.setUTCHours, JSDate.setUTCMinutes, JSDate.setUTCSeconds,
          JSDate.setUTCMilliseconds, JSDate.orElse;
        rewrite <- Ht'; now apply TimeClip_in.
    + exact Hr'.
  - apply (get_UTC host (withTime this t') t' unit v w Hz eq_refl Hr').
    destruct unit; try discriminate; destruct Hfields as (-> & -> & -> & ->);
      cbn [civilField]; congruence.
  - intros other x Hne Hx.
    apply (get_UTC host (withTime this t') t' other x w Hz eq_refl Hr').
    destruct other; cbn [civilField] in Hx |- *; try discriminate;
      injection Hx as <-; try congruence;
      destruct unit; try discriminate; try contradiction;
      destruct Hfields as (-> & -> & -> & ->); congruence.
Qed.

Lemma set_changes_one_field_in_UTC_witness :
  set utcHost (instant 1750000000000 "UTC") hour (Int 3) initialWorld
  = (Ok (instant 1749956800000 "UTC"), initialWorld)
  /\ get utcHost (instant 1749956800000 "UTC") hour initialWorld
     = (Ok (Int 3), initialWorld).
Proof.
  pose proof (set_changes_one_field_in_UTC utcHost (instant 1750000000000 "UTC")
                1750000000000 hour 0 23 3 15 MS_PER_HOUR initialWorld
                eq_refl eq_refl ltac:(lia) eq_refl ltac:(lia) eq_refl eq_refl
                ltac:(vm_compute; discriminate)) as (H1 & H2 & _).
  split; [exact H1 | exact H2].
Defined.

(* ================================================================== *)
(** * Sequences of operations                                           *)
(* ================================================================== *)

Lemma bind_ext {A B : Type} (m : M A) (f g : A -> M B) w :
  (forall a w', f a w' = g a w') -> bind m f w = bind m g w.
Proof.
  intros H. unfold bind. destruct (m w) as [[a | e] w1]; [apply H | reflexivity].
Qed.

Lemma bind_assoc {A B C : Type} (m : M A) (f : A -> M B) (g : B -> M C) w :
  bind (bind m f) g w = bind m (fun a => bind (f a) g) w.
Proof. unfold bind. now destruct (m w) as [[a | e] w1]. Qed.

Lemma pipe_from (operations : list (Krono -> M Krono)) :
  forall (m : M Krono) (w : World),
    fold_left (fun acc op => k <- acc ;; op k) operations m w
    = (k <- m ;; pipe k operations) w.
Proof.
  unfold pipe.
  induction operations as [| op operations IH]; intros m w; cbn [fold_left].
  - unfold bind, ret. now destruct (m w) as [[k | e] w1].
  - rewrite IH, bind_assoc. apply bind_ext. intros a w'.
    rewrite IH. unfold bind, ret. reflexivity.
Qed.

(** X23. [pipe] composes.  Without operations it returns the instance;
    with one operation it is that operation; and piping through a list
    followed by another is piping through the first and, if that
    returns, piping its result through the second: an operation that
    throws ends the sequence with its exception and the state reached. *)
Theorem pipe_composes
    (this : Krono) (ops ops' : list (Krono -> M Krono)) (op : Krono -> M Krono)
    (w : World) :
  pipe this [] w = (Ok this, w)
  /\ pipe this [op] w = op this w
  /\ pipe this (ops ++ ops') w = (k <- pipe this ops ;; pipe k ops') w.
Proof.
  split; [reflexivity |]. split.
  - unfold pipe; cbn [fold_left]. unfold bind, ret. reflexivity.
  - unfold pipe at 1. rewrite fold_left_app. apply pipe_from.
Qed.

(* ================================================================== *)
(** * One month later, on a host that is not ahead of UTC               *)
(* ================================================================== *)

Section MonthClamp.
Import DateSpec.
Variable host : Platform.
Hypothesis Hhost : hostNotAheadOfUTC host.

(** Read on such a host, day 0 of the following month is the last day of
    the month. *)
Lemma lastDayOfTargetMonth_exact ty fm :
  0 <= fm <= 11 -> 100 <= ty ->
  - maxTime <= MakeDay ty fm 1 * msPerDay ->
  (MakeDay ty (fm + 1) 0 + 1) * msPerDay <= maxTime ->
  JSDate.getUTCDate (JSDate.ofLocalFields host (Int ty) (Int (fm + 1)) (Int 0))
  = Int (monthStart (isLeap ty) (fm + 1) - monthStart (isLeap ty) fm).
Proof.
  intros Hfm Hty Hlo Hhi. unfold JSDate.ofLocalFields.
  replace (MakeFullYear ty) with ty
    by (unfold MakeFullYear; destruct (Z.leb_spec 0 ty);
        destruct (Z.leb_spec ty 99); cbn [andb]; lia).
  set (localTime := MakeDate (MakeDay ty (fm + 1) 0) (MakeTime 0 0 0 0)).
  specialize (Hhost localTime).
  set (u := localTime - LocalTZA host localTime) in *.
  destruct (monthStart_bounds (isLeap ty) fm Hfm) as (H0 & Hdim & Hend).
  set (dim := monthStart (isLeap ty) (fm + 1) - monthStart (isLeap ty) fm) in *.
  assert (Hlocal : localTime = MakeDay ty fm dim * msPerDay).
  { unfold localTime, MakeDate, MakeTime. rewrite MakeDay_day_zero by exact Hfm.
    rewrite MakeDay_normal by exact Hfm. unfold dim. lia. }
  assert (Hzero : MakeDay ty (fm + 1) 0 = MakeDay ty fm dim).
  { rewrite MakeDay_day_zero by exact Hfm.
    rewrite MakeDay_normal by exact Hfm. unfold dim. lia. }
  assert (Hone : MakeDay ty fm 1 <= MakeDay ty fm dim).
  { rewrite !MakeDay_normal by exact Hfm. lia. }
  assert (Hu : - maxTime <= u <= maxTime).
  { rewrite Hzero in Hhi. clearbody localTime. subst u.
    unfold msPerDay, maxTime in *. lia. }
  rewrite TimeClip_in by exact Hu.
  unfold JSDate.getUTCDate, JSDate.getter. f_equal.
  assert (Hday : Day u = MakeDay ty fm dim).
  { clearbody localTime. subst u. unfold Day, msPerDay in *.
    Z.div_mod_to_equations. lia. }
  destruct (civil_of_MakeDay ty fm dim u Hfm ltac:(unfold dim; lia) Hday)
    as (_ & _ & HD).
  exact HD.
Qed.

Lemma add_one_month_clamped t w :
  - maxTime <= t -> t + 63 * MS_PER_DAY <= maxTime ->
  100 <= YearFromTime t ->
  let ty := YearFromTime t + (MonthFromTime t + 1) / 12 in
  let fm := (MonthFromTime t + 1) mod 12 in
  let len := monthStart (isLeap ty) (fm + 1) - monthStart (isLeap ty) fm in
  let t' := MakeDate (MakeDay ty fm (Z.min (DateFromTime t) len))
              (TimeWithinDay t) in
  zone.addTimeWithDST host (Int t) (Int 1) month "UTC" w = (Ok (Int t'), w)
  /\ t <= t' <= t + 62 * MS_PER_DAY
  /\ YearFromTime t' = ty /\ MonthFromTime t' = fm
  /\ DateFromTime t' = Z.min (DateFromTime t) len
  /\ TimeWithinDay t' = TimeWithinDay t.
Proof.
  intros Hlo Hhi Hy ty fm len t'.
  assert (Hr : - maxTime <= t <= maxTime) by (unfold MS_PER_DAY in *; lia).
  destruct (civil_decomposition t) as (HM & HD & Hday).
  destruct (next_month (YearFromTime t) (MonthFromTime t) HM)
    as (Hfm & _ & HN).
  fold ty fm in Hfm, HN.
  destruct (monthStart_bounds (InLeapYear t) (MonthFromTime t) HM)
    as (_ & HlenM & _).
  destruct (monthStart_bounds (isLeap ty) fm Hfm) as (_ & Hlen & _).
  fold len in Hlen.
  pose proof (TimeWithinDay_bounds t) as Htod.
  pose proof (MakeDate_Day t) as Ht.
  set (N := DayFromYear (YearFromTime t)
            + monthStart (isLeap (YearFromTime t)) (MonthFromTime t + 1)) in *.
  assert (HNt : Day t + 1 <= N <= Day t + 31).
  { unfold N, InLeapYear in *. lia. }
  assert (Hty : 100 <= ty).
  { unfold ty. assert (0 <= (MonthFromTime t + 1) / 12)
      by (apply Z.div_pos; lia). lia. }
  assert (Hmk : forall d, MakeDay ty fm d = N + d - 1).
  { intros d. rewrite MakeDay_normal by exact Hfm. lia. }
  assert (Hlast :
            JSDate.getUTCDate
              (JSDate.ofLocalFields host (Int ty) (Int (fm + 1)) (Int 0))
            = Int len).
  { apply lastDayOfTargetMonth_exact; try assumption.
    - rewrite Hmk. unfold MakeDate, msPerDay, MS_PER_DAY in *. lia.
    - rewrite MakeDay_day_zero by exact Hfm. fold len.
      replace (DayFromYear ty + monthStart (isLeap ty) (fm + 1) - 1)
        with (N + len - 1) by (unfold len; lia).
      unfold MakeDate, msPerDay, MS_PER_DAY in *. lia. }
  assert (Ht' : t' = MakeDate (N + Z.min (DateFromTime t) len - 1)
                       (TimeWithinDay t)).
  { unfold t'. now rewrite Hmk. }
  assert (Hrange : t <= t' <= t + 62 * MS_PER_DAY).
  { rewrite Ht'. unfold MakeDate, msPerDay, MS_PER_DAY in *. lia. }
  split; [| split; [exact Hrange |]].
  - rewrite add_one_month_UTC by exact Hr. fold ty fm N. rewrite Hlast.
    rewrite TimeClip_in
      by (unfold MakeDate, msPerDay, MS_PER_DAY in *; lia).
    rewrite <- Ht'. rewrite TimeClip_in; [reflexivity |].
    unfold MS_PER_DAY in *. lia.
  - destruct (Day_MakeDate (MakeDay ty fm (Z.min (DateFromTime t) len))
                (TimeWithinDay t) Htod) as (HDay & Htw).
    fold t' in HDay, Htw.
    destruct (civil_of_MakeDay ty fm (Z.min (DateFromTime t) len) t' Hfm
                ltac:(fold len; lia) HDay) as (H1 & H2 & H3).
    now repeat split.
Qed.

End MonthClamp.

(** X24. On a host whose local time is not ahead of UTC, [add(1,
    "month")] in UTC keeps the time of day and lands in the following
    calendar month on the same day of the month, or on the last day of
    that month if it is shorter. *)
Theorem add_month_clamps_to_the_month_length
    (host : Platform) (this : Krono) (t : Z) (w : World) :
  hostNotAheadOfUTC host ->
  _zone this = "UTC" -> _time this = Int t ->
  - 8640000000000000 <= t -> t + 63 * MS_PER_DAY <= 8640000000000000 ->
  100 <= DateSpec.YearFromTime t ->
  exists t',
    add host this (Int 1) month w = (Ok (withTime this t'), w)
    /\ DateSpec.YearFromTime t'
       = DateSpec.YearFromTime t + (DateSpec.MonthFromTime t + 1) / 12
    /\ DateSpec.MonthFromTime t' = (DateSpec.MonthFromTime t + 1) mod 12
    /\ DateSpec.DateFromTime t'
       = Z.min (DateSpec.DateFromTime t)
           (DateSpec.monthStart (DateSpec.InLeapYear t')
              (DateSpec.MonthFromTime t' + 1)
            - DateSpec.monthStart (DateSpec.InLeapYear t')
                (DateSpec.MonthFromTime t'))
    /\ DateSpec.TimeWithinDay t' = DateSpec.TimeWithinDay t.
Proof.
  intros Hhost Hz Ht Hlo Hhi Hy.
  destruct (add_one_month_clamped host Hhost t w Hlo Hhi Hy)
    as (Hadd & Hrange & HY & HM & HD & HT).
  cbv zeta in *.
  eexists. split.
  - rewrite (add_UTC host this t) by (try assumption;
      unfold DateSpec.maxTime, MS_PER_DAY in *; lia).
    rewrite (bind_run_Ok _ Hadd).
    apply new_Krono_withTime; [exact Hz |].
    unfold DateSpec.maxTime, MS_PER_DAY in *. lia.
  - unfold DateSpec.InLeapYear. rewrite HY, HM. now repeat split.
Qed.

Lemma add_month_clamps_to_the_month_length_witness :
  exists t',
    add utcHost (instant 1738330200000 "UTC") (Int 1) month initialWorld
    = (Ok (withTime (instant 1738330200000 "UTC") t'), initialWorld)
    /\ DateSpec.YearFromTime t' = 2025
    /\ DateSpec.MonthFromTime t' = 1
    /\ DateSpec.DateFromTime t' = 28
    /\ DateSpec.TimeWithinDay t' = 48600000.
Proof.
  assert (Hhost : hostNotAheadOfUTC utcHost).
  { intros x. vm_compute. split; [reflexivity | discriminate]. }
  assert (Hhi : 1738330200000 + 63 * MS_PER_DAY <= 8640000000000000).
  { vm_compute. discriminate. }
  assert (Hy : 100 <= DateSpec.YearFromTime 1738330200000).
  { vm_compute. discriminate. }
  destruct (add_month_clamps_to_the_month_length utcHost
              (instant 1738330200000 "UTC") 1738330200000 initialWorld
              Hhost eq_refl eq_refl ltac:(lia) Hhi Hy)
    as (t' & H1 & H2 & H3 & H4 & H5).
  exists t'. split; [exact H1 |].
  split; [exact H2 |]. split; [exact H3 |]. split; [| exact H5].
  rewrite H4. unfold DateSpec.InLeapYear. rewrite H2, H3. reflexivity.
Defined.

(* ================================================================== *)
(** * Years later, in UTC                                               *)
(* ================================================================== *)

Section YearStep.
Import DateSpec.
Variable host : Platform.

Lemma add_years_UTC t n w :
  - maxTime <= t <= maxTime ->
  zone.addTimeWithDST host (Int t) (Int n) year "UTC" w
  = (Ok (TimeClip (MakeDate (MakeDay (YearFromTime t + n) (MonthFromTime t)
                               (DateFromTime t))
                            (TimeWithinDay t))), w).
Proof.
  intros Ht. rewrite addTimeWithDST_UTC_calendar by (auto; exact Ht).
  reflexivity.
Qed.

(** Only 29 February can be missing from the same month of another
    year. *)
Lemma day_missing_in_year (l l' : bool) m d :
  0 <= m <= 11 ->
  1 <= d <= monthStart l (m + 1) - monthStart l m ->
  monthStart l' (m + 1) - monthStart l' m < d ->
  m = 1 /\ d = 29 /\ l' = false.
Proof.
  intros Hm Hd Hlt.
  assert (Hc : m = 0 \/ m = 1 \/ m = 2 \/ m = 3 \/ m = 4 \/ m = 5 \/ m = 6
               \/ m = 7 \/ m = 8 \/ m = 9 \/ m = 10 \/ m = 11) by lia.
  destruct l, l';
    repeat (destruct Hc as [-> | Hc]; [simpl in *; try lia; auto |]);
    subst m; simpl in *; lia.
Qed.

End YearStep.



(* ================================================================== *)
(** * Relative-time texts and daylight saving                           *)
(* ================================================================== *)

Section RelativeTexts.

Lemma firstThreshold_finite d :
  exists unit divisor,
    firstThreshold (Int d) RELATIVE_TIME_THRESHOLDS = Some (unit, divisor)
    /\ 0 < divisor.
Proof.
  unfold RELATIVE_TIME_THRESHOLDS, firstThreshold, secondsBelow.
  repeat match goal with
         | |- context [if ?b then _ else _] =>
             destruct b; [eexists _, _; split; [reflexivity | lia] |]
         end.
  eexists _, _; split; [reflexivity | lia].
Qed.

Lemma roundQuotient_Int d divisor :
  roundQuotient (Int d) divisor = Int ((2 * d + 1000 * divisor) / (2000 * divisor)).
Proof. reflexivity. Qed.

(** A text that starts with the decimal digits of an integer does not
    start with a letter. *)
Lemma ofZ_not_letter z rest (c : ascii) text :
  leadChar c = false ->
  String.append (Str.ofZ z) rest <> String c text.
Proof.
  intros Hc H. destruct (ofZ_head z) as (c' & l & Hl & Hc').
  apply (f_equal Str.chars) in H. rewrite chars_append, Hl in H.
  simpl in H. injection H as -> _. congruence.
Qed.

End RelativeTexts.

(** X26. [fromNow] calls every instant less than 45 seconds from the
    clock reading ["a few seconds ago"], whether it lies in the past or
    in the future. *)
Theorem fromNow_within_45_seconds
    (host : Platform) (this : Krono) (t nowT : Z) (w : World) :
  _time this = Int t ->
  DateNow host (clockReads w) = nowT ->
  Z.abs (nowT - t) < 45000 ->
  fromNow host this w = (Ok "a few seconds ago", tick w)
  /\ toNow host this w = (Ok "a few seconds ago", tick w).
Proof.
  intros Ht Hnow Hd.
  assert (H : fromNow host this w = (Ok "a few seconds ago", tick w)).
  { unfold fromNow. rewrite (bind_run_Ok _ (Date_now_run host w)).
    rewrite Hnow, Ht. cbv zeta.
    unfold secondsBelow, Math_abs, nsub, nadd, nneg.
    replace (nowT + - t) with (nowT - t) by lia.
    destruct (Z.ltb_spec (Z.abs (nowT - t)) (1000 * 45)); [reflexivity | lia]. }
  split; [exact H | exact H].
Qed.

Lemma fromNow_within_45_seconds_witness :
  fromNow utcHost (instant (1750000000000 + 30000) "UTC") initialWorld
  = (Ok "a few seconds ago", tick initialWorld).
Proof.
  refine (proj1 (fromNow_within_45_seconds utcHost
                   (instant (1750000000000 + 30000) "UTC")
                   (1750000000000 + 30000) 1750000000000 initialWorld _ _ _));
    first [reflexivity | lia].
Defined.

(** X27. The fall-back texts are out of reach: for an instant with a
    finite timestamp [fromNow] never answers ["a long time ago"] or
    ["in a long time"], and [formatDistance] between two such instants
    never answers ["a very long time"], since the last threshold of the
    table is infinite. *)
Theorem relative_texts_never_fall_back
    (host : Platform) (this other : Krono) (a b : Z) (w : World) :
  fst (fromNow host (withTime this a) w) <> Ok "a long time ago"
  /\ fst (fromNow host (withTime this a) w) <> Ok "in a long time"
  /\ formatDistance (withTime this a) (withTime other b) <> "a very long time".
Proof.
  assert (Hfrom : forall text,
            text = "a long time ago" \/ text = "in a long time" ->
            fst (fromNow host (withTime this a) w) <> Ok text).
  { intros text Htext. unfold fromNow.
    rewrite (bind_run_Ok _ (Date_now_run host w)). cbn [withTime _time]. cbv zeta.
    set (nowT := DateNow host (clockReads w)).
    change (Math_abs (nsub (Int nowT) (Int a))) with (Int (Z.abs (nowT + - a))).
    destruct (secondsBelow (Int (Z.abs (nowT + - a))) (Some 45)).
    { destruct Htext as [-> | ->]; cbn [fst ret]; discriminate. }
    destruct (firstThreshold_finite (Z.abs (nowT + - a)))
      as (unit & divisor & -> & Hdiv).
    rewrite roundQuotient_Int.
    set (value := (2 * Z.abs (nowT + - a) + 1000 * divisor) / (2000 * divisor)).
    change (Str.ofNumber (Int value)) with (Str.ofZ value).
    destruct (nlt (Int a) (Int nowT)); cbn [fst ret String.concat];
      intros H; injection H as H.
    - destruct Htext as [-> | ->];
        refine (ofZ_not_letter value _ _ _ _ H); reflexivity.
    - destruct Htext as [-> | ->]; [discriminate |].
      cbn [String.append] in H. injection H as H.
      refine (ofZ_not_letter value _ _ _ _ H); reflexivity. }
  split; [apply Hfrom; now left |]. split; [apply Hfrom; now right |].
  unfold formatDistance. cbn [withTime _time]. cbv zeta.
  change (Math_abs (nsub (Int a) (Int b))) with (Int (Z.abs (a + - b))).
  destruct (firstThreshold_finite (Z.abs (a + - b)))
    as (unit & divisor & -> & Hdiv).
  destruct (strict_eq _ _); cbn [String.concat String.append]; discriminate.
Qed.

(** X28. In UTC [isDST] is always [true]: the offsets in January, in
    July and at the instant are all 0, and the instant's offset equals
    the smaller of the other two. *)
Theorem isDST_is_true_in_UTC
    (host : Platform) (this : Krono) (w : World) :
  _zone this = "UTC" ->
  isDST host this w = (Ok true, w).
Proof.
  intros Hz. unfold isDST, getOffsetInMinutes, getYear, fieldOf. rewrite Hz.
  change (String.eqb "UTC" "UTC") with true. cbv iota.
  unfold bind at 1. unfold ret at 1. cbv zeta.
  rewrite (bind_run_Ok _ (getOffset_UTC_run host _ w)).
  rewrite (bind_run_Ok _ (getOffset_UTC_run host _ w)).
  rewrite (bind_run_Ok _ (getOffset_UTC_run host _ w)).
  reflexivity.
Qed.

Lemma isDST_is_true_in_UTC_witness :
  isDST utcHost (instant 1735732800000 "UTC") initialWorld
  = (Ok true, initialWorld).
Proof.
  apply (isDST_is_true_in_UTC utcHost (instant 1735732800000 "UTC") initialWorld).
  reflexivity.
Defined.
